(** * Argeon: the instance installer

    A shallow embedding of the installation pipeline of the Argeon
    launcher front end:

    - [frontend/src/windows/main/ts/utils.ts]            ([pathExists], [curlGet], icon fetches),
    - [frontend/src/windows/main/ts/instances/create.ts]   (module [Create]),
    - [frontend/src/windows/main/ts/instances/instance.ts] (module [Instance]),
    - the instance card component, of which [checkCanPlay] is modelled
      (module [Card]).

    The program is asynchronous but strictly sequential (every effect is
    awaited), so it is modelled in a state-and-exception monad over an
    explicit [World]; every call that reaches outside of the program
    (file system, shell command, event channel, toast, timer) is recorded
    in the trace a computation emits.  Console output is not modelled. *)

From Stdlib Require Import ZArith String Ascii Floats.
From stdpp Require Import gmap strings list fin_maps pretty.

Local Open Scope Z_scope.

(** ** JavaScript values used by the program *)

Module JS.

(** [String.prototype.startsWith]. *)
Definition startsWith (s pre : string) : bool := String.prefix pre s.

(** [String.prototype.toLowerCase], on the ASCII range. *)
Definition lower_ascii (c : ascii) : ascii :=
  let n := nat_of_ascii c in
  if ((65 <=? n)%nat && (n <=? 90)%nat)%bool then ascii_of_nat (n + 32) else c.

Fixpoint toLowerCase (s : string) : string :=
  match s with
  | EmptyString => EmptyString
  | String c s' => String (lower_ascii c) (toLowerCase s')
  end.

(** The character class [[a-z0-9]]. *)
Definition is_lower_alnum (c : ascii) : bool :=
  let n := nat_of_ascii c in
  (((97 <=? n)%nat && (n <=? 122)%nat) || ((48 <=? n)%nat && (n <=? 57)%nat))%bool.

(** [s.replace(/[^a-z0-9]/g, '_')]. *)
Fixpoint replace_non_alnum (s : string) : string :=
  match s with
  | EmptyString => EmptyString
  | String c s' =>
      String (if is_lower_alnum c then c else "_"%char) (replace_non_alnum s')
  end.

(** A text between double quotes, as the command lines have it. *)
Definition dquote : string := String (ascii_of_nat 34) EmptyString.
Definition quoted (s : string) : string := dquote +:+ s +:+ dquote.

(** [Array.prototype.join]. *)
Fixpoint join_with (sep : string) (l : list string) : string :=
  match l with
  | [] => ""
  | [x] => x
  | x :: rest => x +:+ sep +:+ join_with sep rest
  end.

(** JSON values; an object is a finite map from keys to values. *)
#[warnings="-register-all"]
Inductive JValue :=
| JNull
| JBool (b : bool)
| JNum (z : Z)
| JStr (s : string)
| JArr (l : list JValue)
| JObj (m : gmap string JValue).

(** A JavaScript string that is written to or read from a file or a
    pipe: literal text, the text [JSON.stringify] produced for a value,
    or two texts one after the other.  The characters of the second kind
    are those the [JSON.stringify] of the platform gives (see [render]
    below); the indentation create.ts asks for when it writes
    [instance.json], a file the program never reads, is not modelled. *)
Inductive Text :=
| Raw (s : string)
| Stringified (j : JValue)
| Append (a b : Text).

(** The length of a text.  For a stringified value only a lower bound is
    modelled (a JSON text is never empty), which is all the program can
    observe: sizes are only ever compared with zero. *)
Fixpoint text_length (t : Text) : Z :=
  match t with
  | Raw s => Z.of_nat (String.length s)
  | Stringified _ => 1
  | Append a b => text_length a + text_length b
  end.

(** An exception value: Neutralino errors carry a [code], a plain
    [Error] does not. *)
Record Exn := { code : option string; message : string }.

Definition Error (msg : string) : Exn := {| code := None; message := msg |}.
Definition NeuError (c : string) (msg : string) : Exn :=
  {| code := Some c; message := msg |}.
Definition SyntaxError : Exn := Error "Unexpected token in JSON".
Definition TypeError (msg : string) : Exn := Error msg.

Inductive Res (A : Type) :=
| Ok (a : A)
| Thrown (e : Exn).
Arguments Ok {A} a.
Arguments Thrown {A} e.

(** Reading a property: [undefined] is [None]; reading from [null]
    throws. *)
Definition get_member (v : JValue) (k : string) : Res (option JValue) :=
  match v with
  | JNull => Thrown (TypeError "Cannot read properties of null")
  | JObj m => Ok (m !! k)
  | _ => Ok None
  end.

(** Reading a property of the result of another read. *)
Definition get_property (v : option JValue) (k : string) : Res (option JValue) :=
  match v with
  | None => Thrown (TypeError "Cannot read properties of undefined")
  | Some j => get_member j k
  end.

(** An object literal whose [undefined] properties are left out, as
    [JSON.stringify] leaves them out. *)
Definition object_of (fields : list (string * option JValue)) : JValue :=
  JObj (list_to_map (omap (fun kv => match kv.2 with
                                     | Some v => Some (kv.1, v)
                                     | None => None
                                     end) fields)).

(** The elements a [for ... of] loop runs over: those of an array, the
    characters of a string; any other value is not iterable. *)
Definition iterate (v : option JValue) : Res (list JValue) :=
  match v with
  | Some (JArr l) => Ok l
  | Some (JStr s) => Ok (map (fun c => JStr (String c EmptyString)) (list_ascii_of_string s))
  | _ => Thrown (TypeError "value is not iterable")
  end.

(** The characters [encodeURI] leaves as they are. *)
Definition uri_kept (c : ascii) : bool :=
  let n := nat_of_ascii c in
  (((97 <=? n)%nat && (n <=? 122)%nat) || ((65 <=? n)%nat && (n <=? 90)%nat)
   || ((48 <=? n)%nat && (n <=? 57)%nat)
   || existsb (Ascii.eqb c) (list_ascii_of_string ";/?:@&=+$,-_.!~*'()#"))%bool.

Definition hex_digit (n : nat) : ascii :=
  if (n <? 10)%nat then ascii_of_nat (48 + n) else ascii_of_nat (55 + n).

(** [encodeURI], on the ASCII range. *)
Fixpoint encodeURI (s : string) : string :=
  match s with
  | EmptyString => EmptyString
  | String c s' =>
      if uri_kept c then String c (encodeURI s')
      else
        let n := nat_of_ascii c in
        String "%"%char
          (String (hex_digit (n / 16)) (String (hex_digit (n mod 16)) (encodeURI s')))
  end.

(** [base[k] = v] in strict mode, for a key that is no array index: the
    base as it is serialised afterwards.  A property set on an array is
    not serialised. *)
Definition set_member (base : option JValue) (k : string) (v : JValue) : Res JValue :=
  match base with
  | Some (JObj m) => Ok (JObj (<[k := v]> m))
  | Some (JArr l) => Ok (JArr l)
  | Some JNull => Thrown (TypeError "Cannot set properties of null")
  | Some _ => Thrown (TypeError "Cannot create property")
  | None => Thrown (TypeError "Cannot set properties of undefined")
  end.

(** *** Numbers

    Counters are integers; the percentage is computed in binary64
    floating point, as [Math.round((c / t) * 100)] is. *)

Definition to_number (z : Z) : float :=
  if z <? 0 then PrimFloat.opp (PrimFloat.of_uint63 (Uint63.of_Z (- z)))
  else PrimFloat.of_uint63 (Uint63.of_Z z).

(** [Math.round]: the nearest integer, ties towards plus infinity. *)
Definition Math_round (x : float) : float :=
  match Prim2SF x with
  | S754_finite s m e =>
      if 0 <=? e then x
      else
        let d := 2 ^ (- e) in
        let v := if s then Z.opp (Z.pos m) else Z.pos m in
        let n := (2 * v + d) / (2 * d) in
        if (n =? 0) && s then (-0)%float else to_number n
  | _ => x
  end.

End JS.
Export JS.

(** ** JSON texts

    The printer and the parser the program is run with on concrete
    inputs. *)

Module Json.

(** *** [JSON.stringify]

    Without an indentation.  The members of an object come in the order
    of the map, which keeps no record of the order they were set in. *)

Definition lower_hex (n : nat) : ascii :=
  if (n <? 10)%nat then ascii_of_nat (48 + n) else ascii_of_nat (87 + n).

Definition backslash : string := String (ascii_of_nat 92) EmptyString.

Definition escape (c : ascii) : string :=
  let n := nat_of_ascii c in
  if (n =? 34)%nat then backslash +:+ dquote
  else if (n =? 92)%nat then backslash +:+ backslash
  else if (n =? 8)%nat then backslash +:+ "b"
  else if (n =? 12)%nat then backslash +:+ "f"
  else if (n =? 10)%nat then backslash +:+ "n"
  else if (n =? 13)%nat then backslash +:+ "r"
  else if (n =? 9)%nat then backslash +:+ "t"
  else if (n <? 32)%nat
       then backslash +:+ "u00"
              +:+ String (lower_hex (n / 16)) (String (lower_hex (n mod 16)) EmptyString)
  else String c EmptyString.

Fixpoint escaped (s : string) : string :=
  match s with
  | EmptyString => EmptyString
  | String c rest => escape c +:+ escaped rest
  end.

Fixpoint stringify (j : JValue) : string :=
  match j with
  | JNull => "null"
  | JBool true => "true"
  | JBool false => "false"
  | JNum z => pretty z
  | JStr s => quoted (escaped s)
  | JArr l => "[" +:+ join_with "," (map stringify l) +:+ "]"
  | JObj m =>
      "{" +:+ join_with ","
                (map_fold (fun k v members =>
                             members ++ [quoted (escaped k) +:+ ":" +:+ stringify v])
                          [] m)
          +:+ "}"
  end.

(** *** [JSON.parse]

    The grammar of ECMA-404 for the values of the model: numbers are
    integers (a number with a fraction or an exponent is read when its
    value is an integer and is not accepted otherwise), and the
    characters of a string are code units below 256 (an escape [\u] of
    a higher code unit is not accepted). *)

Definition is_ws (c : ascii) : bool :=
  let n := nat_of_ascii c in
  ((n =? 32) || (n =? 9) || (n =? 10) || (n =? 13))%nat.

Fixpoint skip_ws (s : string) : string :=
  match s with
  | String c rest => if is_ws c then skip_ws rest else s
  | EmptyString => EmptyString
  end.

Definition digit (c : ascii) : option Z :=
  let n := nat_of_ascii c in
  if ((48 <=? n) && (n <=? 57))%nat then Some (Z.of_nat (n - 48)) else None.

Fixpoint digits (acc : Z) (s : string) : Z * string :=
  match s with
  | String c rest =>
      match digit c with
      | Some d => digits (10 * acc + d) rest
      | None => (acc, s)
      end
  | EmptyString => (acc, s)
  end.

(** The digits at the head of a text, read on from [acc], and how many
    they are. *)
Fixpoint counted (acc : Z) (n : nat) (s : string) : Z * nat * string :=
  match s with
  | String c rest =>
      match digit c with
      | Some d => counted (10 * acc + d) (S n) rest
      | None => (acc, n, s)
      end
  | EmptyString => (acc, n, s)
  end.

(** The fraction of a number whose integer part is [int]: the digits of
    both, and the number of those after the point. *)
Definition fraction (int : Z) (s : string) : option (Z * nat * string) :=
  match s with
  | String "." rest =>
      let r := counted int 0 rest in
      if (r.1.2 =? 0)%nat then None else Some r
  | _ => Some (int, 0%nat, s)
  end.

Definition exponent (s : string) : option (Z * string) :=
  match s with
  | String c rest =>
      if existsb (Ascii.eqb c) (list_ascii_of_string "eE") then
        let signed :=
          match rest with
          | String "-" r => (true, r)
          | String "+" r => (false, r)
          | _ => (false, rest)
          end in
        let r := counted 0 0 signed.2 in
        if (r.1.2 =? 0)%nat then None
        else Some (if signed.1 then - r.1.1 else r.1.1, r.2)
      else Some (0, s)
  | EmptyString => Some (0, s)
  end.

(** A number; the model has integers only, so a number that is none
    has no value. *)
Definition number (s : string) : option (Z * string) :=
  let signed :=
    match s with
    | String "-" rest => (true, rest)
    | _ => (false, s)
    end in
  match signed.2 with
  | String c rest =>
      match digit c with
      | Some d =>
          let int := if d =? 0 then (0, rest) else digits d rest in
          match fraction int.1 int.2 with
          | Some (mantissa, places, r) =>
              match exponent r with
              | Some (e, r') =>
                  let scale := e - Z.of_nat places in
                  let sign := fun z : Z => if signed.1 then - z else z in
                  if 0 <=? scale then Some (sign (mantissa * 10 ^ scale), r')
                  else if mantissa mod 10 ^ (- scale) =? 0
                       then Some (sign (mantissa / 10 ^ (- scale)), r')
                       else None
              | None => None
              end
          | None => None
          end
      | None => None
      end
  | EmptyString => None
  end.

Definition hex_value (c : ascii) : option nat :=
  let n := nat_of_ascii c in
  if ((48 <=? n) && (n <=? 57))%nat then Some (n - 48)%nat
  else if ((65 <=? n) && (n <=? 70))%nat then Some (n - 55)%nat
  else if ((97 <=? n) && (n <=? 102))%nat then Some (n - 87)%nat
  else None.

Definition unescape (c : ascii) : option ascii :=
  let n := nat_of_ascii c in
  if (n =? 34)%nat then Some c
  else if (n =? 92)%nat then Some c
  else if (n =? 47)%nat then Some c
  else if (n =? 98)%nat then Some (ascii_of_nat 8)
  else if (n =? 102)%nat then Some (ascii_of_nat 12)
  else if (n =? 110)%nat then Some (ascii_of_nat 10)
  else if (n =? 114)%nat then Some (ascii_of_nat 13)
  else if (n =? 116)%nat then Some (ascii_of_nat 9)
  else None.

(** The characters of a string literal after its opening quote, and
    what follows the closing one. *)
Fixpoint characters (s : string) : option (string * string) :=
  match s with
  | EmptyString => None
  | String c rest =>
      let n := nat_of_ascii c in
      if (n =? 34)%nat then Some (EmptyString, rest)
      else if (n =? 92)%nat then
        match rest with
        | String e rest' =>
            match unescape e with
            | Some x =>
                match characters rest' with
                | Some (l, r) => Some (String x l, r)
                | None => None
                end
            | None =>
                match e, rest' with
                | "u"%char, String a (String b (String h (String l rest''))) =>
                    match hex_value a, hex_value b, hex_value h, hex_value l with
                    | Some 0%nat, Some 0%nat, Some x, Some y =>
                        match characters rest'' with
                        | Some (l', r) => Some (String (ascii_of_nat (16 * x + y)) l', r)
                        | None => None
                        end
                    | _, _, _, _ => None
                    end
                | _, _ => None
                end
            end
        | EmptyString => None
        end
      else if (n <? 32)%nat then None
      else
        match characters rest with
        | Some (l, r) => Some (String c l, r)
        | None => None
        end
  end.

Definition literal (word : string) (v : JValue) (s : string) : option (JValue * string) :=
  if String.prefix word s
  then Some (v, String.substring (String.length word)
                  (String.length s - String.length word) s)
  else None.

Fixpoint value (fuel : nat) (s : string) : option (JValue * string) :=
  match fuel with
  | O => None
  | S fuel' =>
      match skip_ws s with
      | EmptyString => None
      | String c rest =>
          let n := nat_of_ascii c in
          if (n =? 123)%nat then
            match skip_ws rest with
            | String "}" rest' => Some (JObj ∅, rest')
            | _ => members fuel' ∅ rest
            end
          else if (n =? 91)%nat then
            match skip_ws rest with
            | String "]" rest' => Some (JArr [], rest')
            | _ => elements fuel' [] rest
            end
          else if (n =? 34)%nat then
            match characters rest with
            | Some (x, r) => Some (JStr x, r)
            | None => None
            end
          else if (n =? 116)%nat then literal "true" (JBool true) (String c rest)
          else if (n =? 102)%nat then literal "false" (JBool false) (String c rest)
          else if (n =? 110)%nat then literal "null" JNull (String c rest)
          else
            match number (String c rest) with
            | Some (z, r) => Some (JNum z, r)
            | None => None
            end
      end
  end
with members (fuel : nat) (seen : gmap string JValue) (s : string)
  : option (JValue * string) :=
  match fuel with
  | O => None
  | S fuel' =>
      match skip_ws s with
      | String c rest =>
          if (nat_of_ascii c =? 34)%nat then
            match characters rest with
            | Some (k, r) =>
                match skip_ws r with
                | String ":" r' =>
                    match value fuel' r' with
                    | Some (v, r'') =>
                        match skip_ws r'' with
                        | String "," next => members fuel' (<[k := v]> seen) next
                        | String "}" after => Some (JObj (<[k := v]> seen), after)
                        | _ => None
                        end
                    | None => None
                    end
                | _ => None
                end
            | None => None
            end
          else None
      | EmptyString => None
      end
  end
with elements (fuel : nat) (seen : list JValue) (s : string)
  : option (JValue * string) :=
  match fuel with
  | O => None
  | S fuel' =>
      match value fuel' s with
      | Some (v, r) =>
          match skip_ws r with
          | String "," next => elements fuel' (seen ++ [v]) next
          | String "]" after => Some (JArr (seen ++ [v]), after)
          | _ => None
          end
      | None => None
      end
  end.

Definition parse (s : string) : option JValue :=
  match value (2 * String.length s + 2) s with
  | Some (v, rest) =>
      match skip_ws rest with
      | EmptyString => Some v
      | _ => None
      end
  | None => None
  end.

End Json.

(** ** The libraries of the platform

    [path-browserify] is an external dependency, of which the program
    only uses [join] and [dirname]; [JSON] belongs to the JavaScript
    engine.  The development is generic in both; [posix] below, the POSIX
    behaviour of the path library with the printer and the parser of
    [Json], is used to run the program on concrete inputs. *)

Class Libraries := {
  join : list string -> string;
  dirname : string -> string;
  JSON_stringify : JValue -> string;
  JSON_parse_text : string -> option JValue
}.

(** The characters of a text. *)
Fixpoint render `{Libraries} (t : Text) : string :=
  match t with
  | Raw s => s
  | Stringified j => JSON_stringify j
  | Append a b => render a +:+ render b
  end.

(** [JSON.parse]: the inverse of [JSON.stringify] on the text of a
    value; on any other text, what the parser of the platform makes of
    its characters, a syntax error when it rejects them. *)
Definition JSON_parse `{Libraries} (t : Text) : Res JValue :=
  match t with
  | Stringified j => Ok j
  | _ =>
      match JSON_parse_text (render t) with
      | Some j => Ok j
      | None => Thrown SyntaxError
      end
  end.

Module Posix.

Definition slash : ascii := "/"%char.

Fixpoint split_slash (s : string) : list string :=
  match s with
  | EmptyString => [""]
  | String c s' =>
      let r := split_slash s' in
      if Ascii.eqb c slash then "" :: r
      else match r with
           | h :: t => String c h :: t
           | [] => [String c ""]
           end
  end.

(** One step of [normalizeStringPosix]: [stack] holds the segments kept
    so far, innermost first. *)
Definition push_segment (allowAboveRoot : bool) (stack : list string) (seg : string)
  : list string :=
  if String.eqb seg "" || String.eqb seg "." then stack
  else if String.eqb seg ".." then
    match stack with
    | top :: below =>
        if String.eqb top ".." then seg :: stack else below
    | [] => if allowAboveRoot then [seg] else []
    end
  else seg :: stack.

Definition first_is_slash (s : string) : bool :=
  match s with
  | String c _ => Ascii.eqb c slash
  | EmptyString => false
  end.

Fixpoint last_is_slash (s : string) : bool :=
  match s with
  | EmptyString => false
  | String c EmptyString => Ascii.eqb c slash
  | String _ s' => last_is_slash s'
  end.

Definition normalize (path : string) : string :=
  if String.eqb path "" then "."
  else
    let isAbsolute := first_is_slash path in
    let trailingSeparator := last_is_slash path in
    let segs := rev (fold_left (push_segment (negb isAbsolute)) (split_slash path) []) in
    let p := join_with "/" segs in
    let p := if String.eqb p "" && negb isAbsolute then "." else p in
    let p := if negb (String.eqb p "") && trailingSeparator then p +:+ "/" else p in
    if isAbsolute then "/" +:+ p else p.

Definition join (args : list string) : string :=
  match filter (fun a => String.eqb a "" = false) args with
  | [] => "."
  | parts => normalize (join_with "/" parts)
  end.

(** The backwards scan of [dirname] over the characters at index 1 and
    above, given last first; the result is the number of characters
    before the separator that ends the directory part. *)
Fixpoint scan_end (matchedSlash : bool) (rev_tail : list ascii) : option nat :=
  match rev_tail with
  | [] => None
  | c :: rest =>
      if Ascii.eqb c slash then
        if matchedSlash then scan_end true rest else Some (S (List.length rest))
      else scan_end false rest
  end.

Definition dirname (path : string) : string :=
  match list_ascii_of_string path with
  | [] => "."
  | c0 :: tail =>
      let hasRoot := Ascii.eqb c0 slash in
      match scan_end true (rev tail) with
      | None => if hasRoot then "/" else "."
      | Some e =>
          if hasRoot && (e =? 1)%nat then "//"
          else string_of_list_ascii (take e (c0 :: tail))
      end
  end.

End Posix.

Definition posix : Libraries :=
  {| join := Posix.join; dirname := Posix.dirname;
     JSON_stringify := Json.stringify; JSON_parse_text := Json.parse |}.

(** ** The world outside of the program *)

Inductive Node :=
| NDir
| NFile (data : Text).

(** What [filesystem.getStats] resolves to. *)
Record Stats := { isFile : bool; isDirectory : bool; size : Z }.

Definition stats_of (n : Node) : Stats :=
  match n with
  | NDir => {| isFile := false; isDirectory := true; size := 0 |}
  | NFile d => {| isFile := true; isDirectory := false; size := text_length d |}
  end.

(** What [os.execCommand] resolves to. *)
Record ExecResult := { exitCode : Z; stdOut : Text; stdErr : string }.

(** What running a shell command does: its result and the files it
    leaves behind ([None] deletes a path). *)
Record ExecOutcome := {
  result : ExecResult;
  effects : list (string * option Node)
}.

(** What [fetch] resolves to for the bundled icon: the body and its
    rendering as a base64 data URL. *)
Record Response := { ok : bool; statusText : string; body : string; dataUrl : string }.

Record World := {
  NL_OS : string;                           (* window.NL_OS *)
  env : gmap string string;                 (* environment variables *)
  fs : gmap string Node;                    (* the file system, by absolute path *)
  execOracle : nat -> string -> ExecOutcome; (* the n-th shell command run *)
  execCount : nat;
  clock : Z;                                (* milliseconds *)
  fetchIcon : option Response               (* None: the fetch is rejected *)
}.

Inductive FsOp :=
| GetStats (p : string)
| ReadFile (p : string)
| CreateDirectory (p : string)
| Remove (p : string)
| WriteFile (p : string) (d : Text)
| WriteBinaryFile (p : string) (d : string).

Definition is_write (op : FsOp) : bool :=
  match op with
  | GetStats _ | ReadFile _ => false
  | _ => true
  end.

Record ProgressEvent := {
  filename_of : string;
  current : Z;
  total : Z;
  percentage : float
}.

Inductive ErrorPayload :=
| PMessage (m : string)
| PObject (e : Exn).

Inductive Detail :=
| DProgress (p : ProgressEvent)
| DComplete (instanceName : string) (path : string)
| DError (error : ErrorPayload).

Inductive ToastKind := ToastError | ToastSuccess.

Inductive Event :=
| EFs (op : FsOp)
| EExec (cmd : string)
| ESleep (ms : Z)
| EDispatch (name : string) (detail : Detail)
| EToast (kind : ToastKind) (msg : string) (description : option string).

(** ** The monad *)

Record Outcome (A : Type) := Out {
  res : Res A;
  post : World;
  emitted : list Event
}.
Arguments Out {A} res post emitted.
Arguments res {A} o.
Arguments post {A} o.
Arguments emitted {A} o.

Definition M (A : Type) : Type := World -> Outcome A.

Definition ret {A} (a : A) : M A := fun w => Out (Ok a) w [].

Definition throw {A} (e : Exn) : M A := fun w => Out (Thrown e) w [].

Definition bind {A B} (m : M A) (k : A -> M B) : M B :=
  fun w =>
    match m w with
    | Out (Ok a) w1 t1 =>
        let o := k a w1 in Out (res o) (post o) (t1 ++ emitted o)
    | Out (Thrown e) w1 t1 => Out (Thrown e) w1 t1
    end.

(** [try { m } catch (e) { handler e }]. *)
Definition try_catch {A} (m : M A) (handler : Exn -> M A) : M A :=
  fun w =>
    match m w with
    | Out (Thrown e) w1 t1 =>
        let o := handler e w1 in Out (res o) (post o) (t1 ++ emitted o)
    | o => o
    end.

Declare Scope io_scope.
Delimit Scope io_scope with io.
Notation "x <- m ;; k" := (bind m (fun x => k))
  (at level 100, m at next level, right associativity) : io_scope.
Notation "m ;;; k" := (bind m (fun _ => k))
  (at level 100, right associativity) : io_scope.
Local Open Scope io_scope.

Definition emit (e : Event) : M unit := fun w => Out (Ok tt) w [e].

Definition lift {A} (r : Res A) : M A := fun w => Out r w [].

Definition when (b : bool) (m : M unit) : M unit := if b then m else ret tt.

(** [window.NL_OS]. *)
Definition window_NL_OS : M string := fun w => Out (Ok (NL_OS w)) w [].

(** ** The Neutralino API *)

Module os.

(** An unset variable reads as the empty string. *)
Definition getEnv (name : string) : M string :=
  fun w => Out (Ok (default "" (env w !! name))) w [].

Definition apply_effect (m : gmap string Node) (e : string * option Node)
  : gmap string Node :=
  match e.2 with
  | Some n => <[e.1 := n]> m
  | None => delete e.1 m
  end.

Definition execCommand (cmd : string) : M ExecResult :=
  fun w =>
    let o := execOracle w (execCount w) cmd in
    Out (Ok (result o))
        {| NL_OS := NL_OS w; env := env w;
           fs := fold_left apply_effect (effects o) (fs w);
           execOracle := execOracle w; execCount := S (execCount w);
           clock := clock w; fetchIcon := fetchIcon w |}
        [EExec cmd].

End os.

Module filesystem.

Definition set_fs (w : World) (m : gmap string Node) : World :=
  {| NL_OS := NL_OS w; env := env w; fs := m;
     execOracle := execOracle w; execCount := execCount w;
     clock := clock w; fetchIcon := fetchIcon w |}.

(** The proper ancestors of a path: its prefixes that end before a
    separator, the root apart. *)
Fixpoint ancestors_go (pre : string) (rest : string) : list string :=
  match rest with
  | EmptyString => []
  | String c rest' =>
      let tail := ancestors_go (pre +:+ String c "") rest' in
      if Ascii.eqb c "/"%char && negb (String.eqb pre "") then pre :: tail else tail
  end.
Definition ancestors (p : string) : list string := ancestors_go "" p.

(** [k] lies strictly below the directory [p]. *)
Definition below (p k : string) : bool := String.prefix (p +:+ "/") k.

Definition getStats (p : string) : M Stats :=
  fun w =>
    match fs w !! p with
    | Some n => Out (Ok (stats_of n)) w [EFs (GetStats p)]
    | None => Out (Thrown (NeuError "NE_FS_NOPATHE" p)) w [EFs (GetStats p)]
    end.

Definition readFile (p : string) : M Text :=
  fun w =>
    match fs w !! p with
    | Some (NFile d) => Out (Ok d) w [EFs (ReadFile p)]
    | _ => Out (Thrown (NeuError "NE_FS_FILRDER" p)) w [EFs (ReadFile p)]
    end.

(** The directory a file is created in has to exist. *)
Definition parent_ready (m : gmap string Node) (p : string) : bool :=
  match last (ancestors p) with
  | Some q => match m !! q with Some NDir => true | _ => false end
  | None => true
  end.

Definition write (op : FsOp) (p : string) (d : Text) : M unit :=
  fun w =>
    match fs w !! p with
    | Some NDir => Out (Thrown (NeuError "NE_FS_FILWRER" p)) w [EFs op]
    | _ =>
        if parent_ready (fs w) p
        then Out (Ok tt) (set_fs w (<[p := NFile d]> (fs w))) [EFs op]
        else Out (Thrown (NeuError "NE_FS_FILWRER" p)) w [EFs op]
    end.

Definition writeFile (p : string) (d : Text) : M unit := write (WriteFile p d) p d.

Definition writeBinaryFile (p : string) (d : string) : M unit :=
  write (WriteBinaryFile p d) p (Raw d).

Definition is_file (m : gmap string Node) (p : string) : bool :=
  match m !! p with Some (NFile _) => true | _ => false end.

Definition mkdir (m : gmap string Node) (p : string) : gmap string Node :=
  match m !! p with Some _ => m | None => <[p := NDir]> m end.

(** Directories are created with their missing ancestors; a path that
    exists already is an error. *)
Definition createDirectory (p : string) : M unit :=
  fun w =>
    match fs w !! p with
    | Some _ => Out (Thrown (NeuError "NE_FS_DIRCRER" p)) w [EFs (CreateDirectory p)]
    | None =>
        if existsb (is_file (fs w)) (ancestors p)
        then Out (Thrown (NeuError "NE_FS_DIRCRER" p)) w [EFs (CreateDirectory p)]
        else Out (Ok tt) (set_fs w (fold_left mkdir (ancestors p ++ [p]) (fs w)))
                 [EFs (CreateDirectory p)]
    end.

(** A file, or a directory with everything below it. *)
Definition remove (p : string) : M unit :=
  fun w =>
    match fs w !! p with
    | None => Out (Thrown (NeuError "NE_FS_REMVERR" p)) w [EFs (Remove p)]
    | Some _ =>
        Out (Ok tt)
            (set_fs w (filter (fun kv : string * Node =>
                                 kv.1 <> p /\ below p kv.1 = false) (fs w)))
            [EFs (Remove p)]
    end.

End filesystem.

Module events.
Definition dispatch (name : string) (d : Detail) : M unit := emit (EDispatch name d).
End events.

Module toast.
Definition error (msg : string) (description : option string) : M unit :=
  emit (EToast ToastError msg description).
Definition success (msg : string) : M unit := emit (EToast ToastSuccess msg None).
End toast.

(** [await new Promise((resolve) => setTimeout(resolve, ms))]. *)
Definition sleep (ms : Z) : M unit :=
  fun w =>
    Out (Ok tt)
        {| NL_OS := NL_OS w; env := env w; fs := fs w;
           execOracle := execOracle w; execCount := execCount w;
           clock := clock w + ms; fetchIcon := fetchIcon w |}
        [ESleep ms].

(** [new Date().toISOString()]; the calendar rendering of the clock is
    abstracted to the decimal of its milliseconds. *)
Definition now_iso : M string := fun w => Out (Ok (pretty (clock w))) w [].

(** ** utils.ts *)

Definition pathExists (p : string) : M bool :=
  try_catch
    (_ <- filesystem.getStats p ;; ret true)
    (fun error =>
       if bool_decide (code error <> Some "NE_FS_NOPATHE")
       then throw error
       else ret false).

Definition curlGet `{Libraries} (url : string) : M JValue :=
  let cmd := "curl -X GET -H " +:+ quoted "Content-Type: application/json"
             +:+ " " +:+ quoted url in
  r <- os.execCommand cmd ;;
  lift (JSON_parse (stdOut r)).

Definition getBase64FromImageUrl : M string :=
  fun w =>
    match fetchIcon w with
    | Some r => Out (Ok (dataUrl r)) w []
    | None => Out (Thrown (TypeError "Failed to fetch")) w []
    end.

Definition getArrayBufferFromImageUrl : M string :=
  fun w =>
    match fetchIcon w with
    | Some r =>
        if ok r then Out (Ok (body r)) w []
        else Out (Thrown (Error ("Failed to fetch image: " +:+ statusText r))) w []
    | None => Out (Thrown (TypeError "Failed to fetch")) w []
    end.

(** ** types.ts *)

Inductive InstallationType := minecraft | prism.

Record File := {
  download_url : string;
  filename : string;
  hash : string;
  file_size : Z
}.

Inductive LoaderType := fabric | vanilla.

Record Loader := {
  type : LoaderType;
  version : string;
  maven : string;
  metadata_url : string;
  installer_url : string
}.

Record Java := { minimum_version : string; recommended_memory : string }.

Record DownloadUrls := { client_jar : string; assets_url : string }.

Record Files := {
  mods : list File;
  resourcepacks : list File;
  shaderpacks : list File;
  saves : list File;
  config : list File;
  screenshots : list File;
  logs : list File;
  crash_reports : list File;
  versions : list File;
  assets : list File;
  libraries : list File
}.

Record InstanceData := {
  name : string;
  description : string;
  minecraft_version : string;
  loader : Loader;
  java : Java;
  download_urls : DownloadUrls;
  files : Files
}.

(** [Object.values(instanceData.files)]; a category that is missing from
    the manifest is the empty list. *)
Definition Object_values (f : Files) : list (list File) :=
  [mods f; resourcepacks f; shaderpacks f; saves f; config f; screenshots f;
   logs f; crash_reports f; versions f; assets f; libraries f].

(** The [fileTypes] constant, each name with the category it selects. *)
Definition fileTypes : list (string * (Files -> list File)) :=
  [("mods", mods); ("resourcepacks", resourcepacks); ("shaderpacks", shaderpacks);
   ("saves", saves); ("config", config); ("screenshots", screenshots);
   ("logs", logs); ("crash-reports", crash_reports); ("versions", versions);
   ("assets", assets); ("libraries", libraries)].

(** [(file) => !file.filename.startsWith('.index/')]. *)
Definition not_index (file : File) : bool := negb (startsWith (filename file) ".index/").

(** ** api.ts *)

Definition API_URL : string := "http://141.94.37.234:7122".

(** ** Code shared by create.ts and instance.ts

    [downloadWithRetry] and [generatePrismConfig] are the same text in the
    two files; [downloadFiles] differs only in how the download URL is put
    into the command line ([encode] is the identity in create.ts and
    [encodeURI] in instance.ts). *)

Section Shared.
Context `{Libraries}.
Local Open Scope io_scope.

(** The body of the [try] block of one attempt. *)
Definition attemptDownload (cmd fullPath : string) : M bool :=
  result <- os.execCommand cmd ;;
  if negb (exitCode result =? 0) then throw (Error (stdErr result))
  else
    stats <- filesystem.getStats fullPath ;;
    if negb (isFile stats) || (size stats =? 0)
    then throw (Error "Downloaded file is empty or missing")
    else ret true.

(** [for (let attempt = ...; attempt <= maxRetries; attempt++)], with
    [remaining] iterations of the loop left; when none is left the
    function falls through to its final [return false]. *)
Fixpoint retryFrom (remaining : nat) (attempt maxRetries : Z)
         (cmd fullPath filename : string) : M bool :=
  match remaining with
  | O => ret false
  | S remaining' =>
      try_catch
        (attemptDownload cmd fullPath)
        (fun error =>
           if attempt =? maxRetries then
             toast.error ("Failed to download " +:+ filename) None ;;;
             ret false
           else
             sleep (attempt * 1000) ;;;
             retryFrom remaining' (attempt + 1) maxRetries cmd fullPath filename)
  end.

Definition downloadWithRetry (cmd fullPath filename : string) (maxRetries : Z) : M bool :=
  retryFrom (Z.to_nat maxRetries) 1 maxRetries cmd fullPath filename.

Definition downloadCommand (encode : string -> string) (fullPath : string) (file : File)
  : string :=
  "curl -X GET -L --fail --silent --show-error -H "
    +:+ quoted "Accept: application/octet-stream"
    +:+ " -o " +:+ quoted fullPath
    +:+ " " +:+ quoted (API_URL +:+ encode (download_url file)).

Definition progressEvent (file : File) (currentFileCount totalFiles : Z) : ProgressEvent :=
  {| filename_of := filename file;
     current := currentFileCount + 1;
     total := totalFiles;
     percentage :=
       Math_round ((to_number (currentFileCount + 1) / to_number totalFiles) * 100)%float |}.

(** One turn of the [for (const file of files)] loop for a file that is
    no index entry: whether the download succeeded. *)
Definition downloadOne (encode : string -> string) (file : File) (targetPath : string)
           (currentFileCount totalFiles : Z) : M bool :=
  let fullPath := join [targetPath; filename file] in
  let dirPath := dirname fullPath in
  dirExists <- pathExists dirPath ;;
  when (negb dirExists) (filesystem.createDirectory dirPath) ;;;
  events.dispatch "instanceCreationProgress"
    (DProgress (progressEvent file currentFileCount totalFiles)) ;;;
  downloadWithRetry (downloadCommand encode fullPath file) fullPath (filename file) 3.

(** The loop; the result is the final [failedDownloads]. *)
Fixpoint downloadEach (encode : string -> string) (files : list File) (targetPath : string)
         (currentFileCount totalFiles : Z) (failedDownloads : list string)
  : M (list string) :=
  match files with
  | [] => ret failedDownloads
  | file :: rest =>
      if startsWith (filename file) ".index/" then
        downloadEach encode rest targetPath (currentFileCount + 1) totalFiles failedDownloads
      else
        success <- downloadOne encode file targetPath currentFileCount totalFiles ;;
        downloadEach encode rest targetPath (currentFileCount + 1) totalFiles
          (if success : bool then failedDownloads else failedDownloads ++ [filename file])
  end.

Definition failureMessage (failedDownloads : list string) : string :=
  match failedDownloads with
  | [one] => "Failed to download: " +:+ one
  | _ => "Failed to download " +:+ pretty (List.length failedDownloads)
           +:+ " files. Check the console for details."
  end.

Definition downloadFilesWith (encode : string -> string) (files : list File)
           (targetPath : string) (currentFileCount totalFiles : Z) : M unit :=
  failedDownloads <- downloadEach encode files targetPath currentFileCount totalFiles [] ;;
  when (0 <? List.length failedDownloads)%nat
    (toast.error (failureMessage failedDownloads)
       (Some "Some files might be missing from the installation")).

(** [`${value}`] for a value that is no object. *)
Definition template (v : JValue) : Text :=
  match v with
  | JStr s => Raw s
  | JNum z => Raw (pretty z)
  | JBool true => Raw "true"
  | JBool false => Raw "false"
  | other => Stringified other
  end.

Definition is_object (v : JValue) : bool :=
  match v with
  | JNull | JArr _ | JObj _ => true
  | _ => false
  end.

Definition configLine (entry : string * JValue) : Text :=
  if is_object entry.2
  then Append (Raw (entry.1 +:+ "=")) (Stringified entry.2)
  else Append (Raw (entry.1 +:+ "=")) (template entry.2).

Fixpoint joinLines (lines : list Text) : Text :=
  match lines with
  | [] => Raw ""
  | [l] => l
  | l :: rest => Append l (Append (Raw (String (ascii_of_nat 10) "")) (joinLines rest))
  end.

(** The configuration object is given by its entries, in order. *)
Definition generatePrismConfig (config : list (string * JValue)) : Text :=
  joinLines (map configLine config).

Definition instanceConfig (instanceData : InstanceData) : list (string * JValue) :=
  [("ExportAuthor", JStr "Communivents");
   ("ExportName", JStr (name instanceData));
   ("InstanceType", JStr "OneSix");
   ("JavaVersion", JStr (minimum_version (java instanceData)));
   ("MaxMemAlloc", JStr (recommended_memory (java instanceData)));
   ("name", JStr (name instanceData));
   ("notes", JStr (description instanceData));
   ("iconKey", JStr "communivents")].

Definition mmcPackJson (instanceData : InstanceData) : JValue :=
  let base :=
    JObj (<["important" := JBool true]>
          (<["uid" := JStr "net.minecraft"]>
           (<["version" := JStr (minecraft_version instanceData)]> ∅))) in
  let fabricLoader :=
    JObj (<["uid" := JStr "net.fabricmc.fabric-loader"]>
          (<["version" := JStr (version (loader instanceData))]>
           (<["requires" :=
                JArr [JObj (<["suggests" := JStr (minimum_version (java instanceData))]>
                            (<["uid" := JStr "org.prismlauncher.java"]> ∅))]]> ∅))) in
  JObj (<["formatVersion" := JNum 1]>
        (<["components" :=
             JArr (base :: match type (loader instanceData) with
                           | fabric => [fabricLoader]
                           | vanilla => []
                           end)]> ∅)).

(** [communivents_${name.toLowerCase().replace(/[^a-z0-9]/g, '_')}]. *)
Definition profileId (instanceName : string) : string :=
  "communivents_" +:+ replace_non_alnum (toLowerCase instanceName).

(** The store a launcher without [launcher_profiles.json] starts from. *)
Definition emptyProfiles : JValue :=
  JObj (<["profiles" := JObj ∅]> (<["settings" := JObj ∅]> (<["version" := JNum 3]> ∅))).

(** [profiles.profiles = base] on the parsed store. *)
Definition with_profiles (profiles : JValue) (base : JValue) : JValue :=
  match profiles with
  | JObj m => JObj (<["profiles" := base]> m)
  | other => other
  end.

End Shared.

(** ** create.ts *)

Module Create.
Section code.
Context `{Libraries}.
Local Open Scope io_scope.

Definition profile (created icon instanceName lastUsed instancePath : string)
           (javaArgs : option string) : JValue :=
  let fields : gmap string JValue :=
    <["created" := JStr created]>
    (<["icon" := JStr icon]>
     (<["name" := JStr instanceName]>
      (<["lastUsed" := JStr lastUsed]>
       (<["lastVersionId" := JStr instanceName]>
        (<["gameDir" := JStr instancePath]>
         (<["type" := JStr "custom"]> ∅)))))) in
  match javaArgs with
  | Some args =>
      if String.eqb args "" then JObj fields
      else JObj (<["javaArgs" := JStr args]> fields)
  | None => JObj fields
  end.

Definition updateLauncherProfiles (minecraftPath instanceName instancePath : string)
           (javaArgs : option string) : M unit :=
  let profilesPath := join [minecraftPath; "launcher_profiles.json"] in
  try_catch
    (found <- pathExists profilesPath ;;
     profiles <- (if found : bool then
                    content <- filesystem.readFile profilesPath ;;
                    lift (JSON_parse content)
                  else ret emptyProfiles) ;;
     base <- lift (get_member profiles "profiles") ;;
     created <- now_iso ;;
     icon <- getBase64FromImageUrl ;;
     lastUsed <- now_iso ;;
     base' <- lift (set_member base (profileId instanceName)
                      (profile created icon instanceName lastUsed instancePath javaArgs)) ;;
     filesystem.writeFile profilesPath (Stringified (with_profiles profiles base')))
    (fun error =>
       toast.error "Failed to update Minecraft launcher profiles" None ;;;
       throw error).

Definition downloadFiles : list File -> string -> Z -> Z -> M unit :=
  downloadFilesWith (fun url => url).

Definition downloadMinecraftFiles (urls : DownloadUrls) (minecraftPath : string) : M unit :=
  let clientPath := join [minecraftPath; "client.jar"] in
  let cmd := "curl -X GET -L -o " +:+ quoted clientPath +:+ " " +:+ quoted (client_jar urls) in
  _ <- os.execCommand cmd ;;
  ret tt.

Definition unsupported {A} : M A := throw (Error "Unsupported operating system").

(** The three [switch (window.NL_OS)] statements. *)
Definition basePathOf (NL_OS homeDir : string) : M string :=
  if String.eqb NL_OS "Windows" then ret (join [homeDir; "AppData"; "Roaming"])
  else if String.eqb NL_OS "Darwin" then ret (join [homeDir; "Library"; "Application Support"])
  else if String.eqb NL_OS "Linux" then ret homeDir
  else unsupported.

Definition minecraftPathOf (NL_OS basePath : string) : M string :=
  if String.eqb NL_OS "Windows" then ret (join [basePath; ".minecraft"])
  else if String.eqb NL_OS "Darwin" then ret (join [basePath; "minecraft"])
  else if String.eqb NL_OS "Linux" then ret (join [basePath; ".minecraft"])
  else unsupported.

Definition prismPathOf (NL_OS basePath : string) : M string :=
  if String.eqb NL_OS "Windows" then ret (join [basePath; "PrismLauncher"])
  else if String.eqb NL_OS "Darwin" then ret (join [basePath; "PrismLauncher"])
  else if String.eqb NL_OS "Linux" then ret (join [basePath; ".local"; "share"; "PrismLauncher"])
  else unsupported.

Record Paths := {
  basePath : string;
  minecraftPath : string;
  prismPath : string;
  instancePath : string
}.

(** Lines 215 to 274: the paths of one installation. *)
Definition resolvePaths (instanceData : InstanceData) (installationType : InstallationType)
  : M Paths :=
  homeDir <- os.getEnv "HOME" ;;
  NL_OS <- window_NL_OS ;;
  basePath <- basePathOf NL_OS homeDir ;;
  minecraftPath <- minecraftPathOf NL_OS basePath ;;
  match installationType with
  | minecraft =>
      ret {| basePath := basePath; minecraftPath := minecraftPath; prismPath := "";
             instancePath := join [minecraftPath; "instances"; name instanceData] |}
  | prism =>
      prismPath <- prismPathOf NL_OS basePath ;;
      ret {| basePath := basePath; minecraftPath := minecraftPath;
             prismPath := prismPath;
             instancePath := join [prismPath; "instances"; name instanceData] |}
  end.

(** Lines 332 to 344: the launcher configuration. *)
Definition writeConfiguration (instanceData : InstanceData)
           (installationType : InstallationType) (p : Paths) : M unit :=
  match installationType with
  | prism =>
      filesystem.writeFile (join [instancePath p; "instance.cfg"])
        (generatePrismConfig (instanceConfig instanceData)) ;;;
      filesystem.writeFile (join [instancePath p; "mmc-pack.json"])
        (Stringified (mmcPackJson instanceData)) ;;;
      let iconPath := join [prismPath p; "icons"; "communivents.png"] in
      found <- pathExists iconPath ;;
      if found : bool then ret tt
      else
        icon <- getArrayBufferFromImageUrl ;;
        filesystem.writeBinaryFile iconPath icon
  | minecraft =>
      filesystem.writeFile (join [instancePath p; "instance.json"])
        (Stringified (JObj (list_to_map (instanceConfig instanceData)))) ;;;
      updateLauncherProfiles (minecraftPath p) (name instanceData) (instancePath p)
        (Some ("-Xmx" +:+ recommended_memory (java instanceData)))
  end.

Definition totalFilesOf (instanceData : InstanceData) : Z :=
  Z.of_nat (List.length (filter (fun file => not_index file = true)
                       (concat (Object_values (files instanceData))))).

(** Lines 360 to 369: [for (const fileType of fileTypes)]. *)
Fixpoint downloadCategories (types : list (string * (Files -> list File)))
         (instanceData : InstanceData) (minecraftDir : string)
         (currentFileCount totalFiles : Z) : M unit :=
  match types with
  | [] => ret tt
  | (fileType, category) :: rest =>
      let entries := category (files instanceData) in
      if (0 <? List.length entries)%nat then
        let targetPath := join [minecraftDir; fileType] in
        found <- pathExists targetPath ;;
        when (negb found) (filesystem.createDirectory targetPath) ;;;
        downloadFiles entries targetPath currentFileCount totalFiles ;;;
        downloadCategories rest instanceData minecraftDir
          (currentFileCount
           + Z.of_nat (List.length (filter (fun f => not_index f = true) entries)))
          totalFiles
      else downloadCategories rest instanceData minecraftDir currentFileCount totalFiles
  end.

(** Lines 287 to 369: the directories, the launcher configuration and
    the files of every category. *)
Definition prepare (instanceData : InstanceData) (installationType : InstallationType)
           (p : Paths) : M unit :=
  found <- pathExists (instancePath p) ;;
  when (negb found) (filesystem.createDirectory (instancePath p)) ;;;
  found <- pathExists (join [instancePath p; ".minecraft"]) ;;
  when (negb found) (filesystem.createDirectory (join [instancePath p; ".minecraft"])) ;;;
  writeConfiguration instanceData installationType p ;;;
  let totalFiles := totalFilesOf instanceData in
  let minecraftDir := join [instancePath p; ".minecraft"] in
  downloadCategories fileTypes instanceData minecraftDir 0 totalFiles.

Definition isVanilla (instanceData : InstanceData) : bool :=
  match type (loader instanceData) with vanilla => true | fabric => false end.

(** Lines 287 to 381: what is done once the instance path is free. *)
Definition install (instanceData : InstanceData) (installationType : InstallationType)
           (p : Paths) : M bool :=
  prepare instanceData installationType p ;;;
  when (isVanilla instanceData)
    (downloadMinecraftFiles (download_urls instanceData)
       (join [instancePath p; ".minecraft"])) ;;;
  events.dispatch "instanceCreationComplete"
    (DComplete (name instanceData) (instancePath p)) ;;;
  toast.success ("Created " +:+ quoted (name instanceData) +:+ " instance!") ;;;
  ret true.

(** [(error as any).message || error]. *)
Definition errorPayload (error : Exn) : ErrorPayload :=
  if String.eqb (message error) "" then PObject error else PMessage (message error).

Definition createMinecraftInstance (instanceData : InstanceData)
           (installationType : InstallationType) (forceInstallation : bool) : M bool :=
  try_catch
    (p <- resolvePaths instanceData installationType ;;
     dirExists <- pathExists (instancePath p) ;;
     if dirExists : bool then
       if forceInstallation then
         filesystem.remove (instancePath p) ;;;
         install instanceData installationType p
       else ret false
     else install instanceData installationType p)
    (fun error =>
       events.dispatch "instanceCreationError" (DError (errorPayload error)) ;;;
       throw error).

End code.
End Create.

(** ** instance.ts *)

Module Instance.
Section code.
Context `{Libraries}.
Local Open Scope io_scope.

Definition unsupported {A} : M A := throw (Error "Unsupported operating system").

Definition getBasePath : M string :=
  homeDir <- os.getEnv "HOME" ;;
  NL_OS <- window_NL_OS ;;
  if String.eqb NL_OS "Windows" then os.getEnv "APPDATA"
  else if String.eqb NL_OS "Darwin" then ret (join [homeDir; "Library"; "Application Support"])
  else if String.eqb NL_OS "Linux" then ret homeDir
  else unsupported.

Definition getMinecraftPath (basePath : string) : M string :=
  NL_OS <- window_NL_OS ;;
  if String.eqb NL_OS "Windows" || String.eqb NL_OS "Linux"
  then ret (join [basePath; ".minecraft"])
  else if String.eqb NL_OS "Darwin" then ret (join [basePath; "minecraft"])
  else unsupported.

Definition getPrismLauncherPath (basePath : string) : M string :=
  NL_OS <- window_NL_OS ;;
  if String.eqb NL_OS "Windows" || String.eqb NL_OS "Darwin"
  then ret (join [basePath; "PrismLauncher"])
  else if String.eqb NL_OS "Linux" then ret (join [basePath; ".local"; "share"; "PrismLauncher"])
  else unsupported.

Definition downloadFiles : list File -> string -> Z -> Z -> M unit :=
  downloadFilesWith encodeURI.

Definition library (libName url : option JValue) : JValue :=
  object_of [("name", libName); ("url", url)].

Definition fabricLibraries (instance : InstanceData) : M (list JValue) :=
  meta <- curlGet ("https://meta.fabricmc.net/v2/versions/loader/"
                     +:+ minecraft_version instance +:+ "/"
                     +:+ version (loader instance)) ;;
  intermediary <- lift (get_member meta "intermediary") ;;
  intermediaryMaven <- lift (get_property intermediary "maven") ;;
  metaLoader <- lift (get_member meta "loader") ;;
  loaderMaven <- lift (get_property metaLoader "maven") ;;
  launcherMeta <- lift (get_member meta "launcherMeta") ;;
  metaLibraries <- lift (get_property launcherMeta "libraries") ;;
  common <- lift (get_property metaLibraries "common") ;;
  libs <- lift (iterate common) ;;
  common' <- (fix each (l : list JValue) : M (list JValue) :=
                match l with
                | [] => ret []
                | lib :: rest =>
                    libName <- lift (get_member lib "name") ;;
                    url <- lift (get_member lib "url") ;;
                    others <- each rest ;;
                    ret (library libName url :: others)
                end) libs ;;
  ret (library intermediaryMaven (Some (JStr "https://maven.fabricmc.net/"))
         :: library loaderMaven (Some (JStr "https://maven.fabricmc.net/"))
         :: common').

Definition createVersionJson (instance : InstanceData) : M JValue :=
  libraries <- match type (loader instance) with
               | fabric => fabricLibraries instance
               | vanilla => ret []
               end ;;
  let isVanilla := match type (loader instance) with vanilla => true | fabric => false end in
  ret (JObj
         (<["id" := JStr (name instance)]>
          (<["inheritsFrom" := JStr (minecraft_version instance)]>
           (<["type" := JStr "release"]>
            (<["mainClass" :=
                 JStr (if isVanilla then "net.minecraft.client.main.Main"
                       else "net.fabricmc.loader.impl.launch.knot.KnotClient")]>
             (<["arguments" :=
                  JObj (<["game" := JArr [JStr "--gameDir";
                                          JStr (join [name instance; ".minecraft"])]]>
                        (<["jvm" := JArr (if isVanilla then []
                                          else [JStr "-DFabricMcEmu= net.minecraft.client.main.Main"])]>
                         ∅))]>
              (<["libraries" := JArr libraries]> ∅))))))).

Definition profile (created icon instanceName lastUsed gameDir : string) : JValue :=
  JObj (<["created" := JStr created]>
        (<["icon" := JStr icon]>
         (<["name" := JStr instanceName]>
          (<["lastUsed" := JStr lastUsed]>
           (<["lastVersionId" := JStr instanceName]>
            (<["gameDir" := JStr gameDir]>
             (<["type" := JStr "custom"]> ∅))))))).

Definition updateLauncherProfiles (minecraftPath : string) (instance : InstanceData)
           (instancePath : string) : M unit :=
  let profilesPath := join [minecraftPath; "launcher_profiles.json"] in
  try_catch
    (found <- pathExists profilesPath ;;
     profiles <- (if found : bool then
                    content <- filesystem.readFile profilesPath ;;
                    lift (JSON_parse content)
                  else ret emptyProfiles) ;;
     base <- lift (get_member profiles "profiles") ;;
     created <- now_iso ;;
     icon <- getBase64FromImageUrl ;;
     lastUsed <- now_iso ;;
     base' <- lift (set_member base (profileId (name instance))
                      (profile created icon (name instance) lastUsed
                         (join [instancePath; ".minecraft"]))) ;;
     filesystem.writeFile profilesPath (Stringified (with_profiles profiles base')) ;;;
     let versionFolderPath := join [minecraftPath; "versions"; name instance] in
     found <- pathExists versionFolderPath ;;
     if found : bool then ret tt
     else
       filesystem.createDirectory versionFolderPath ;;;
       versionJson <- createVersionJson instance ;;
       filesystem.writeFile (join [versionFolderPath; name instance +:+ ".json"])
         (Stringified versionJson))
    (fun error =>
       toast.error "Failed to update Minecraft launcher profiles" None ;;;
       throw error).

Definition getPrismLauncherInstancePath (instance : InstanceData) : M string :=
  basePath <- getBasePath ;;
  prismPath <- getPrismLauncherPath basePath ;;
  ret (join [prismPath; "instances"; name instance]).

Definition setupPrismLauncherInstance (instanceData : InstanceData)
           (instancePath basePath : string) : M unit :=
  prismPath <- getPrismLauncherPath basePath ;;
  filesystem.writeFile (join [instancePath; "instance.cfg"])
    (generatePrismConfig (instanceConfig instanceData)) ;;;
  filesystem.writeFile (join [instancePath; "mmc-pack.json"])
    (Stringified (mmcPackJson instanceData)) ;;;
  let iconPath := join [prismPath; "icons"; "communivents.png"] in
  found <- pathExists iconPath ;;
  if found : bool then ret tt
  else
    icon <- getArrayBufferFromImageUrl ;;
    filesystem.writeBinaryFile iconPath icon.

Definition totalFilesOf (instanceData : InstanceData) : Z :=
  Z.of_nat (List.length (filter (fun file => not_index file = true)
                       (concat (Object_values (files instanceData))))).

Fixpoint downloadCategories (types : list (string * (Files -> list File)))
         (instanceData : InstanceData) (minecraftDir : string)
         (currentFileCount totalFiles : Z) : M unit :=
  match types with
  | [] => ret tt
  | (fileType, category) :: rest =>
      let entries := category (files instanceData) in
      if (0 <? List.length entries)%nat then
        let targetPath := join [minecraftDir; fileType] in
        filesystem.createDirectory targetPath ;;;
        downloadFiles entries targetPath currentFileCount totalFiles ;;;
        downloadCategories rest instanceData minecraftDir
          (currentFileCount
           + Z.of_nat (List.length (filter (fun f => not_index f = true) entries)))
          totalFiles
      else downloadCategories rest instanceData minecraftDir currentFileCount totalFiles
  end.

Definition downloadInstanceFiles (instanceData : InstanceData) (instancePath : string)
  : M unit :=
  let minecraftDir := join [instancePath; ".minecraft"] in
  downloadCategories fileTypes instanceData minecraftDir 0 (totalFilesOf instanceData).

Record Paths := {
  basePath : string;
  minecraftPath : string;
  instancePath : string
}.

(** Lines 292 to 294: the paths of one installation. *)
Definition resolvePaths (instanceData : InstanceData) (installationType : InstallationType)
  : M Paths :=
  basePath <- getBasePath ;;
  minecraftPath <- getMinecraftPath basePath ;;
  instancePath <- match installationType with
                  | minecraft =>
                      ret (join [minecraftPath; "instances"; name instanceData])
                  | prism =>
                      prismPath <- getPrismLauncherPath basePath ;;
                      ret (join [prismPath; "instances"; name instanceData])
                  end ;;
  ret {| basePath := basePath; minecraftPath := minecraftPath;
         instancePath := instancePath |}.

(** Lines 306 to 325: what is done once the instance path is free. *)
Definition install (instanceData : InstanceData) (installationType : InstallationType)
           (p : Paths) : M bool :=
  filesystem.createDirectory (instancePath p) ;;;
  filesystem.createDirectory (join [instancePath p; ".minecraft"]) ;;;
  match installationType with
  | prism => setupPrismLauncherInstance instanceData (instancePath p) (basePath p)
  | minecraft => updateLauncherProfiles (minecraftPath p) instanceData (instancePath p)
  end ;;;
  downloadInstanceFiles instanceData (instancePath p) ;;;
  events.dispatch "instanceCreationComplete"
    (DComplete (name instanceData) (instancePath p)) ;;;
  toast.success ("Created " +:+ quoted (name instanceData) +:+ " instance!") ;;;
  ret true.

Definition errorPayload (error : Exn) : ErrorPayload :=
  if String.eqb (message error) "" then PObject error else PMessage (message error).

Definition createMinecraftInstance (instanceData : InstanceData)
           (installationType : InstallationType) (forceInstallation : bool) : M bool :=
  try_catch
    (p <- resolvePaths instanceData installationType ;;
     found <- pathExists (instancePath p) ;;
     if found : bool then
       if forceInstallation then
         filesystem.remove (instancePath p) ;;;
         install instanceData installationType p
       else ret false
     else install instanceData installationType p)
    (fun error =>
       events.dispatch "instanceCreationError" (DError (errorPayload error)) ;;;
       throw error).

End code.
End Instance.

(** ** instance-card.svelte *)

Module Card.

(** [s.split('\n')]: the fields between the line feeds of [s], one more
    than there are line feeds. *)
Fixpoint split_lines (s : string) : list string :=
  match s with
  | EmptyString => [EmptyString]
  | String c rest =>
      if Ascii.eqb c "010"
      then EmptyString :: split_lines rest
      else match split_lines rest with
           | line :: lines => String c line :: lines
           | [] => [String c EmptyString]
           end
  end.

(** The white space of [String.prototype.trim] among the code units
    below 256: tab to carriage return, space and no-break space. *)
Definition is_space (c : ascii) : bool :=
  let n := nat_of_ascii c in
  (((9 <=? n) && (n <=? 13)) || (n =? 32) || (n =? 160))%nat.

Fixpoint trimStart (s : string) : string :=
  match s with
  | String c rest => if is_space c then trimStart rest else s
  | EmptyString => EmptyString
  end.

Fixpoint trimEnd (s : string) : string :=
  match s with
  | EmptyString => EmptyString
  | String c rest =>
      match trimEnd rest with
      | EmptyString => if is_space c then EmptyString else String c EmptyString
      | kept => String c kept
      end
  end.

Definition trim (s : string) : string := trimEnd (trimStart s).

(** [s.slice(n)] for [n] that is not negative. *)
Fixpoint slice (n : nat) (s : string) : string :=
  match n, s with
  | O, _ => s
  | S n', String _ rest => slice n' rest
  | S _, EmptyString => EmptyString
  end.

Section code.
Context `{Libraries}.
Local Open Scope io_scope.

(** Lines 33 to 44: the new value of [prismInstanceName], given the one
    it has. *)
Definition checkCanPlay (instance : InstanceData) (prismInstanceName : option string)
  : M (option string) :=
  try_catch
    (instancePath <- Instance.getPrismLauncherInstancePath instance ;;
     found <- pathExists instancePath ;;
     if negb found then ret prismInstanceName
     else
       cfgContent <- filesystem.readFile (join [instancePath; "instance.cfg"]) ;;
       match find (fun line => startsWith line "name=")
                  (split_lines (render cfgContent)) with
       | Some nameLine =>
           if String.eqb nameLine "" then ret prismInstanceName
           else ret (Some (slice 5 (trim nameLine)))
       | None => ret prismInstanceName
       end)
    (fun err => ret prismInstanceName).

End code.
End Card.

(** A string without a line feed. *)
Fixpoint no_line_feed (s : string) : bool :=
  match s with
  | EmptyString => true
  | String c rest => negb (Ascii.eqb c "010") && no_line_feed rest
  end.

(** ** Reading a trace *)

Definition is_exec (e : Event) : bool :=
  match e with EExec _ => true | _ => false end.

(** The number of transfers a trace holds. *)
Definition transfers (t : list Event) : nat := List.length (List.filter is_exec t).

(** The command lines of the transfers of a trace, in order. *)
Definition execs_of (t : list Event) : list string :=
  omap (fun e => match e with EExec cmd => Some cmd | _ => None end) t.

(** The waits of a trace, in order. *)
Definition sleeps_of (t : list Event) : list Z :=
  omap (fun e => match e with ESleep ms => Some ms | _ => None end) t.

(** The progress events of a trace, in order. *)
Definition progress_of (t : list Event) : list ProgressEvent :=
  omap (fun e => match e with
                 | EDispatch _ (DProgress p) => Some p
                 | _ => None
                 end) t.

(** The messages of the toasts [downloadWithRetry] shows for the files it
    gives up on (they carry no description). *)
Definition failure_toasts (t : list Event) : list string :=
  omap (fun e => match e with
                 | EToast ToastError msg None => Some msg
                 | _ => None
                 end) t.

(** The messages of the summary toasts of [downloadFiles] (they carry a
    description). *)
Definition summaries (t : list Event) : list string :=
  omap (fun e => match e with
                 | EToast ToastError msg (Some _) => Some msg
                 | _ => None
                 end) t.

Definition is_fs_event (e : Event) : bool :=
  match e with EFs _ => true | _ => false end.

(** The file-system writes of a trace. *)
Definition writes_of (t : list Event) : list FsOp :=
  omap (fun e => match e with
                 | EFs op => if is_write op then Some op else None
                 | _ => None
                 end) t.

(** The summary toast of a batch whose failed downloads are [failed]. *)
Definition summary (failed : list string) : list Event :=
  match failed with
  | [] => []
  | _ => [EToast ToastError (failureMessage failed)
            (Some "Some files might be missing from the installation")]
  end.

(** The progress events a batch dispatches when it runs to its end: one
    for each entry that is no index entry; an index entry moves the
    counter on all the same. *)
Fixpoint progressOf (files : list File) (currentFileCount totalFiles : Z)
  : list ProgressEvent :=
  match files with
  | [] => []
  | file :: rest =>
      if startsWith (filename file) ".index/"
      then progressOf rest (currentFileCount + 1) totalFiles
      else progressEvent file currentFileCount totalFiles
             :: progressOf rest (currentFileCount + 1) totalFiles
  end.

(** The shape of the trace of a batch that runs to its end.  For each
    entry that is no index entry it holds, in this order: the check (and
    the creation) of the directory of the file, the progress event of the
    file, and then the attempts to download it: one to three transfers,
    each with the command line of this file. *)
Section BatchTrace.
Context `{Libraries}.
Variable encode : string -> string.
Variable targetPath : string.
Variable totalFiles : Z.

Inductive batch_trace : list File -> Z -> list Event -> Prop :=
| batch_done c : batch_trace [] c []
| batch_index file rest c t :
    startsWith (filename file) ".index/" = true ->
    batch_trace rest (c + 1) t ->
    batch_trace (file :: rest) c t
| batch_file file rest c checks attempts n t :
    startsWith (filename file) ".index/" = false ->
    forallb is_fs_event checks = true ->
    progress_of attempts = [] ->
    (1 <= n <= 3)%nat ->
    execs_of attempts
    = replicate n (downloadCommand encode (join [targetPath; filename file]) file) ->
    batch_trace rest (c + 1) t ->
    batch_trace (file :: rest) c
      (checks
         ++ EDispatch "instanceCreationProgress"
              (DProgress (progressEvent file c totalFiles))
         :: attempts ++ t).
End BatchTrace.

(** A computation that only reads: it leaves the world as it is and
    emits nothing. *)
Definition pure {A} (m : M A) : Prop := forall w, exists r, m w = Out r w [].


(** Every event of every run of the computation passes the test. *)
Definition emits (allowed : Event -> bool) {A} (m : M A) : Prop :=
  forall w, forallb allowed (emitted (m w)) = true.

Definition is_remove (e : Event) : bool :=
  match e with EFs (Remove _) => true | _ => false end.

(** The events a batch may emit: checks and creations of directories,
    transfers, checks of the files they leave, waits, progress events and
    error toasts. *)
Definition batch_event (e : Event) : bool :=
  match e with
  | EFs (GetStats _) | EFs (CreateDirectory _) => true
  | EExec _ | ESleep _ => true
  | EDispatch "instanceCreationProgress" (DProgress _) => true
  | EToast ToastError _ _ => true
  | _ => false
  end.

(** The claim that a progress event comes after the transfers, for the
    trace of one file: every transfer of the trace is at an earlier
    position than every progress event. *)
Definition dispatched_after_attempts (t : list Event) : Prop :=
  forall i j name p cmd,
    t !! i = Some (EDispatch name (DProgress p)) ->
    t !! j = Some (EExec cmd) ->
    (j < i)%nat.

(** The profile the generic launcher finds under [slug] in the store at
    [profilesPath]. *)
Definition stored_profile (w : World) (profilesPath slug : string) : option JValue :=
  match fs w !! profilesPath with
  | Some (NFile (Stringified (JObj m))) =>
      match m !! "profiles" with
      | Some (JObj ps) => ps !! slug
      | _ => None
      end
  | _ => None
  end.

(** [v.k] for a value that may be missing. *)
Definition field (v : option JValue) (k : string) : option JValue :=
  match v with
  | Some (JObj m) => m !! k
  | _ => None
  end.

(** What no call of the program changes: the operating system, the
    environment, the behaviour of the shell commands and the bundled
    icon. *)
Definition ambient (w : World)
  : string * gmap string string * (nat -> string -> ExecOutcome) * option Response :=
  (NL_OS w, env w, execOracle w, fetchIcon w).

(** No shell command writes or deletes the path [p]. *)
Definition quiet (p : string) (oracle : nat -> string -> ExecOutcome) : Prop :=
  forall n cmd, Forall (fun e : string * option Node => e.1 <> p) (effects (oracle n cmd)).

(** The computation keeps what [I] says of the world. *)
Definition preserves (I : World -> Prop) {A} (m : M A) : Prop :=
  forall w, I w -> I (post (m w)).

(** The entries of a batch that are downloaded. *)
Definition downloaded (files : list File) : list File :=
  List.filter not_index files.

(** The store [updateLauncherProfiles] starts from when the launcher has
    none, with one profile in it. *)
Definition newStore (slug : string) (entry : JValue) : JValue :=
  JObj (<["profiles" := JObj (<[slug := entry]> ∅)]>
        (<["settings" := JObj ∅]> (<["version" := JNum 3]> ∅))).

(** *** The order of announcements and transfers *)

Definition is_mark (e : Event) : bool :=
  match e with
  | EDispatch _ (DProgress _) | EExec _ => true
  | _ => false
  end.

(** The progress events and the transfers of a trace, in order: the
    name of the file a progress event announces ([inl]), the command line
    of a transfer ([inr]). *)
Definition marks (t : list Event) : list (string + string) :=
  omap (fun e => match e with
                 | EDispatch _ (DProgress p) => Some (inl (filename_of p))
                 | EExec cmd => Some (inr cmd)
                 | _ => None
                 end) t.

(** What one downloaded entry leaves among the marks of a trace: its
    progress event, then [n] transfers with its own command line.  An
    item is an entry with the directory of its category. *)
Definition group `{Libraries} (encode : string -> string) (n : nat) (item : string * File)
  : list (string + string) :=
  inl (filename item.2)
    :: replicate n (inr (downloadCommand encode (join [item.1; filename item.2]) item.2)).

Definition groups `{Libraries} (encode : string -> string) (counts : list nat)
           (items : list (string * File)) : list (string + string) :=
  concat (zip_with (group encode) counts items).

(** The entries an installation downloads, each with the directory of
    its category, in the order of the two loops. *)
Definition planned `{Libraries} (types : list (string * (Files -> list File)))
           (d : InstanceData) (minecraftDir : string) : list (string * File) :=
  flat_map (fun ty : string * (Files -> list File) =>
              map (pair (join [minecraftDir; ty.1])) (downloaded (ty.2 (files d))))
           types.

(** The computation works through [items] in order: the marks of each
    of its runs are the groups of the first items, of all of them when
    the run returns. *)
Definition announces `{Libraries} (encode : string -> string)
           (items : list (string * File)) {A} (m : M A) : Prop :=
  forall w, exists counts,
    (List.length counts <= List.length items)%nat
    /\ Forall (fun n => 1 <= n <= 3)%nat counts
    /\ marks (emitted (m w)) = groups encode counts items
    /\ (forall a, res (m w) = Ok a -> List.length counts = List.length items).

(** The command line that fetches the client. *)
Definition clientCommand `{Libraries} (d : InstanceData) (minecraftDir : string) : string :=
  "curl -X GET -L -o " +:+ quoted (join [minecraftDir; "client.jar"])
    +:+ " " +:+ quoted (client_jar (download_urls d)).

(** *** The error toasts of an installation *)

(** The error toasts of a trace, in order: message and description. *)
Definition notices (t : list Event) : list (string * option string) :=
  omap (fun e => match e with
                 | EToast ToastError msg description => Some (msg, description)
                 | _ => None
                 end) t.

Definition is_error_toast (e : Event) : bool :=
  match e with EToast ToastError _ _ => true | _ => false end.

(** The error toasts of one batch whose failed downloads are [failed]:
    the failure toast of each, then the summary of the batch. *)
Definition report (failed : list string) : list (string * option string) :=
  map (fun fn => ("Failed to download " +:+ fn, None)) failed
    ++ match failed with
       | [] => []
       | _ => [(failureMessage failed,
                Some "Some files might be missing from the installation")]
       end.

(** The computation works through the batches [batches]: when it
    returns, its error toasts are the reports of the batches, one after
    the other, each for failed downloads among the entries of its
    batch. *)
Definition reports (batches : list (list File)) {A} (m : M A) : Prop :=
  forall w a,
    res (m w) = Ok a ->
    exists fails,
      Forall2 (fun failed entries =>
                 sublist failed (map filename (downloaded entries))) fails batches
      /\ notices (emitted (m w)) = flat_map report fails.

(** ** Concrete manifests and worlds

    The inputs the program is run on below, with [posix] for the path
    library. *)

Module Example.

Definition entry (n : string) : File :=
  {| download_url := "/files/" +:+ n; filename := n; hash := "0"; file_size := 3 |}.


Definition withFiles (m c : list File) : Files :=
  {| mods := m; resourcepacks := []; shaderpacks := []; saves := []; config := c;
     screenshots := []; logs := []; crash_reports := []; versions := []; assets := [];
     libraries := [] |}.

Definition manifest (n : string) (l : LoaderType) (f : Files) : InstanceData :=
  {| name := n; description := "An example instance"; minecraft_version := "1.20.1";
     loader := {| type := l; version := "0.15.11"; maven := ""; metadata_url := "";
                  installer_url := "" |};
     java := {| minimum_version := "17"; recommended_memory := "4G" |};
     download_urls := {| client_jar := "https://example.org/client.jar";
                         assets_url := "" |};
     files := f |}.

(** The scenario of the specification: one mod and one index entry,
    the index entry first. *)
Definition indexFirst : InstanceData :=
  manifest "Pack" vanilla
    (withFiles [entry ".index/modrinth.index.json"; entry "a.jar"] []).

(** The same scenario, the index entry last. *)
Definition indexLast : InstanceData :=
  manifest "Pack" vanilla
    (withFiles [entry "a.jar"; entry ".index/modrinth.index.json"] []).

(** Two index entries and a mod, then a configuration file. *)
Definition twoCategories : InstanceData :=
  manifest "Pack" vanilla
    (withFiles [entry ".index/a.json"; entry ".index/b.json"; entry "a.jar"]
               [entry "c.cfg"]).

(** One mod and one configuration file. *)
Definition modAndConfig : InstanceData :=
  manifest "Pack" fabric (withFiles [entry "a.jar"] [entry "c.cfg"]).

Definition icon : Response :=
  {| ok := true; statusText := "OK"; body := "PNG";
     dataUrl := "data:image/png;base64,UE5H" |}.

(** Every transfer fails: the server answers 404. *)
Definition unreachable (n : nat) (cmd : string) : ExecOutcome :=
  {| result := {| exitCode := 22; stdOut := Raw ""; stdErr := "curl: (22) 404" |};
     effects := [] |}.

(** The first transfer fails; the later ones succeed and leave the mod
    [a.jar] of the instance [Pack] of the generic launcher behind. *)
Definition flaky (n : nat) (cmd : string) : ExecOutcome :=
  match n with
  | O => unreachable n cmd
  | _ => {| result := {| exitCode := 0; stdOut := Raw ""; stdErr := "" |};
            effects := [("/home/u/.minecraft/instances/Pack/.minecraft/mods/a.jar",
                         Some (NFile (Raw "jar")))] |}
  end.

(** A launcher store with one profile of another origin. *)
Definition otherProfile : JValue :=
  JObj (<["name" := JStr "Latest"]> (<["type" := JStr "latest-release"]> ∅)).

Definition storeProfiles : gmap string JValue := <["latest" := otherProfile]> ∅.

Definition storeFields : gmap string JValue :=
  <["profiles" := JObj storeProfiles]>
  (<["settings" := JObj ∅]> (<["version" := JNum 3]> ∅)).

Definition store : JValue := JObj storeFields.

Definition linux (oracle : nat -> string -> ExecOutcome) (files : gmap string Node)
  : World :=
  {| NL_OS := "Linux"; env := <["HOME" := "/home/u"]> ∅; fs := files;
     execOracle := oracle; execCount := 0; clock := 1700000000000;
     fetchIcon := Some icon |}.

(** A home directory with the generic launcher installed. *)
Definition home : gmap string Node :=
  <["/home/u" := NDir]>
  (<["/home/u/.minecraft" := NDir]>
   (<["/home/u/.minecraft/launcher_profiles.json" := NFile (Stringified store)]> ∅)).

(** The same with the instance [Pack] installed already. *)
Definition homeWithPack : gmap string Node :=
  <["/home/u/.minecraft/instances" := NDir]>
  (<["/home/u/.minecraft/instances/Pack" := NDir]> home).

(** A Windows machine: [HOME] is not set there. *)
Definition windows : World :=
  {| NL_OS := "Windows"; env := <["APPDATA" := "C:\Users\u\AppData\Roaming"]> ∅;
     fs := ∅; execOracle := unreachable; execCount := 0; clock := 1700000000000;
     fetchIcon := Some icon |}.

(** The mods directory of the instance [Pack], ready for a batch. *)
Definition modsDir : string := "/home/u/.minecraft/instances/Pack/.minecraft/mods".

Definition homeWithMods : gmap string Node := <[modsDir := NDir]> homeWithPack.

(** The paths of [Pack] for the generic launcher on Linux. *)
Definition packPaths : Create.Paths :=
  {| Create.basePath := "/home/u";
     Create.minecraftPath := "/home/u/.minecraft";
     Create.prismPath := "";
     Create.instancePath := "/home/u/.minecraft/instances/Pack" |}.

Definition profilesPath : string := "/home/u/.minecraft/launcher_profiles.json".

(** A machine whose operating system the program does not know. *)
Definition freebsd : World :=
  {| NL_OS := "FreeBSD"; env := <["HOME" := "/home/u"]> ∅; fs := home;
     execOracle := unreachable; execCount := 0; clock := 1700000000000;
     fetchIcon := Some icon |}.

(** A machine of the given operating system with the environment of a
    user [u]. *)
Definition machine (system : string) : World :=
  {| NL_OS := system;
     env := <["HOME" := "/Users/u"]> (<["APPDATA" := "C:\Users\u\AppData\Roaming"]> ∅);
     fs := ∅; execOracle := unreachable; execCount := 0; clock := 1700000000000;
     fetchIcon := Some icon |}.

(** A home directory whose launcher has no store yet. *)
Definition freshHome : gmap string Node :=
  <["/home/u" := NDir]> (<["/home/u/.minecraft" := NDir]> ∅).

(** A home directory whose store is cut short and is no JSON text. *)
Definition brokenHome : gmap string Node :=
  <[profilesPath := NFile (Raw "{")]> freshHome.

(** The home directory after a first installation of [Pack] by
    instance.ts: the version folder exists. *)
Definition homeWithVersion : gmap string Node :=
  <["/home/u/.minecraft/versions" := NDir]>
  (<["/home/u/.minecraft/versions/Pack" := NDir]> homeWithPack).

(** A home directory with the third-party launcher, its icons and the
    directory of the instance [Pack]. *)
Definition prismPack : string := "/home/u/.local/share/PrismLauncher/instances/Pack".

Definition prismHome : gmap string Node :=
  <["/home/u/.local/share/PrismLauncher/icons" := NDir]> (<[prismPack := NDir]> ∅).



Definition create := @Create.createMinecraftInstance posix.
Definition instance := @Instance.createMinecraftInstance posix.

End Example.

(** * Properties *)

(** ** Running the monad *)

Section Running.
Context {A B : Type}.

Lemma outcome_eta (o : Outcome A) : Out (res o) (post o) (emitted o) = o.
Proof. by destruct o. Qed.

Lemma bind_ok (m : M A) (k : A -> M B) w a w1 t1 :
  m w = Out (Ok a) w1 t1 ->
  bind m k w = Out (res (k a w1)) (post (k a w1)) (t1 ++ emitted (k a w1)).
Proof. intros E. unfold bind. by rewrite E. Qed.

Lemma bind_thrown (m : M A) (k : A -> M B) w e w1 t1 :
  m w = Out (Thrown e) w1 t1 -> bind m k w = Out (Thrown e) w1 t1.
Proof. intros E. unfold bind. by rewrite E. Qed.

(** A sequence that returns has run both of its parts. *)
Lemma bind_returns (m : M A) (k : A -> M B) w b :
  res (bind m k w) = Ok b ->
  exists a, res (m w) = Ok a /\ res (k a (post (m w))) = Ok b
            /\ post (bind m k w) = post (k a (post (m w)))
            /\ emitted (bind m k w) = emitted (m w) ++ emitted (k a (post (m w))).
Proof.
  unfold bind. destruct (m w) as [[a|e] w1 t1]; simpl; [|done].
  intros E. by exists a.
Qed.

Lemma try_catch_ok (m : M A) h w a w1 t1 :
  m w = Out (Ok a) w1 t1 -> try_catch m h w = Out (Ok a) w1 t1.
Proof. intros E. unfold try_catch. by rewrite E. Qed.

Lemma try_catch_thrown (m : M A) h w e w1 t1 :
  m w = Out (Thrown e) w1 t1 ->
  try_catch m h w = Out (res (h e w1)) (post (h e w1)) (t1 ++ emitted (h e w1)).
Proof. intros E. unfold try_catch. by rewrite E. Qed.
End Running.

Lemma pathExists_found p w n :
  fs w !! p = Some n -> pathExists p w = Out (Ok true) w [EFs (GetStats p)].
Proof.
  intros E. unfold pathExists, try_catch, bind, filesystem.getStats. by rewrite E.
Qed.

Lemma pathExists_missing p w :
  fs w !! p = None -> pathExists p w = Out (Ok false) w [EFs (GetStats p)].
Proof.
  intros E. unfold pathExists, try_catch, bind, filesystem.getStats. by rewrite E.
Qed.

(** [pathExists] never throws in this model of the file system, and only
    reads. *)
Lemma pathExists_run p w :
  pathExists p w = Out (Ok (bool_decide (is_Some (fs w !! p)))) w [EFs (GetStats p)].
Proof.
  destruct (fs w !! p) as [n|] eqn:E.
  - rewrite (pathExists_found _ _ _ E). by rewrite bool_decide_eq_true_2.
  - rewrite (pathExists_missing _ _ E). rewrite bool_decide_eq_false_2; [done|].
    by intros [? ?].
Qed.

Section Conflict.
Context `{Libraries}.

Lemma pure_ret {A} (a : A) : pure (ret a).
Proof. intros w. by eexists. Qed.

Lemma pure_throw {A} e : pure (@throw A e).
Proof. intros w. by eexists. Qed.

Lemma pure_bind {A B} (m : M A) (k : A -> M B) :
  pure m -> (forall a, pure (k a)) -> pure (bind m k).
Proof.
  intros Hm Hk w. destruct (Hm w) as [[a|e] E].
  - destruct (Hk a w) as [r E']. exists r.
    rewrite (bind_ok _ _ _ _ _ _ E), E'. done.
  - exists (Thrown e). by rewrite (bind_thrown _ _ _ _ _ _ E).
Qed.

Lemma pure_getEnv n : pure (os.getEnv n).
Proof. intros w. by eexists. Qed.

Lemma pure_NL_OS : pure window_NL_OS.
Proof. intros w. by eexists. Qed.

Ltac pure_steps :=
  repeat first
    [ apply pure_ret | apply pure_throw | apply pure_getEnv | apply pure_NL_OS
    | apply pure_bind; [|intros ?]
    | match goal with
      | |- pure (if ?c then _ else _) => destruct c
      | |- pure (match ?t with minecraft => _ | prism => _ end) => destruct t
      end ].

Lemma create_resolvePaths_pure d t w :
  exists r, Create.resolvePaths d t w = Out r w [].
Proof.
  revert w. change (pure (Create.resolvePaths d t)).
  unfold Create.resolvePaths, Create.basePathOf, Create.minecraftPathOf,
    Create.prismPathOf, Create.unsupported.
  pure_steps.
Qed.

Lemma instance_resolvePaths_pure d t w :
  exists r, Instance.resolvePaths d t w = Out r w [].
Proof.
  revert w. change (pure (Instance.resolvePaths d t)).
  unfold Instance.resolvePaths, Instance.getBasePath, Instance.getMinecraftPath,
    Instance.getPrismLauncherPath, Instance.unsupported.
  pure_steps.
Qed.

(** C1: when the instance path that was computed exists already and
    [force] is false, [createMinecraftInstance] (in create.ts and in
    instance.ts alike) returns [false] without throwing, leaves the
    world as it was, and its only effect is the [getStats] that found
    the path: no directory is created, no file is written or removed. *)
Theorem conflict_performs_no_write
        (instanceData : InstanceData) (installationType : InstallationType) (w : World) :
  (forall p,
      res (Create.resolvePaths instanceData installationType w) = Ok p ->
      is_Some (fs w !! Create.instancePath p) ->
      Create.createMinecraftInstance instanceData installationType false w
      = Out (Ok false) w [EFs (GetStats (Create.instancePath p))])
  /\ (forall p,
         res (Instance.resolvePaths instanceData installationType w) = Ok p ->
         is_Some (fs w !! Instance.instancePath p) ->
         Instance.createMinecraftInstance instanceData installationType false w
         = Out (Ok false) w [EFs (GetStats (Instance.instancePath p))]).
Proof.
  split; intros p Hp [n Hn].
  - destruct (create_resolvePaths_pure instanceData installationType w) as [r Hr].
    rewrite Hr in Hp. simpl in Hp. subst r.
    unfold Create.createMinecraftInstance.
    apply try_catch_ok.
    rewrite (bind_ok _ _ _ _ _ _ Hr).
    rewrite (bind_ok _ _ _ _ _ _ (pathExists_found _ _ _ Hn)).
    reflexivity.
  - destruct (instance_resolvePaths_pure instanceData installationType w) as [r Hr].
    rewrite Hr in Hp. simpl in Hp. subst r.
    unfold Instance.createMinecraftInstance.
    apply try_catch_ok.
    rewrite (bind_ok _ _ _ _ _ _ Hr).
    rewrite (bind_ok _ _ _ _ _ _ (pathExists_found _ _ _ Hn)).
    reflexivity.
Qed.
End Conflict.

(** ** The retry loop *)

Section Retry.
Context `{Libraries}.

(** What one attempt does, by what the transfer left behind. *)
Lemma attemptDownload_run cmd fullPath w :
  let r := result (execOracle w (execCount w) cmd) in
  let w1 := post (os.execCommand cmd w) in
  attemptDownload cmd fullPath w =
    if exitCode r =? 0 then
      match fs w1 !! fullPath with
      | Some (NFile d) =>
          if text_length d =? 0
          then Out (Thrown (Error "Downloaded file is empty or missing")) w1
                   [EExec cmd; EFs (GetStats fullPath)]
          else Out (Ok true) w1 [EExec cmd; EFs (GetStats fullPath)]
      | Some NDir =>
          Out (Thrown (Error "Downloaded file is empty or missing")) w1
              [EExec cmd; EFs (GetStats fullPath)]
      | None =>
          Out (Thrown (NeuError "NE_FS_NOPATHE" fullPath)) w1
              [EExec cmd; EFs (GetStats fullPath)]
      end
    else Out (Thrown (Error (stdErr r))) w1 [EExec cmd].
Proof.
  unfold attemptDownload, bind, os.execCommand, filesystem.getStats, throw, ret. simpl.
  destruct (exitCode _ =? 0); simpl; [|done].
  destruct (fold_left _ _ _ !! fullPath) as [[|d]|]; simpl; try done.
  by destruct (text_length d =? 0).
Qed.

Lemma attemptDownload_transfers cmd fullPath w :
  transfers (emitted (attemptDownload cmd fullPath w)) = 1%nat.
Proof.
  rewrite attemptDownload_run. simpl.
  repeat case_match; reflexivity.
Qed.

Lemma attemptDownload_returns_true cmd fullPath w b :
  res (attemptDownload cmd fullPath w) = Ok b -> b = true.
Proof.
  rewrite attemptDownload_run. simpl.
  repeat case_match; simpl; congruence.
Qed.

(** One turn of the loop. *)
Lemma retryFrom_step n attempt maxRetries cmd fullPath filename w :
  retryFrom (S n) attempt maxRetries cmd fullPath filename w =
    let a := attemptDownload cmd fullPath w in
    match res a with
    | Ok _ => a
    | Thrown _ =>
        if attempt =? maxRetries then
          Out (Ok false) (post a)
              (emitted a ++ [EToast ToastError ("Failed to download " +:+ filename) None])
        else
          let o := retryFrom n (attempt + 1) maxRetries cmd fullPath filename
                     (post (sleep (attempt * 1000) (post a))) in
          Out (res o) (post o) (emitted a ++ ESleep (attempt * 1000) :: emitted o)
    end.
Proof.
  cbn [retryFrom]. unfold try_catch.
  destruct (attemptDownload cmd fullPath w) as [[b|e] w1 t1]; cbn [res post emitted];
    [done|].
  destruct (attempt =? maxRetries); [done|].
  unfold bind. cbn [sleep res post emitted]. done.
Qed.

Lemma transfers_app t1 t2 : transfers (t1 ++ t2) = (transfers t1 + transfers t2)%nat.
Proof. unfold transfers. by rewrite List.filter_app, length_app. Qed.

Lemma transfers_cons e t :
  transfers (e :: t) = ((if is_exec e then 1 else 0) + transfers t)%nat.
Proof. unfold transfers. simpl. by destruct (is_exec e). Qed.

(** The three attempts of [downloadWithRetry]. *)
Lemma downloadWithRetry_three cmd fullPath filename w :
  let a1 := attemptDownload cmd fullPath w in
  let a2 := attemptDownload cmd fullPath (post (sleep 1000 (post a1))) in
  let a3 := attemptDownload cmd fullPath (post (sleep 2000 (post a2))) in
  downloadWithRetry cmd fullPath filename 3 w =
    match res a1, res a2, res a3 with
    | Ok _, _, _ => a1
    | Thrown _, Ok _, _ =>
        Out (Ok true) (post a2) (emitted a1 ++ ESleep 1000 :: emitted a2)
    | Thrown _, Thrown _, Ok _ =>
        Out (Ok true) (post a3)
            (emitted a1 ++ ESleep 1000 :: emitted a2 ++ ESleep 2000 :: emitted a3)
    | Thrown _, Thrown _, Thrown _ =>
        Out (Ok false) (post a3)
            (emitted a1 ++ ESleep 1000 :: emitted a2 ++ ESleep 2000 :: emitted a3
               ++ [EToast ToastError ("Failed to download " +:+ filename) None])
    end.
Proof.
  intros a1 a2 a3.
  subst a1 a2 a3. unfold downloadWithRetry. change (Z.to_nat 3) with 3%nat.
  pose proof (attemptDownload_returns_true cmd fullPath) as T.
  rewrite retryFrom_step. cbv zeta.
  destruct (attemptDownload cmd fullPath w) as [[b1|e1] w1 t1];
    cbn [res post emitted]; [done|].
  change (1 =? 3) with false. cbv iota. change (1 * 1000) with 1000.
  rewrite retryFrom_step. cbv zeta.
  destruct (attemptDownload cmd fullPath (post (sleep 1000 w1)))
    as [[b2|e2] w2 t2] eqn:E2; cbn [res post emitted].
  { by rewrite (T _ b2 (f_equal res E2)). }
  change (1 + 1 =? 3) with false. cbv iota. change ((1 + 1) * 1000) with 2000.
  rewrite retryFrom_step. cbv zeta.
  destruct (attemptDownload cmd fullPath (post (sleep 2000 w2)))
    as [[b3|e3] w3 t3] eqn:E3; cbn [res post emitted].
  { by rewrite (T _ b3 (f_equal res E3)). }
  change (1 + 1 + 1 =? 3) with true. cbv iota.
  by rewrite <- ?app_assoc.
Qed.

(** C2: with the default of three attempts, [downloadWithRetry] runs
    the transfer at most three times; an attempt succeeds exactly when
    the transfer exits with status zero and the local path is then a
    regular file of non-zero size, and throws otherwise; after a failed
    first attempt it waits 1000 and after a failed second attempt 2000;
    when all three attempts fail it returns [false] (after the failure
    toast), and as soon as one attempt succeeds it returns [true], with
    no toast and no further attempt. *)
Theorem downloadWithRetry_law (cmd fullPath filename : string) (w : World) :
  let a1 := attemptDownload cmd fullPath w in
  let a2 := attemptDownload cmd fullPath (post (sleep 1000 (post a1))) in
  let a3 := attemptDownload cmd fullPath (post (sleep 2000 (post a2))) in
  (forall w',
      res (attemptDownload cmd fullPath w') = Ok true <->
      exitCode (result (execOracle w' (execCount w') cmd)) = 0
      /\ exists d, fs (post (os.execCommand cmd w')) !! fullPath = Some (NFile d)
                   /\ text_length d <> 0)
  /\ (forall w', res (attemptDownload cmd fullPath w') = Ok true
                 \/ exists e, res (attemptDownload cmd fullPath w') = Thrown e)
  /\ (forall w', transfers (emitted (attemptDownload cmd fullPath w')) = 1%nat)
  /\ downloadWithRetry cmd fullPath filename 3 w =
       match res a1, res a2, res a3 with
       | Ok _, _, _ => a1
       | Thrown _, Ok _, _ =>
           Out (Ok true) (post a2) (emitted a1 ++ ESleep 1000 :: emitted a2)
       | Thrown _, Thrown _, Ok _ =>
           Out (Ok true) (post a3)
               (emitted a1 ++ ESleep 1000 :: emitted a2 ++ ESleep 2000 :: emitted a3)
       | Thrown _, Thrown _, Thrown _ =>
           Out (Ok false) (post a3)
               (emitted a1 ++ ESleep 1000 :: emitted a2 ++ ESleep 2000 :: emitted a3
                  ++ [EToast ToastError ("Failed to download " +:+ filename) None])
       end
  /\ (transfers (emitted (downloadWithRetry cmd fullPath filename 3 w)) <= 3)%nat.
Proof.
  intros a1 a2 a3.
  pose proof (downloadWithRetry_three cmd fullPath filename w) as Hrun.
  cbv zeta in Hrun. fold a1 a2 a3 in Hrun.
  split; [|split; [|split; [|split]]].
  - intros w'. rewrite attemptDownload_run. simpl. split.
    + intros E. destruct (exitCode _ =? 0) eqn:Ex; [|done].
      apply Z.eqb_eq in Ex. split; [done|].
      destruct (fold_left _ _ _ !! fullPath) as [[|d]|]; try done.
      exists d. split; [done|].
      destruct (text_length d =? 0) eqn:El; [done|]. by apply Z.eqb_neq.
    + intros [Ex (d & Ed & El)].
      apply Z.eqb_eq in Ex. rewrite Ex. rewrite Ed.
      apply Z.eqb_neq in El. by rewrite El.
  - intros w'. rewrite attemptDownload_run. simpl.
    repeat case_match; eauto.
  - intros w'. apply attemptDownload_transfers.
  - exact Hrun.
  - rewrite Hrun.
    pose proof (attemptDownload_transfers cmd fullPath w) as N1.
    pose proof (attemptDownload_transfers cmd fullPath (post (sleep 1000 (post a1)))) as N2.
    pose proof (attemptDownload_transfers cmd fullPath (post (sleep 2000 (post a2)))) as N3.
    fold a1 in N1. fold a2 in N2. fold a3 in N3.
    destruct (res a1), (res a2), (res a3); cbn [emitted];
      rewrite ?transfers_app, ?transfers_cons, ?transfers_app, ?transfers_cons,
        ?transfers_app, ?N1, ?N2, ?N3; cbn; lia.
Qed.
End Retry.

(** ** The batch download *)

Section Batch.
Context `{Libraries}.

Lemma progress_of_app t1 t2 : progress_of (t1 ++ t2) = progress_of t1 ++ progress_of t2.
Proof. apply omap_app. Qed.

Lemma failure_toasts_app t1 t2 :
  failure_toasts (t1 ++ t2) = failure_toasts t1 ++ failure_toasts t2.
Proof. apply omap_app. Qed.

Lemma summaries_app t1 t2 : summaries (t1 ++ t2) = summaries t1 ++ summaries t2.
Proof. apply omap_app. Qed.

Lemma progress_of_dispatch n p t :
  progress_of (EDispatch n (DProgress p) :: t) = p :: progress_of t.
Proof. reflexivity. Qed.

Lemma summaries_dispatch n d t : summaries (EDispatch n d :: t) = summaries t.
Proof. reflexivity. Qed.

Lemma failure_toasts_dispatch n d t :
  failure_toasts (EDispatch n d :: t) = failure_toasts t.
Proof. reflexivity. Qed.

Lemma attemptDownload_emitted cmd fullPath w :
  emitted (attemptDownload cmd fullPath w) = [EExec cmd]
  \/ emitted (attemptDownload cmd fullPath w) = [EExec cmd; EFs (GetStats fullPath)].
Proof.
  rewrite attemptDownload_run. simpl. repeat case_match; auto.
Qed.

(** What the three attempts leave in the trace. *)
Lemma downloadWithRetry_shape cmd fullPath filename w :
  let o := downloadWithRetry cmd fullPath filename 3 w in
  exists b n,
    res o = Ok b
    /\ progress_of (emitted o) = []
    /\ summaries (emitted o) = []
    /\ (1 <= n <= 3)%nat
    /\ execs_of (emitted o) = replicate n cmd
    /\ failure_toasts (emitted o)
       = if b then [] else ["Failed to download " +:+ filename].
Proof.
  cbv zeta. rewrite downloadWithRetry_three. cbv zeta.
  set (a1 := attemptDownload cmd fullPath w).
  set (a2 := attemptDownload cmd fullPath (post (sleep 1000 (post a1)))).
  set (a3 := attemptDownload cmd fullPath (post (sleep 2000 (post a2)))).
  pose proof (attemptDownload_returns_true cmd fullPath w) as T1.
  pose proof (attemptDownload_emitted cmd fullPath w) as S1.
  pose proof (attemptDownload_emitted cmd fullPath (post (sleep 1000 (post a1)))) as S2.
  pose proof (attemptDownload_emitted cmd fullPath (post (sleep 2000 (post a2)))) as S3.
  fold a1 in T1, S1. fold a2 in S2. fold a3 in S3.
  destruct (res a1) as [b1|e1] eqn:R1.
  { exists b1, 1%nat. rewrite R1. rewrite (T1 b1 eq_refl).
    destruct S1 as [-> | ->]; repeat split; simpl; try done; lia. }
  destruct (res a2) as [b2|e2] eqn:R2.
  { exists true, 2%nat. cbn [res post emitted].
    destruct S1 as [-> | ->], S2 as [-> | ->]; repeat split; simpl; try done; lia. }
  destruct (res a3) as [b3|e3] eqn:R3.
  { exists true, 3%nat. cbn [res post emitted].
    destruct S1 as [-> | ->], S2 as [-> | ->], S3 as [-> | ->];
      repeat split; simpl; try done; lia. }
  exists false, 3%nat. cbn [res post emitted].
  destruct S1 as [-> | ->], S2 as [-> | ->], S3 as [-> | ->];
    repeat split; simpl; try done; lia.
Qed.

Lemma createDirectory_run p w :
  exists r w', filesystem.createDirectory p w = Out r w' [EFs (CreateDirectory p)].
Proof.
  unfold filesystem.createDirectory. repeat case_match; eauto.
Qed.

(** One file that is no index entry. *)
Lemma downloadOne_shape encode file targetPath c totalFiles w b :
  res (downloadOne encode file targetPath c totalFiles w) = Ok b ->
  exists checks attempts,
    emitted (downloadOne encode file targetPath c totalFiles w)
    = checks
        ++ EDispatch "instanceCreationProgress"
             (DProgress (progressEvent file c totalFiles))
        :: attempts
    /\ forallb is_fs_event checks = true
    /\ progress_of attempts = []
    /\ summaries attempts = []
    /\ (exists n, (1 <= n <= 3)%nat
                  /\ execs_of attempts
                     = replicate n (downloadCommand encode
                                      (join [targetPath; filename file]) file))
    /\ failure_toasts attempts
       = if b then [] else ["Failed to download " +:+ filename file].
Proof.
  unfold downloadOne.
  rewrite (bind_ok _ _ _ _ _ _ (pathExists_run _ w)). cbn [res post emitted].
  set (dirPath := dirname (join [targetPath; filename file])).
  set (go := fun _ : unit => bind _ _).
  destruct (bool_decide (is_Some (fs w !! dirPath))); cbn [negb when].
  - rewrite (bind_ok _ _ w tt w [] eq_refl). subst go. cbv beta.
    unfold events.dispatch at 1 2 3. unfold emit at 1 2 3.
    unfold bind at 1 2 3. cbn [res post emitted].
    intros Hb.
    destruct (downloadWithRetry_shape
                (downloadCommand encode (join [targetPath; filename file]) file)
                (join [targetPath; filename file]) (filename file) w)
      as (b' & n & Hres & Hp & Hs & Hn & Ht & Hf).
    rewrite Hres in Hb. injection Hb as ->.
    exists [EFs (GetStats dirPath)], (emitted (downloadWithRetry (downloadCommand encode (join [targetPath; filename file]) file) (join [targetPath; filename file]) (filename file) 3 w)).
    repeat split; try done. by exists n.
  - destruct (createDirectory_run dirPath w) as ([[]|e] & w' & Hc).
    + rewrite (bind_ok _ _ _ _ _ _ Hc). subst go. cbv beta.
      unfold events.dispatch at 1 2 3. unfold emit at 1 2 3.
      unfold bind at 1 2 3. cbn [res post emitted].
      intros Hb.
      destruct (downloadWithRetry_shape
                  (downloadCommand encode (join [targetPath; filename file]) file)
                  (join [targetPath; filename file]) (filename file) w')
        as (b' & n & Hres & Hp & Hs & Hn & Ht & Hf).
      rewrite Hres in Hb. injection Hb as ->.
      exists [EFs (GetStats dirPath); EFs (CreateDirectory dirPath)], (emitted (downloadWithRetry (downloadCommand encode (join [targetPath; filename file]) file) (join [targetPath; filename file]) (filename file) 3 w')).
      repeat split; try done. by exists n.
    + rewrite (bind_thrown _ _ _ _ _ _ Hc). cbn [res]. done.
Qed.
(** The whole loop, when it runs to its end. *)
Lemma downloadEach_shape encode targetPath totalFiles files :
  forall c failed w l,
    res (downloadEach encode files targetPath c totalFiles failed w) = Ok l ->
    let t := emitted (downloadEach encode files targetPath c totalFiles failed w) in
    batch_trace encode targetPath totalFiles files c t
    /\ progress_of t = progressOf files c totalFiles
    /\ summaries t = []
    /\ exists newly,
        l = failed ++ newly
        /\ failure_toasts t = map (fun fn => "Failed to download " +:+ fn) newly.
Proof.
  induction files as [|file rest IH]; intros c failed w l Hl; cbv zeta.
  - simpl in *. injection Hl as <-. repeat split; [constructor|].
    exists []. by rewrite app_nil_r.
  - cbn [downloadEach progressOf] in *.
    destruct (startsWith (filename file) ".index/") eqn:Hidx.
    + destruct (IH _ _ _ _ Hl) as (Hb & Hp & Hs & newly & -> & Hf).
      repeat split; [by constructor|done|done|by exists newly].
    + destruct (bind_returns _ _ _ _ Hl) as (b & Hone & Hrest & _ & ->).
      destruct (downloadOne_shape _ _ _ _ _ _ _ Hone)
        as (checks & attempts & -> & Hc & Hp1 & Hs1 & (n & Hn & Ht1) & Hf1).
      destruct (IH _ _ _ _ Hrest) as (Hb & Hp & Hs & newly & -> & Hf).
      rewrite <- app_assoc. cbn [app].
      assert (Hcp : progress_of checks = [] /\ summaries checks = []
                    /\ failure_toasts checks = []).
      { clear -Hc. induction checks as [|[] ? IHc]; simpl in *; try done.
        by apply IHc. }
      destruct Hcp as (Hcp & Hcs & Hcf).
      repeat split.
      * by apply (batch_file _ _ _ _ _ _ _ _ n).
      * rewrite progress_of_app, progress_of_dispatch, progress_of_app.
      by rewrite Hcp, Hp1, Hp.
    * rewrite summaries_app, summaries_dispatch, summaries_app.
      by rewrite Hcs, Hs1, Hs.
    * destruct b.
      -- exists newly. split; [done|].
         rewrite failure_toasts_app, failure_toasts_dispatch, failure_toasts_app.
         by rewrite Hcf, Hf1, Hf.
      -- exists (filename file :: newly). split; [by rewrite <- app_assoc|].
         rewrite failure_toasts_app, failure_toasts_dispatch, failure_toasts_app.
         by rewrite Hcf, Hf1, Hf.
Qed.

Lemma downloadFilesWith_run encode files targetPath c totalFiles w :
  let o := downloadEach encode files targetPath c totalFiles [] w in
  downloadFilesWith encode files targetPath c totalFiles w =
    match res o with
    | Ok failed => Out (Ok tt) (post o) (emitted o ++ summary failed)
    | Thrown e => Out (Thrown e) (post o) (emitted o)
    end.
Proof.
  cbv zeta. unfold downloadFilesWith, bind.
  destruct (downloadEach _ _ _ _ _ _ w) as [[failed|e] w1 t1]; cbn [res post emitted];
    [|done].
  destruct failed as [|x failed]; simpl; [|done].
  by rewrite app_nil_r.
Qed.

End Batch.

(** ** The programs on concrete inputs *)

Lemma conflict_performs_no_write_witness :
  (res (@Create.resolvePaths posix Example.modAndConfig minecraft
          (Example.linux Example.unreachable Example.homeWithPack))
   = Ok Example.packPaths
   /\ is_Some (fs (Example.linux Example.unreachable Example.homeWithPack)
                 !! Create.instancePath Example.packPaths))
  /\ Example.create Example.modAndConfig minecraft false
       (Example.linux Example.unreachable Example.homeWithPack)
     = Out (Ok false) (Example.linux Example.unreachable Example.homeWithPack)
           [EFs (GetStats "/home/u/.minecraft/instances/Pack")].
Proof.
  assert (H1 : res (@Create.resolvePaths posix Example.modAndConfig minecraft
                      (Example.linux Example.unreachable Example.homeWithPack))
               = Ok Example.packPaths) by (vm_compute; reflexivity).
  assert (H2 : is_Some (fs (Example.linux Example.unreachable Example.homeWithPack)
                          !! Create.instancePath Example.packPaths))
    by (exists NDir; vm_compute; reflexivity).
  split; [by split|].
  exact (proj1 (@conflict_performs_no_write posix Example.modAndConfig minecraft
                  (Example.linux Example.unreachable Example.homeWithPack))
               Example.packPaths H1 H2).
Defined.

(** C3, on the code: an index entry moves the counter of its batch on,
    although it is left out of the total and of the count the caller
    carries from one category to the next.  With the index entry first,
    the only file of the manifest is announced as file 2 of 1 at 200
    percent; with two index entries before a mod and one more category,
    the counter goes from 3 back to 2 and the percentage from 150 to
    100. *)
Theorem index_entry_shifts_progress :
  progress_of (emitted (Example.create Example.indexFirst minecraft false
                          (Example.linux Example.flaky Example.home)))
  = [{| filename_of := "a.jar"; current := 2; total := 1; percentage := 200 |}]
  /\ progress_of (emitted (Example.create Example.twoCategories minecraft false
                            (Example.linux Example.flaky Example.home)))
     = [{| filename_of := "a.jar"; current := 3; total := 2; percentage := 150 |};
        {| filename_of := "c.cfg"; current := 2; total := 2; percentage := 100 |}]
  /\ progress_of (emitted (Example.create Example.indexLast minecraft false
                            (Example.linux Example.flaky Example.home)))
     = [{| filename_of := "a.jar"; current := 1; total := 1; percentage := 100 |}].
Proof. repeat split; vm_compute; reflexivity. Qed.

(** C4, on the code: on Windows create.ts builds the base path from
    [HOME], which is not set there, and never reads [APPDATA]; instance.ts
    takes [APPDATA]. *)
Theorem create_windows_base_ignores_APPDATA :
  res (@Create.resolvePaths posix Example.indexFirst minecraft Example.windows)
  = Ok {| Create.basePath := "AppData/Roaming";
          Create.minecraftPath := "AppData/Roaming/.minecraft";
          Create.prismPath := "";
          Create.instancePath := "AppData/Roaming/.minecraft/instances/Pack" |}
  /\ res (@Instance.resolvePaths posix Example.indexFirst minecraft Example.windows)
     = Ok {| Instance.basePath := "C:\Users\u\AppData\Roaming";
             Instance.minecraftPath := "C:\Users\u\AppData\Roaming/.minecraft";
             Instance.instancePath :=
               "C:\Users\u\AppData\Roaming/.minecraft/instances/Pack" |}.
Proof. split; vm_compute; reflexivity. Qed.

(** C5, on the code: create.ts writes the instance path itself as
    [gameDir], while the files are downloaded below its [.minecraft]
    directory; instance.ts writes the joined path. *)
Theorem create_gameDir_is_instance_root :
  let profiles := "/home/u/.minecraft/launcher_profiles.json" in
  let c := Example.create Example.indexLast minecraft false
             (Example.linux Example.flaky Example.home) in
  let i := Example.instance Example.indexLast minecraft false
             (Example.linux Example.flaky Example.home) in
  res c = Ok true
  /\ field (stored_profile (post c) profiles "communivents_pack") "gameDir"
     = Some (JStr "/home/u/.minecraft/instances/Pack")
  /\ is_Some (fs (post c) !! "/home/u/.minecraft/instances/Pack/.minecraft/mods/a.jar")
  /\ res i = Ok true
  /\ field (stored_profile (post i) profiles "communivents_pack") "gameDir"
     = Some (JStr "/home/u/.minecraft/instances/Pack/.minecraft").
Proof.
  cbv zeta. repeat split; try (vm_compute; reflexivity).
  eexists. vm_compute. reflexivity.
Qed.

(** C6 as stated fails: in the batch of the one file [a.jar] the progress
    event is at position 1 of the trace and the first transfer at
    position 2; and in a whole installation of a manifest with this one
    file, the progress event of the file comes before each of its two
    transfers. *)
Lemma progress_is_dispatched_first :
  let t := emitted (@Create.downloadFiles posix [Example.entry "a.jar"] Example.modsDir 0 1
                      (Example.linux Example.flaky Example.homeWithMods)) in
  let o := Example.create Example.indexLast minecraft false
             (Example.linux Example.flaky Example.home) in
  t !! 1%nat = Some (EDispatch "instanceCreationProgress"
                       (DProgress {| filename_of := "a.jar"; current := 1; total := 1;
                                     percentage := 100 |}))
  /\ (exists cmd, t !! 2%nat = Some (EExec cmd))
  /\ ~ dispatched_after_attempts t
  /\ res o = Ok true
  /\ (exists cmd client, marks (emitted o) = [inl "a.jar"; inr cmd; inr cmd; inr client])
  /\ ~ dispatched_after_attempts (emitted o).
Proof.
  cbv zeta.
  assert (I1 : exists i p, emitted (Example.create Example.indexLast minecraft false
                                      (Example.linux Example.flaky Example.home)) !! i
                           = Some (EDispatch "instanceCreationProgress" (DProgress p))
                           /\ exists cmd,
                               emitted (Example.create Example.indexLast minecraft false
                                          (Example.linux Example.flaky Example.home))
                                 !! S i = Some (EExec cmd)).
  { exists 12%nat. eexists. split; [vm_compute; reflexivity|].
    eexists. vm_compute. reflexivity. }
  assert (E1 : emitted (@Create.downloadFiles posix [Example.entry "a.jar"] Example.modsDir 0 1
                          (Example.linux Example.flaky Example.homeWithMods)) !! 1%nat
               = Some (EDispatch "instanceCreationProgress"
                         (DProgress {| filename_of := "a.jar"; current := 1; total := 1;
                                       percentage := 100 |})))
    by (vm_compute; reflexivity).
  assert (E2 : exists cmd,
             emitted (@Create.downloadFiles posix [Example.entry "a.jar"] Example.modsDir 0 1
                        (Example.linux Example.flaky Example.homeWithMods)) !! 2%nat
             = Some (EExec cmd))
    by (eexists; vm_compute; reflexivity).
  split; [exact E1 | split; [exact E2 |]].
  split; [|split; [vm_compute; reflexivity|split]].
  - intros Hc. destruct E2 as [cmd E2].
    pose proof (Hc 1%nat 2%nat _ _ _ E1 E2). lia.
  - eexists _, _. vm_compute. reflexivity.
  - intros Hc. destruct I1 as (i & p & Hi & cmd & Hj).
    pose proof (Hc i (S i) _ _ _ Hi Hj). lia.
Qed.

(** C8 as stated fails: with one failed download in each of two
    categories the installation shows two summaries, each in the singular,
    and none that counts the two failures of the run. *)
Lemma one_summary_per_category :
  let o := Example.create Example.modAndConfig minecraft false
             (Example.linux Example.unreachable Example.home) in
  res o = Ok true
  /\ failure_toasts (emitted o) = ["Failed to download a.jar"; "Failed to download c.cfg"]
  /\ summaries (emitted o) = ["Failed to download: a.jar"; "Failed to download: c.cfg"]
  /\ summaries (emitted o) <> [failureMessage ["a.jar"; "c.cfg"]].
Proof.
  cbv zeta. repeat split; try (vm_compute; reflexivity).
  vm_compute. discriminate.
Qed.

(** ** The profile store of the generic launcher *)

Section Profiles.
Context `{Libraries}.

(** What [updateLauncherProfiles] of create.ts does to a store that is an
    object with a [profiles] object: it reads it, puts the profile under
    the slug of the name and writes the whole store back. *)
Lemma create_updateLauncherProfiles_run minecraftPath instanceName instancePath javaArgs
      w content m P r :
  let profilesPath := join [minecraftPath; "launcher_profiles.json"] in
  let entry := Create.profile (pretty (clock w)) (dataUrl r) instanceName
                 (pretty (clock w)) instancePath javaArgs in
  let store := JObj (<["profiles" := JObj (<[profileId instanceName := entry]> P)]> m) in
  fs w !! profilesPath = Some (NFile content) ->
  JSON_parse content = Ok (JObj m) ->
  m !! "profiles" = Some (JObj P) ->
  fetchIcon w = Some r ->
  filesystem.parent_ready (fs w) profilesPath = true ->
  Create.updateLauncherProfiles minecraftPath instanceName instancePath javaArgs w
  = Out (Ok tt)
        (filesystem.set_fs w (<[profilesPath := NFile (Stringified store)]> (fs w)))
        [EFs (GetStats profilesPath); EFs (ReadFile profilesPath);
         EFs (WriteFile profilesPath (Stringified store))].
Proof.
  intros profilesPath entry store Hfs Hparse Hm Hicon Hparent.
  unfold Create.updateLauncherProfiles. fold profilesPath.
  apply try_catch_ok.
  rewrite (bind_ok _ _ _ _ _ _ (pathExists_found _ _ _ Hfs)).
  unfold bind, filesystem.readFile, lift, now_iso, getBase64FromImageUrl,
    filesystem.writeFile, filesystem.write.
  rewrite Hfs. cbn [res post emitted]. rewrite Hparse. cbn [res post emitted get_member].
  rewrite Hm, Hicon. cbn [res post emitted set_member with_profiles].
  rewrite Hfs, Hparent. reflexivity.
Qed.
End Profiles.

(** ** What an installation leaves alone *)

Section Frame.
Context `{Libraries}.

(** The node at [pp] and the ambient world. *)
Variable pp : string.
Variable node : Node.
Variable a : string * gmap string string * (nat -> string -> ExecOutcome) * option Response.
Hypothesis Hquiet : quiet pp (a.1.2).

Definition kept (w : World) : Prop := fs w !! pp = Some node /\ ambient w = a.

Lemma preserves_ret {A} (x : A) : preserves kept (ret x).
Proof. by intros w. Qed.

Lemma preserves_throw {A} e : preserves kept (@throw A e).
Proof. by intros w. Qed.

Lemma preserves_lift {A} (r : Res A) : preserves kept (lift r).
Proof. by intros w. Qed.

Lemma preserves_bind {A B} (m : M A) (k : A -> M B) :
  preserves kept m -> (forall x, preserves kept (k x)) -> preserves kept (bind m k).
Proof.
  intros Hm Hk w Hw. specialize (Hm w Hw). unfold bind.
  destruct (m w) as [[x|e] w1 t1]; cbn [post] in *; [|done].
  by apply Hk.
Qed.

Lemma preserves_try_catch {A} (m : M A) h :
  preserves kept m -> (forall e, preserves kept (h e)) -> preserves kept (try_catch m h).
Proof.
  intros Hm Hh w Hw. specialize (Hm w Hw). unfold try_catch.
  destruct (m w) as [[x|e] w1 t1]; cbn [post] in *; [done|].
  by apply Hh.
Qed.

Lemma preserves_when b m : preserves kept m -> preserves kept (when b m).
Proof. destruct b; [done|]. intros _. apply preserves_ret. Qed.

Lemma preserves_emit e : preserves kept (emit e).
Proof. by intros w. Qed.

Lemma preserves_getStats p : preserves kept (filesystem.getStats p).
Proof. intros w Hw. unfold filesystem.getStats. by destruct (fs w !! p). Qed.

Lemma preserves_pathExists p : preserves kept (pathExists p).
Proof. intros w Hw. by rewrite pathExists_run. Qed.

Lemma preserves_readFile p : preserves kept (filesystem.readFile p).
Proof. intros w Hw. unfold filesystem.readFile. by destruct (fs w !! p) as [[|]|]. Qed.

Lemma preserves_now : preserves kept now_iso.
Proof. by intros w. Qed.

Lemma preserves_getBase64 : preserves kept getBase64FromImageUrl.
Proof. intros w Hw. unfold getBase64FromImageUrl. by destruct (fetchIcon w). Qed.

Lemma preserves_sleep ms : preserves kept (sleep ms).
Proof. by intros w. Qed.

Lemma mkdir_keeps (m : gmap string Node) q :
  m !! pp = Some node -> filesystem.mkdir m q !! pp = Some node.
Proof.
  intros Hm. unfold filesystem.mkdir. destruct (m !! q) eqn:E; [done|].
  rewrite lookup_insert_ne; [done|]. intros ->. congruence.
Qed.

Lemma mkdirs_keep l (m : gmap string Node) :
  m !! pp = Some node -> fold_left filesystem.mkdir l m !! pp = Some node.
Proof.
  revert m. induction l as [|q l IH]; intros m Hm; [done|].
  simpl. apply IH. by apply mkdir_keeps.
Qed.

Lemma preserves_createDirectory p : preserves kept (filesystem.createDirectory p).
Proof.
  intros w [Hw Ha]. unfold filesystem.createDirectory.
  destruct (fs w !! p); [done|].
  destruct (existsb _ _); [done|].
  split; [|done]. cbn [post filesystem.set_fs fs]. by apply mkdirs_keep.
Qed.



Lemma effects_keep l (m : gmap string Node) :
  Forall (fun e : string * option Node => e.1 <> pp) l ->
  m !! pp = Some node -> fold_left os.apply_effect l m !! pp = Some node.
Proof.
  revert m. induction l as [|e l IH]; intros m Hl Hm; [done|].
  inversion Hl as [|? ? He Hl']; subst. simpl. apply IH; [done|].
  unfold os.apply_effect. destruct (e.2).
  - by rewrite lookup_insert_ne.
  - by rewrite lookup_delete_ne.
Qed.

Lemma preserves_execCommand cmd : preserves kept (os.execCommand cmd).
Proof.
  intros w [Hw Ha]. unfold os.execCommand. split; [|done].
  cbn [post fs]. apply effects_keep; [|done].
  unfold ambient in Ha. subst a. apply Hquiet.
Qed.

Ltac frame :=
  repeat first
    [ apply preserves_ret | apply preserves_throw | apply preserves_lift
    | apply preserves_emit | apply preserves_getStats | apply preserves_pathExists
    | apply preserves_readFile | apply preserves_now | apply preserves_getBase64
    | apply preserves_sleep | apply preserves_createDirectory
    | apply preserves_execCommand
    | apply preserves_when
    | apply preserves_bind; [|intros ?]
    | apply preserves_try_catch; [|intros ?]
    | match goal with
      | |- preserves kept (if ?c then _ else _) => destruct c
      end ].

Lemma preserves_retryFrom n attempt maxRetries cmd fullPath filename :
  preserves kept (retryFrom n attempt maxRetries cmd fullPath filename).
Proof.
  revert attempt. induction n as [|n IH]; intros attempt; cbn [retryFrom].
  - apply preserves_ret.
  - unfold attemptDownload, toast.error. frame; apply IH.
Qed.

Lemma preserves_downloadEach encode files targetPath :
  forall c totalFiles failed,
    preserves kept (downloadEach encode files targetPath c totalFiles failed).
Proof.
  induction files as [|file rest IH]; intros c totalFiles failed; cbn [downloadEach].
  - apply preserves_ret.
  - destruct (startsWith _ _); [apply IH|].
    apply preserves_bind; [|intros ?; apply IH].
    unfold downloadOne, events.dispatch, downloadWithRetry.
    frame; apply preserves_retryFrom.
Qed.

Lemma preserves_downloadFilesWith encode files targetPath c totalFiles :
  preserves kept (downloadFilesWith encode files targetPath c totalFiles).
Proof.
  unfold downloadFilesWith, toast.error.
  apply preserves_bind; [apply preserves_downloadEach|]. intros ?. frame.
Qed.


End Frame.

(** ** Installing twice *)

Section Reinstall.
Context `{Libraries}.

Lemma create_profile_name created icon instanceName lastUsed instancePath javaArgs :
  field (Some (Create.profile created icon instanceName lastUsed instancePath javaArgs))
        "name"
  = Some (JStr instanceName).
Proof.
  unfold Create.profile. destruct javaArgs as [args|]; [destruct (String.eqb args "")|];
    reflexivity.
Qed.

(** A call of [updateLauncherProfiles] that returns has put the profile
    of the instance into the store it found. *)
Lemma create_updateLauncherProfiles_returns minecraftPath instanceName instancePath
      javaArgs w content m P :
  let profilesPath := join [minecraftPath; "launcher_profiles.json"] in
  let o := Create.updateLauncherProfiles minecraftPath instanceName instancePath
             javaArgs w in
  fs w !! profilesPath = Some (NFile content) ->
  JSON_parse content = Ok (JObj m) ->
  m !! "profiles" = Some (JObj P) ->
  res o = Ok tt ->
  exists e,
    fs (post o) !! profilesPath
    = Some (NFile (Stringified
                     (JObj (<["profiles" := JObj (<[profileId instanceName := e]> P)]> m))))
    /\ ambient (post o) = ambient w
    /\ field (Some e) "name" = Some (JStr instanceName).
Proof.
  intros profilesPath o Hfs Hparse Hm. subst o.
  destruct (fetchIcon w) as [r|] eqn:Hicon.
  - destruct (filesystem.parent_ready (fs w) profilesPath) eqn:Hparent.
    + rewrite (create_updateLauncherProfiles_run _ _ _ _ _ _ _ _ _ Hfs Hparse Hm Hicon
                 Hparent).
      cbn [res post]. intros _. eexists. split; [|split].
      * cbn [fs filesystem.set_fs]. apply lookup_insert_eq.
      * reflexivity.
      * apply create_profile_name.
    + unfold Create.updateLauncherProfiles. fold profilesPath.
      match goal with
      | |- res (try_catch ?body ?h w) = _ -> _ =>
          assert (Hthrown : exists e w' t, body w = Out (Thrown e) w' t)
      end.
      { rewrite (bind_ok _ _ _ _ _ _ (pathExists_found _ _ _ Hfs)).
        unfold bind, filesystem.readFile, lift, now_iso, getBase64FromImageUrl,
          filesystem.writeFile, filesystem.write.
        rewrite Hfs. cbn [res post emitted]. rewrite Hparse.
        cbn [res post emitted get_member].
        rewrite Hm, Hicon. cbn [res post emitted set_member with_profiles].
        rewrite Hfs, Hparent. cbn [res post emitted]. eauto. }
      destruct Hthrown as (e & w' & t & E).
      rewrite (try_catch_thrown _ _ _ _ _ _ E). done.
  - unfold Create.updateLauncherProfiles. fold profilesPath.
    match goal with
    | |- res (try_catch ?body ?h w) = _ -> _ =>
        assert (Hthrown : exists e w' t, body w = Out (Thrown e) w' t)
    end.
    { rewrite (bind_ok _ _ _ _ _ _ (pathExists_found _ _ _ Hfs)).
      unfold bind, filesystem.readFile, lift, now_iso, getBase64FromImageUrl.
      rewrite Hfs. cbn [res post emitted]. rewrite Hparse.
      cbn [res post emitted get_member].
      rewrite Hm, Hicon. cbn [res post emitted]. eauto. }
    destruct Hthrown as (e & w' & t & E).
    rewrite (try_catch_thrown _ _ _ _ _ _ E). done.
Qed.

(** A [try] whose handler throws again returns only what its body
    returns. *)
Lemma try_catch_returns {A} (m : M A) h w x :
  (forall e w', exists e', res (h e w') = Thrown e') ->
  res (try_catch m h w) = Ok x ->
  try_catch m h w = m w.
Proof.
  intros Hh. unfold try_catch. destruct (m w) as [[y|e] w1 t1]; [done|].
  cbn [res]. destruct (Hh e w1) as [e' ->]. done.
Qed.

Lemma bind_getEnv {A} n (k : string -> M A) w :
  bind (os.getEnv n) k w = k (default "" (env w !! n)) w.
Proof. unfold bind, os.getEnv. cbn [app]. apply outcome_eta. Qed.

Lemma bind_NL_OS {A} (k : string -> M A) w : bind window_NL_OS k w = k (NL_OS w) w.
Proof. unfold bind, window_NL_OS. cbn [app]. apply outcome_eta. Qed.







End Reinstall.

(** ** The client of a vanilla instance *)

Section Client.
Context `{Libraries}.

(** C9: for a vanilla manifest, once the directories, the configuration
    and the category downloads are done, the client is fetched with
    exactly one transfer: no second attempt and no wait, and neither the
    exit status nor the file is looked at.  Whatever the transfer does,
    the completion event is dispatched next and the installation returns
    [true]. *)
Theorem client_jar_is_one_unchecked_transfer d t force p w :
  let minecraftDir := join [Create.instancePath p; ".minecraft"] in
  let cmd := "curl -X GET -L -o " +:+ quoted (join [minecraftDir; "client.jar"])
               +:+ " " +:+ quoted (client_jar (download_urls d)) in
  let before := Create.prepare d t p w in
  type (loader d) = vanilla ->
  res (Create.resolvePaths d t w) = Ok p ->
  fs w !! Create.instancePath p = None ->
  res before = Ok tt ->
  (forall w', Create.downloadMinecraftFiles (download_urls d) minecraftDir w'
              = Out (Ok tt) (post (os.execCommand cmd w')) [EExec cmd])
  /\ Create.createMinecraftInstance d t force w
     = Out (Ok true) (post (os.execCommand cmd (post before)))
           (EFs (GetStats (Create.instancePath p))
              :: emitted before
              ++ [EExec cmd;
                  EDispatch "instanceCreationComplete"
                    (DComplete (name d) (Create.instancePath p));
                  EToast ToastSuccess ("Created " +:+ quoted (name d) +:+ " instance!")
                    None]).
Proof.
  intros minecraftDir cmd before Hvan Hp Hfree Hbefore. split; [done|].
  unfold Create.createMinecraftInstance. apply try_catch_ok.
  destruct (create_resolvePaths_pure d t w) as [r Hr].
  rewrite Hr in Hp. cbn [res] in Hp. subst r.
  rewrite (bind_ok _ _ _ _ _ _ Hr). cbn [res post emitted app].
  rewrite (bind_ok _ _ _ _ _ _ (pathExists_missing _ _ Hfree)).
  cbn [res post emitted app]. unfold Create.install. subst before.
  destruct (Create.prepare d t p w) as [[[]|e] w1 t1] eqn:E; [|done].
  rewrite (bind_ok _ _ _ _ _ _ E). cbn [res post emitted].
  unfold Create.isVanilla. rewrite Hvan. cbn [when].
  unfold Create.downloadMinecraftFiles. fold minecraftDir. fold cmd.
  unfold bind, os.execCommand, events.dispatch, toast.success, emit, ret.
  cbn [res post emitted app]. reflexivity.
Qed.
End Client.


Lemma quiet_unreachable p : quiet p Example.unreachable.
Proof. intros n cmd. constructor. Qed.

(** ** The slug of an instance name *)

Lemma lower_ascii_idem c : lower_ascii (lower_ascii c) = lower_ascii c.
Proof. destruct c as [[] [] [] [] [] [] [] []]; reflexivity. Qed.

Lemma toLowerCase_idem s : toLowerCase (toLowerCase s) = toLowerCase s.
Proof. induction s as [|c s IH]; simpl; [done|]. by rewrite lower_ascii_idem, IH. Qed.

Lemma toLowerCase_app s1 s2 :
  toLowerCase (s1 +:+ s2) = toLowerCase s1 +:+ toLowerCase s2.
Proof. induction s1 as [|c s1 IH]; simpl; [done|]. by rewrite IH. Qed.

Lemma replace_non_alnum_app s1 s2 :
  replace_non_alnum (s1 +:+ s2) = replace_non_alnum s1 +:+ replace_non_alnum s2.
Proof. induction s1 as [|c s1 IH]; simpl; [done|]. by rewrite IH. Qed.

Section Slug.
Context `{Libraries}.

(** C10: the slug is not injective.  Two names that differ in the case
    of their letters only have the same slug, and so have two names that
    differ in one character that is neither a letter nor a digit; for
    instance [Pack] and [pack], or [my pack] and [my-pack].  When the
    profile of one such name is written after the profile of the other,
    the entry under the common slug carries the second name: the first
    profile is gone. *)
Theorem profileId_is_not_injective :
  (forall n, profileId (toLowerCase n) = profileId n)
  /\ (forall s1 c1 c2 s2,
         is_lower_alnum (lower_ascii c1) = false ->
         is_lower_alnum (lower_ascii c2) = false ->
         profileId (s1 +:+ String c1 s2) = profileId (s1 +:+ String c2 s2))
  /\ (profileId "Pack" = profileId "pack" /\ "Pack" <> "pack")
  /\ (profileId "my pack" = profileId "my-pack" /\ "my pack" <> "my-pack")
  /\ (forall minecraftPath n1 n2 path1 path2 args1 args2 w m P,
         let profilesPath := join [minecraftPath; "launcher_profiles.json"] in
         let o1 := Create.updateLauncherProfiles minecraftPath n1 path1 args1 w in
         let o2 := Create.updateLauncherProfiles minecraftPath n2 path2 args2 (post o1) in
         profileId n1 = profileId n2 ->
         fs w !! profilesPath = Some (NFile (Stringified (JObj m))) ->
         m !! "profiles" = Some (JObj P) ->
         res o1 = Ok tt ->
         res o2 = Ok tt ->
         field (stored_profile (post o1) profilesPath (profileId n1)) "name"
         = Some (JStr n1)
         /\ field (stored_profile (post o2) profilesPath (profileId n1)) "name"
            = Some (JStr n2)).
Proof.
  split; [|split; [|split; [|split]]].
  - intros n. unfold profileId. by rewrite toLowerCase_idem.
  - intros s1 c1 c2 s2 H1 H2. unfold profileId.
    rewrite !toLowerCase_app, !replace_non_alnum_app. simpl. by rewrite H1, H2.
  - split; [reflexivity|discriminate].
  - split; [reflexivity|discriminate].
  - intros minecraftPath n1 n2 path1 path2 args1 args2 w m P profilesPath o1 o2
           Hslug Hfs Hm H1 H2.
    destruct (create_updateLauncherProfiles_returns _ _ _ _ _ _ _ _ Hfs eq_refl Hm H1)
      as (e1 & Hfs1 & _ & Hname1).
    fold o1 profilesPath in Hfs1.
    destruct (create_updateLauncherProfiles_returns _ _ _ _ _ _ _ _ Hfs1 eq_refl
                (lookup_insert_eq _ _ _) H2)
      as (e2 & Hfs2 & _ & Hname2).
    fold o2 profilesPath in Hfs2.
    unfold stored_profile. rewrite Hfs1, Hfs2, !lookup_insert_eq.
    rewrite Hslug, !lookup_insert_eq. done.
Qed.
End Slug.

Lemma profileId_is_not_injective_witness :
  let w := Example.linux Example.flaky Example.home in
  let o1 := @Create.updateLauncherProfiles posix "/home/u/.minecraft" "Pack"
              "/home/u/.minecraft/instances/Pack" None w in
  let o2 := @Create.updateLauncherProfiles posix "/home/u/.minecraft" "pack"
              "/home/u/.minecraft/instances/pack" None (post o1) in
  (profileId "Pack" = profileId "pack"
   /\ fs w !! Example.profilesPath = Some (NFile (Stringified (JObj Example.storeFields)))
   /\ Example.storeFields !! "profiles" = Some (JObj Example.storeProfiles)
   /\ res o1 = Ok tt
   /\ res o2 = Ok tt)
  /\ field (stored_profile (post o1) Example.profilesPath (profileId "Pack")) "name"
     = Some (JStr "Pack")
  /\ field (stored_profile (post o2) Example.profilesPath (profileId "Pack")) "name"
     = Some (JStr "pack").
Proof.
  cbv zeta.
  assert (H0 : profileId "Pack" = profileId "pack") by reflexivity.
  assert (H1 : fs (Example.linux Example.flaky Example.home)
                 !! @join posix ["/home/u/.minecraft"; "launcher_profiles.json"]
               = Some (NFile (Stringified (JObj Example.storeFields))))
    by (vm_compute; reflexivity).
  assert (H2 : Example.storeFields !! "profiles" = Some (JObj Example.storeProfiles))
    by (vm_compute; reflexivity).
  assert (H3 : res (@Create.updateLauncherProfiles posix "/home/u/.minecraft" "Pack"
                      "/home/u/.minecraft/instances/Pack" None
                      (Example.linux Example.flaky Example.home)) = Ok tt)
    by (vm_compute; reflexivity).
  assert (H4 : res (@Create.updateLauncherProfiles posix "/home/u/.minecraft" "pack"
                      "/home/u/.minecraft/instances/pack" None
                      (post (@Create.updateLauncherProfiles posix "/home/u/.minecraft"
                               "Pack" "/home/u/.minecraft/instances/Pack" None
                               (Example.linux Example.flaky Example.home)))) = Ok tt)
    by (vm_compute; reflexivity).
  split; [repeat split; assumption|].
  exact (proj2 (proj2 (proj2 (proj2 (@profileId_is_not_injective posix))))
           "/home/u/.minecraft" "Pack" "pack" "/home/u/.minecraft/instances/Pack"
           "/home/u/.minecraft/instances/pack" None None
           (Example.linux Example.flaky Example.home)
           Example.storeFields Example.storeProfiles H0 H1 H2 H3 H4).
Defined.



Lemma client_jar_is_one_unchecked_transfer_witness :
  let w := Example.linux Example.unreachable Example.home in
  let cmd := "curl -X GET -L -o "
               +:+ quoted "/home/u/.minecraft/instances/Pack/.minecraft/client.jar"
               +:+ " " +:+ quoted "https://example.org/client.jar" in
  let before := @Create.prepare posix Example.indexLast minecraft Example.packPaths w in
  (type (loader Example.indexLast) = vanilla
   /\ res (@Create.resolvePaths posix Example.indexLast minecraft w) = Ok Example.packPaths
   /\ fs w !! Create.instancePath Example.packPaths = None
   /\ res before = Ok tt
   /\ exitCode (result (execOracle (post before) (execCount (post before)) cmd)) = 22)
  /\ Example.create Example.indexLast minecraft false w
     = Out (Ok true) (post (os.execCommand cmd (post before)))
           (EFs (GetStats "/home/u/.minecraft/instances/Pack")
              :: emitted before
              ++ [EExec cmd;
                  EDispatch "instanceCreationComplete"
                    (DComplete "Pack" "/home/u/.minecraft/instances/Pack");
                  EToast ToastSuccess ("Created " +:+ quoted "Pack" +:+ " instance!")
                    None]).
Proof.
  cbv zeta.
  assert (H1 : type (loader Example.indexLast) = vanilla) by reflexivity.
  assert (H2 : res (@Create.resolvePaths posix Example.indexLast minecraft
                      (Example.linux Example.unreachable Example.home))
               = Ok Example.packPaths) by (vm_compute; reflexivity).
  assert (H3 : fs (Example.linux Example.unreachable Example.home)
                 !! Create.instancePath Example.packPaths = None)
    by (vm_compute; reflexivity).
  assert (H4 : res (@Create.prepare posix Example.indexLast minecraft Example.packPaths
                      (Example.linux Example.unreachable Example.home)) = Ok tt)
    by (vm_compute; reflexivity).
  split; [repeat split; try assumption; reflexivity|].
  exact (proj2 (@client_jar_is_one_unchecked_transfer posix Example.indexLast minecraft
                  false Example.packPaths
                  (Example.linux Example.unreachable Example.home) H1 H2 H3 H4)).
Defined.

(** ** Reads at the head of a sequence *)

Lemma bind_assoc {A B C} (m : M A) (k : A -> M B) (k' : B -> M C) w :
  bind (bind m k) k' w = bind m (fun x => bind (k x) k') w.
Proof.
  unfold bind. destruct (m w) as [[x|e] w1 t1]; [|done].
  destruct (k x w1) as [[y|e] w2 t2]; cbn [res post emitted]; [|done].
  by rewrite app_assoc.
Qed.

Lemma bind_getEnv_assoc {A B} n (k : string -> M A) (k' : A -> M B) w :
  bind (bind (os.getEnv n) k) k' w = bind (k (default "" (env w !! n))) k' w.
Proof. rewrite bind_assoc. unfold bind at 1, os.getEnv. cbn [app]. apply outcome_eta. Qed.

Lemma bind_NL_OS_assoc {A B} (k : string -> M A) (k' : A -> M B) w :
  bind (bind window_NL_OS k) k' w = bind (k (NL_OS w)) k' w.
Proof. rewrite bind_assoc. unfold bind at 1, window_NL_OS. cbn [app]. apply outcome_eta. Qed.

(** * Further properties of the code *)

(** ** The paths of instance.ts *)

Section InstancePaths.
Context `{Libraries}.

Lemma instance_resolvePaths_run d t w :
  Instance.resolvePaths d t w
  = Out (res (Instance.resolvePaths d t w)) w [].
Proof.
  destruct (instance_resolvePaths_pure d t w) as [r Hr]. by rewrite Hr.
Qed.

(** The table of instance.ts: the base path is [APPDATA] on Windows,
    [HOME/Library/Application Support] on macOS and [HOME] on Linux; the
    game directory is [.minecraft] below it ([minecraft] on macOS); the
    third-party launcher lives in [PrismLauncher] below it
    ([.local/share/PrismLauncher] on Linux); the instance is in
    [instances/<name>] below the launcher it is installed for.  Any other
    operating system is an error, for both launchers. *)
Theorem instance_path_table d t w :
  let home := default "" (env w !! "HOME") in
  let appdata := default "" (env w !! "APPDATA") in
  let paths base game launcher :=
    Ok {| Instance.basePath := base;
          Instance.minecraftPath := join [base; game];
          Instance.instancePath :=
            join [match t with
                  | minecraft => join [base; game]
                  | prism => join (base :: launcher)
                  end; "instances"; name d] |} in
  (NL_OS w = "Windows" ->
   res (Instance.resolvePaths d t w) = paths appdata ".minecraft" ["PrismLauncher"])
  /\ (NL_OS w = "Darwin" ->
      res (Instance.resolvePaths d t w)
      = paths (join [home; "Library"; "Application Support"]) "minecraft" ["PrismLauncher"])
  /\ (NL_OS w = "Linux" ->
      res (Instance.resolvePaths d t w)
      = paths home ".minecraft" [".local"; "share"; "PrismLauncher"])
  /\ (NL_OS w <> "Windows" -> NL_OS w <> "Darwin" -> NL_OS w <> "Linux" ->
      res (Instance.resolvePaths d t w) = Thrown (Error "Unsupported operating system")).
Proof.
  cbv zeta.
  unfold Instance.resolvePaths, Instance.getBasePath, Instance.getMinecraftPath,
    Instance.getPrismLauncherPath, Instance.unsupported.
  repeat split.
  - intros E. destruct w as [system ? ? ? ? ? ?]. cbn [NL_OS] in E. subst system.
    destruct t; reflexivity.
  - intros E. destruct w as [system ? ? ? ? ? ?]. cbn [NL_OS] in E. subst system.
    destruct t; reflexivity.
  - intros E. destruct w as [system ? ? ? ? ? ?]. cbn [NL_OS] in E. subst system.
    destruct t; reflexivity.
  - intros E1 E2 E3. rewrite !bind_getEnv_assoc, !bind_NL_OS_assoc.
    apply String.eqb_neq in E1, E2, E3. rewrite E1, E2, E3. reflexivity.
Qed.
End InstancePaths.

Lemma instance_path_table_witness :
  NL_OS (Example.machine "Darwin") = "Darwin"
  /\ res (@Instance.resolvePaths posix Example.indexLast prism (Example.machine "Darwin"))
     = Ok {| Instance.basePath := "/Users/u/Library/Application Support";
             Instance.minecraftPath := "/Users/u/Library/Application Support/minecraft";
             Instance.instancePath :=
               "/Users/u/Library/Application Support/PrismLauncher/instances/Pack" |}.
Proof.
  split; [reflexivity|].
  exact (proj1 (proj2 (@instance_path_table posix Example.indexLast prism
                         (Example.machine "Darwin"))) eq_refl).
Defined.

(** ** Errors of an installation *)

Section Errors.
Context `{Libraries}.

Lemma create_resolvePaths_unsupported d t w :
  NL_OS w <> "Windows" -> NL_OS w <> "Darwin" -> NL_OS w <> "Linux" ->
  Create.resolvePaths d t w = Out (Thrown (Error "Unsupported operating system")) w [].
Proof.
  intros E1 E2 E3. apply String.eqb_neq in E1, E2, E3.
  unfold Create.resolvePaths. rewrite bind_getEnv, bind_NL_OS.
  unfold Create.basePathOf. rewrite E1, E2, E3. reflexivity.
Qed.

Lemma instance_resolvePaths_unsupported d t w :
  NL_OS w <> "Windows" -> NL_OS w <> "Darwin" -> NL_OS w <> "Linux" ->
  Instance.resolvePaths d t w = Out (Thrown (Error "Unsupported operating system")) w [].
Proof.
  intros E1 E2 E3. rewrite instance_resolvePaths_run. f_equal.
  unfold Instance.resolvePaths, Instance.getBasePath, Instance.unsupported.
  rewrite !bind_getEnv_assoc, !bind_NL_OS_assoc.
  apply String.eqb_neq in E1, E2, E3. rewrite E1, E2, E3. reflexivity.
Qed.

(** On an operating system other than Windows, macOS and Linux the
    installation fails before it looks at the file system: it throws
    [Unsupported operating system], the world is as it was, and its only
    effect is the error event with this message. *)
Theorem unsupported_system_touches_nothing d t force w :
  NL_OS w <> "Windows" -> NL_OS w <> "Darwin" -> NL_OS w <> "Linux" ->
  Create.createMinecraftInstance d t force w
  = Out (Thrown (Error "Unsupported operating system")) w
        [EDispatch "instanceCreationError"
           (DError (PMessage "Unsupported operating system"))]
  /\ Instance.createMinecraftInstance d t force w
     = Out (Thrown (Error "Unsupported operating system")) w
           [EDispatch "instanceCreationError"
              (DError (PMessage "Unsupported operating system"))].
Proof.
  intros E1 E2 E3. split.
  - unfold Create.createMinecraftInstance.
    rewrite (try_catch_thrown _ _ _ _ _ _
               (bind_thrown _ _ _ _ _ _ (create_resolvePaths_unsupported d t w E1 E2 E3))).
    reflexivity.
  - unfold Instance.createMinecraftInstance.
    rewrite (try_catch_thrown _ _ _ _ _ _
               (bind_thrown _ _ _ _ _ _ (instance_resolvePaths_unsupported d t w E1 E2 E3))).
    reflexivity.
Qed.

(** Whenever an installation throws, the error event was dispatched
    last, with the message of the error that is thrown (with the error
    itself when it has no message). *)
Theorem thrown_error_is_published d t force w :
  (forall e,
      res (Create.createMinecraftInstance d t force w) = Thrown e ->
      exists before,
        emitted (Create.createMinecraftInstance d t force w)
        = before ++ [EDispatch "instanceCreationError" (DError (Create.errorPayload e))])
  /\ (forall e,
         res (Instance.createMinecraftInstance d t force w) = Thrown e ->
         exists before,
           emitted (Instance.createMinecraftInstance d t force w)
           = before
               ++ [EDispatch "instanceCreationError" (DError (Instance.errorPayload e))]).
Proof.
  split; intros e.
  - unfold Create.createMinecraftInstance, try_catch.
    match goal with |- context [match ?b w with _ => _ end] => destruct (b w) as [[x|e0] w1 t1] end;
      cbn [res emitted]; [done|].
    intros [= ->]. by exists t1.
  - unfold Instance.createMinecraftInstance, try_catch.
    match goal with |- context [match ?b w with _ => _ end] => destruct (b w) as [[x|e0] w1 t1] end;
      cbn [res emitted]; [done|].
    intros [= ->]. by exists t1.
Qed.
End Errors.

Lemma unsupported_system_touches_nothing_witness :
  (NL_OS Example.freebsd <> "Windows" /\ NL_OS Example.freebsd <> "Darwin"
   /\ NL_OS Example.freebsd <> "Linux")
  /\ Example.create Example.indexLast minecraft true Example.freebsd
     = Out (Thrown (Error "Unsupported operating system")) Example.freebsd
           [EDispatch "instanceCreationError"
              (DError (PMessage "Unsupported operating system"))]
  /\ Example.instance Example.indexLast minecraft true Example.freebsd
     = Out (Thrown (Error "Unsupported operating system")) Example.freebsd
           [EDispatch "instanceCreationError"
              (DError (PMessage "Unsupported operating system"))].
Proof.
  assert (E1 : NL_OS Example.freebsd <> "Windows") by discriminate.
  assert (E2 : NL_OS Example.freebsd <> "Darwin") by discriminate.
  assert (E3 : NL_OS Example.freebsd <> "Linux") by discriminate.
  split; [by repeat split|].
  exact (@unsupported_system_touches_nothing posix Example.indexLast minecraft true
           Example.freebsd E1 E2 E3).
Defined.

(** ** What a batch downloads *)

Section Downloads.
Context `{Libraries}.

Lemma execs_of_app t1 t2 : execs_of (t1 ++ t2) = execs_of t1 ++ execs_of t2.
Proof. apply omap_app. Qed.

Lemma execs_of_checks checks : forallb is_fs_event checks = true -> execs_of checks = [].
Proof.
  induction checks as [|[] checks IH]; simpl; done.
Qed.

Lemma downloaded_cons_index file rest :
  startsWith (filename file) ".index/" = true -> downloaded (file :: rest) = downloaded rest.
Proof. intros E. unfold downloaded, not_index. simpl. by rewrite E. Qed.

Lemma downloaded_cons_file file rest :
  startsWith (filename file) ".index/" = false ->
  downloaded (file :: rest) = file :: downloaded rest.
Proof. intros E. unfold downloaded, not_index. simpl. by rewrite E. Qed.

Lemma batch_trace_execs encode targetPath totalFiles files c t :
  batch_trace encode targetPath totalFiles files c t ->
  exists counts,
    List.length counts = List.length (downloaded files)
    /\ Forall (fun n => 1 <= n <= 3)%nat counts
    /\ execs_of t
       = concat (zip_with
                   (fun n file =>
                      replicate n (downloadCommand encode
                                     (join [targetPath; filename file]) file))
                   counts (downloaded files)).
Proof.
  induction 1 as [c|file rest c t Hidx _ IH|file rest c checks attempts n t Hidx Hc Hp Hn He _ IH].
  - by exists [].
  - destruct IH as (counts & Hl & Hf & IH). exists counts.
    by rewrite (downloaded_cons_index _ _ Hidx).
  - destruct IH as (counts & Hl & Hf & IH). exists (n :: counts).
    rewrite (downloaded_cons_file _ _ Hidx). split; [simpl; by rewrite Hl|].
    split; [constructor; [exact Hn|exact Hf]|].
    rewrite execs_of_app, (execs_of_checks _ Hc). cbn [app zip_with concat].
    change (execs_of (EDispatch ?x ?y :: ?l)) with (execs_of l).
    by rewrite execs_of_app, He, IH.
Qed.

(** Every entry of a batch that is no index entry is transferred at
    least once and at most three times, with its own command line and in
    the order of the manifest; nothing else is transferred, an index
    entry in particular never. *)
Theorem every_file_is_attempted encode files targetPath c totalFiles w :
  res (downloadFilesWith encode files targetPath c totalFiles w) = Ok tt ->
  exists counts,
    List.length counts = List.length (downloaded files)
    /\ Forall (fun n => 1 <= n <= 3)%nat counts
    /\ execs_of (emitted (downloadFilesWith encode files targetPath c totalFiles w))
       = concat (zip_with
                   (fun n file =>
                      replicate n (downloadCommand encode
                                     (join [targetPath; filename file]) file))
                   counts (downloaded files)).
Proof.
  rewrite downloadFilesWith_run. cbv zeta.
  destruct (res (downloadEach _ _ _ _ _ _ w)) as [failed|e] eqn:E; cbn [res emitted];
    [|done].
  intros _.
  destruct (downloadEach_shape _ _ _ _ _ _ _ _ E) as (Hb & _).
  destruct (batch_trace_execs _ _ _ _ _ _ Hb) as (counts & Hl & Hf & He).
  exists counts. split; [done|]. split; [done|].
  rewrite execs_of_app, He. destruct failed; simpl; by rewrite app_nil_r.
Qed.

(** A batch of index entries only does nothing at all. *)
Theorem index_only_batch_does_nothing encode files targetPath c totalFiles w :
  forallb (fun file => startsWith (filename file) ".index/") files = true ->
  downloadFilesWith encode files targetPath c totalFiles w = Out (Ok tt) w [].
Proof.
  intros Hall.
  assert (E : forall c, downloadEach encode files targetPath c totalFiles [] w
                        = Out (Ok []) w []).
  { induction files as [|file rest IH]; intros c'; [done|].
    simpl in Hall. apply andb_prop in Hall as [Hf Hr].
    cbn [downloadEach]. rewrite Hf. by apply IH. }
  rewrite downloadFilesWith_run. cbv zeta. by rewrite E.
Qed.

Lemma progressOf_without_index files :
  forall c totalFiles,
    forallb not_index files = true ->
    progressOf files c totalFiles
    = imap (fun i file => progressEvent file (c + Z.of_nat i) totalFiles) files.
Proof.
  induction files as [|file rest IH]; intros c totalFiles Hall; [done|].
  simpl in Hall. apply andb_prop in Hall as [Hf Hr].
  cbn [progressOf]. unfold not_index in Hf. apply negb_true_iff in Hf. rewrite Hf.
  rewrite imap_cons. cbn [Z.of_nat]. rewrite Z.add_0_r. f_equal.
  rewrite (IH _ _ Hr). apply imap_ext. intros i x _. cbn. f_equal. lia.
Qed.

(** In a batch without index entries that runs to its end, the progress
    event of the entry at position [i] (from 0) counts [c + i + 1] of
    [totalFiles], [c] being the count the batch started from. *)
Theorem progress_counts_without_index encode files targetPath c totalFiles w :
  forallb not_index files = true ->
  res (downloadFilesWith encode files targetPath c totalFiles w) = Ok tt ->
  progress_of (emitted (downloadFilesWith encode files targetPath c totalFiles w))
  = imap (fun i file => progressEvent file (c + Z.of_nat i) totalFiles) files.
Proof.
  intros Hall. rewrite downloadFilesWith_run. cbv zeta.
  destruct (res (downloadEach _ _ _ _ _ _ w)) as [failed|e] eqn:E; cbn [res emitted];
    [|done].
  intros _.
  destruct (downloadEach_shape _ _ _ _ _ _ _ _ E) as (_ & Hp & _).
  rewrite progress_of_app, Hp, (progressOf_without_index _ _ _ Hall).
  destruct failed; simpl; by rewrite app_nil_r.
Qed.
End Downloads.

Lemma every_file_is_attempted_witness :
  res (@Create.downloadFiles posix
         [Example.entry ".index/a.json"; Example.entry "a.jar"] Example.modsDir 0 1
         (Example.linux Example.flaky Example.homeWithMods)) = Ok tt
  /\ exists counts,
      List.length counts
      = List.length (downloaded [Example.entry ".index/a.json"; Example.entry "a.jar"])
      /\ Forall (fun n => 1 <= n <= 3)%nat counts
      /\ execs_of (emitted (@Create.downloadFiles posix
                              [Example.entry ".index/a.json"; Example.entry "a.jar"]
                              Example.modsDir 0 1
                              (Example.linux Example.flaky Example.homeWithMods)))
         = concat (zip_with
                     (fun n file =>
                        replicate n (downloadCommand (fun url => url)
                                       (@join posix [Example.modsDir; filename file]) file))
                     counts
                     (downloaded [Example.entry ".index/a.json"; Example.entry "a.jar"])).
Proof.
  assert (H1 : res (@Create.downloadFiles posix
                      [Example.entry ".index/a.json"; Example.entry "a.jar"]
                      Example.modsDir 0 1
                      (Example.linux Example.flaky Example.homeWithMods)) = Ok tt)
    by (vm_compute; reflexivity).
  split; [exact H1|].
  exact (@every_file_is_attempted posix (fun url => url)
           [Example.entry ".index/a.json"; Example.entry "a.jar"] Example.modsDir 0 1
           (Example.linux Example.flaky Example.homeWithMods) H1).
Defined.

Lemma index_only_batch_does_nothing_witness :
  forallb (fun file => startsWith (filename file) ".index/")
    [Example.entry ".index/a.json"; Example.entry ".index/b.json"] = true
  /\ @Create.downloadFiles posix
       [Example.entry ".index/a.json"; Example.entry ".index/b.json"] Example.modsDir 0 1
       (Example.linux Example.flaky Example.home)
     = Out (Ok tt) (Example.linux Example.flaky Example.home) [].
Proof.
  split; [reflexivity|].
  exact (@index_only_batch_does_nothing posix (fun url => url)
           [Example.entry ".index/a.json"; Example.entry ".index/b.json"] Example.modsDir
           0 1 (Example.linux Example.flaky Example.home) eq_refl).
Defined.

Lemma progress_counts_without_index_witness :
  (forallb not_index [Example.entry "a.jar"; Example.entry "b.jar"] = true
   /\ res (@Create.downloadFiles posix [Example.entry "a.jar"; Example.entry "b.jar"]
             Example.modsDir 4 9 (Example.linux Example.flaky Example.homeWithMods))
      = Ok tt)
  /\ progress_of
       (emitted (@Create.downloadFiles posix [Example.entry "a.jar"; Example.entry "b.jar"]
                   Example.modsDir 4 9 (Example.linux Example.flaky Example.homeWithMods)))
     = imap (fun i file => progressEvent file (4 + Z.of_nat i) 9)
         [Example.entry "a.jar"; Example.entry "b.jar"].
Proof.
  assert (H1 : res (@Create.downloadFiles posix
                      [Example.entry "a.jar"; Example.entry "b.jar"]
                      Example.modsDir 4 9
                      (Example.linux Example.flaky Example.homeWithMods)) = Ok tt)
    by (vm_compute; reflexivity).
  split; [by split|].
  exact (@progress_counts_without_index posix (fun url => url)
           [Example.entry "a.jar"; Example.entry "b.jar"] Example.modsDir 4 9
           (Example.linux Example.flaky Example.homeWithMods) eq_refl H1).
Defined.

(** ** Any number of attempts *)

Section Attempts.
Context `{Libraries}.

Lemma sleeps_of_app t1 t2 : sleeps_of (t1 ++ t2) = sleeps_of t1 ++ sleeps_of t2.
Proof. apply omap_app. Qed.

Lemma attemptDownload_sleeps cmd fullPath w :
  sleeps_of (emitted (attemptDownload cmd fullPath w)) = [].
Proof. by destruct (attemptDownload_emitted cmd fullPath w) as [-> | ->]. Qed.

(** The loop from attempt [attempt] on, [n] turns before the end. *)
Lemma retryFrom_bounded cmd fullPath filename maxRetries n :
  forall attempt w,
    attempt + Z.of_nat n = maxRetries + 1 ->
    let o := retryFrom n attempt maxRetries cmd fullPath filename w in
    exists b k,
      res o = Ok b
      /\ (k <= n)%nat
      /\ (1 <= n -> 1 <= k)%nat
      /\ transfers (emitted o) = k
      /\ (b = false -> k = n)
      /\ sleeps_of (emitted o)
         = map (fun i => (attempt + Z.of_nat i) * 1000) (seq 0 (k - 1))
      /\ failure_toasts (emitted o)
         = if b then [] else
             match n with O => [] | S _ => ["Failed to download " +:+ filename] end.
Proof.
  induction n as [|n IH]; intros attempt w Hn; cbv zeta.
  - exists false, 0%nat. repeat split; try done; lia.
  - rewrite retryFrom_step. cbv zeta.
    pose proof (attemptDownload_transfers cmd fullPath w) as T.
    pose proof (attemptDownload_sleeps cmd fullPath w) as Sl.
    pose proof (attemptDownload_returns_true cmd fullPath w) as R.
    assert (F : failure_toasts (emitted (attemptDownload cmd fullPath w)) = [])
      by (by destruct (attemptDownload_emitted cmd fullPath w) as [-> | ->]).
    destruct (attemptDownload cmd fullPath w) as [[b|e] w1 t1]; cbn [res post emitted] in *.
    + exists b, 1%nat. rewrite (R b eq_refl). repeat split; try done; lia.
    + destruct (attempt =? maxRetries) eqn:E.
      * apply Z.eqb_eq in E. assert (n = 0%nat) by lia. subst n.
        exists false, 1%nat. cbn [res emitted].
        rewrite transfers_app, sleeps_of_app, failure_toasts_app, T, Sl, F.
        repeat split; try done; lia.
      * apply Z.eqb_neq in E.
        destruct (IH (attempt + 1) (post (sleep (attempt * 1000) w1)) ltac:(lia))
          as (b & k & Hres & Hk & Hk1 & Ht & Hb & Hs & Hf).
        assert (Hn1 : (1 <= n)%nat) by lia. specialize (Hk1 Hn1).
        exists b, (S k). cbn [res emitted].
        rewrite Hres, transfers_app, transfers_cons, sleeps_of_app, failure_toasts_app.
        rewrite T, Sl, F, Ht. cbn [app is_exec].
        change (sleeps_of (ESleep ?ms :: ?l)) with (ms :: sleeps_of l).
        change (failure_toasts (ESleep ?ms :: ?l)) with (failure_toasts l).
        rewrite Hs, Hf.
        repeat split; try lia.
        -- intros ->. f_equal. by apply Hb.
        -- replace (S k - 1)%nat with (S (k - 1)) by lia. cbn [seq map].
           rewrite Z.add_0_r. f_equal. rewrite <- seq_shift, map_map.
           apply map_ext. intros i. f_equal. lia.
        -- destruct b; [done|]. destruct n; [lia|done].
Qed.

(** For every bound [maxRetries]: [downloadWithRetry] never throws; it
    runs the transfer at most [maxRetries] times, and exactly that often
    when it returns [false]; before the attempt number [k + 1] it waits
    [k * 1000]; with a bound that is not positive it returns [false]
    without a transfer and without a toast, and otherwise it shows the
    failure toast exactly when it returns [false]. *)
Theorem attempts_are_bounded cmd fullPath filename maxRetries w :
  let o := downloadWithRetry cmd fullPath filename maxRetries w in
  exists b k,
    res o = Ok b
    /\ (k <= Z.to_nat maxRetries)%nat
    /\ transfers (emitted o) = k
    /\ (b = false -> k = Z.to_nat maxRetries)
    /\ sleeps_of (emitted o) = map (fun i => Z.of_nat (S i) * 1000) (seq 0 (k - 1))
    /\ failure_toasts (emitted o)
       = if b then [] else
           if 0 <? maxRetries then ["Failed to download " +:+ filename] else [].
Proof.
  cbv zeta. unfold downloadWithRetry.
  destruct (Z.to_nat maxRetries) as [|n] eqn:En.
  - exists false, 0%nat. cbn [retryFrom].
    assert ((0 <? maxRetries) = false) as -> by (apply Z.ltb_ge; lia).
    by repeat split.
  - assert (Hn : 1 + Z.of_nat (S n) = maxRetries + 1) by lia.
    destruct (retryFrom_bounded cmd fullPath filename maxRetries (S n) 1 w Hn)
      as (b & k & Hres & Hk & _ & Ht & Hb & Hs & Hf).
    exists b, k. rewrite Hres, Ht, Hs, Hf.
    assert ((0 <? maxRetries) = true) as -> by (apply Z.ltb_lt; lia).
    repeat split; try done.
    apply map_ext. intros i. f_equal. lia.
Qed.
End Attempts.

(** ** What a computation never does *)

Section Emits.
Context `{Libraries}.
Variable allowed : Event -> bool.
Hypothesis ok_stats : forall p, allowed (EFs (GetStats p)) = true.
Hypothesis ok_read : forall p, allowed (EFs (ReadFile p)) = true.
Hypothesis ok_mkdir : forall p, allowed (EFs (CreateDirectory p)) = true.
Hypothesis ok_write : forall p d, allowed (EFs (WriteFile p d)) = true.
Hypothesis ok_binary : forall p d, allowed (EFs (WriteBinaryFile p d)) = true.
Hypothesis ok_exec : forall cmd, allowed (EExec cmd) = true.
Hypothesis ok_sleep : forall ms, allowed (ESleep ms) = true.
Hypothesis ok_toast : forall msg d, allowed (EToast ToastError msg d) = true.
Hypothesis ok_success : forall msg, allowed (EToast ToastSuccess msg None) = true.
Hypothesis ok_progress :
  forall p, allowed (EDispatch "instanceCreationProgress" (DProgress p)) = true.
Hypothesis ok_complete :
  forall n p, allowed (EDispatch "instanceCreationComplete" (DComplete n p)) = true.
Hypothesis ok_error :
  forall e, allowed (EDispatch "instanceCreationError" (DError e)) = true.

Lemma emits_ret {A} (x : A) : emits allowed (ret x).
Proof. by intros w. Qed.

Lemma emits_throw {A} e : emits allowed (@throw A e).
Proof. by intros w. Qed.

Lemma emits_lift {A} (r : Res A) : emits allowed (lift r).
Proof. by intros w. Qed.

Lemma emits_bind {A B} (m : M A) (k : A -> M B) :
  emits allowed m -> (forall x, emits allowed (k x)) -> emits allowed (bind m k).
Proof.
  intros Hm Hk w. specialize (Hm w). unfold bind.
  destruct (m w) as [[x|e] w1 t1]; cbn [emitted] in *; [|done].
  rewrite forallb_app, Hm. apply Hk.
Qed.

Lemma emits_try_catch {A} (m : M A) h :
  emits allowed m -> (forall e, emits allowed (h e)) -> emits allowed (try_catch m h).
Proof.
  intros Hm Hh w. specialize (Hm w). unfold try_catch.
  destruct (m w) as [[x|e] w1 t1]; cbn [emitted] in *; [done|].
  rewrite forallb_app, Hm. apply Hh.
Qed.

Lemma emits_when b m : emits allowed m -> emits allowed (when b m).
Proof. destruct b; [done|]. intros _. apply emits_ret. Qed.

Lemma emits_emit e : allowed e = true -> emits allowed (emit e).
Proof. intros He w. simpl. by rewrite He. Qed.

Lemma emits_getEnv n : emits allowed (os.getEnv n).
Proof. by intros w. Qed.

Lemma emits_NL_OS : emits allowed window_NL_OS.
Proof. by intros w. Qed.

Lemma emits_now : emits allowed now_iso.
Proof. by intros w. Qed.

Lemma emits_getBase64 : emits allowed getBase64FromImageUrl.
Proof. intros w. unfold getBase64FromImageUrl. by destruct (fetchIcon w). Qed.

Lemma emits_getArrayBuffer : emits allowed getArrayBufferFromImageUrl.
Proof.
  intros w. unfold getArrayBufferFromImageUrl.
  destruct (fetchIcon w) as [r|]; [by destruct (ok r)|done].
Qed.

Lemma emits_getStats p : emits allowed (filesystem.getStats p).
Proof.
  intros w. unfold filesystem.getStats.
  destruct (fs w !! p); simpl; by rewrite ok_stats.
Qed.

Lemma emits_pathExists p : emits allowed (pathExists p).
Proof. intros w. rewrite pathExists_run. simpl. by rewrite ok_stats. Qed.

Lemma emits_readFile p : emits allowed (filesystem.readFile p).
Proof.
  intros w. unfold filesystem.readFile.
  destruct (fs w !! p) as [[|]|]; simpl; by rewrite ok_read.
Qed.

Lemma emits_createDirectory p : emits allowed (filesystem.createDirectory p).
Proof.
  intros w. destruct (createDirectory_run p w) as (r & w' & ->).
  simpl. by rewrite ok_mkdir.
Qed.

Lemma emits_writeFile p d : emits allowed (filesystem.writeFile p d).
Proof.
  intros w. unfold filesystem.writeFile, filesystem.write.
  destruct (fs w !! p) as [[|]|]; try destruct (filesystem.parent_ready _ _);
    simpl; by rewrite ok_write.
Qed.

Lemma emits_writeBinaryFile p d : emits allowed (filesystem.writeBinaryFile p d).
Proof.
  intros w. unfold filesystem.writeBinaryFile, filesystem.write.
  destruct (fs w !! p) as [[|]|]; try destruct (filesystem.parent_ready _ _);
    simpl; by rewrite ok_binary.
Qed.

Lemma emits_execCommand cmd : emits allowed (os.execCommand cmd).
Proof. intros w. simpl. by rewrite ok_exec. Qed.

Lemma emits_sleep ms : emits allowed (sleep ms).
Proof. intros w. simpl. by rewrite ok_sleep. Qed.

Lemma emits_toast_error msg d : emits allowed (toast.error msg d).
Proof. apply emits_emit, ok_toast. Qed.

Lemma emits_toast_success msg : emits allowed (toast.success msg).
Proof. apply emits_emit, ok_success. Qed.

Ltac traced :=
  repeat first
    [ apply emits_ret | apply emits_throw | apply emits_lift | apply emits_getEnv
    | apply emits_NL_OS | apply emits_now | apply emits_getBase64
    | apply emits_getArrayBuffer | apply emits_getStats | apply emits_pathExists
    | apply emits_readFile | apply emits_createDirectory | apply emits_writeFile
    | apply emits_writeBinaryFile | apply emits_execCommand | apply emits_sleep
    | apply emits_toast_error | apply emits_toast_success
    | apply emits_emit; first [apply ok_progress | apply ok_complete | apply ok_error]
    | apply emits_when
    | apply emits_bind; [|intros ?]
    | apply emits_try_catch; [|intros ?]
    | match goal with
      | |- emits allowed (if ?c then _ else _) => destruct c
      | |- emits allowed (match ?t with minecraft => _ | prism => _ end) => destruct t
      | |- emits allowed (match ?t with fabric => _ | vanilla => _ end) => destruct t
      end ].

Lemma emits_retryFrom n attempt maxRetries cmd fullPath filename :
  emits allowed (retryFrom n attempt maxRetries cmd fullPath filename).
Proof.
  revert attempt. induction n as [|n IH]; intros attempt; cbn [retryFrom].
  - apply emits_ret.
  - unfold attemptDownload. traced; apply IH.
Qed.

Lemma emits_downloadFilesWith encode files targetPath c totalFiles :
  emits allowed (downloadFilesWith encode files targetPath c totalFiles).
Proof.
  unfold downloadFilesWith. apply emits_bind; [|intros ?; traced].
  generalize (@nil string) as failed. revert c.
  induction files as [|file rest IH]; intros c failed; cbn [downloadEach].
  - apply emits_ret.
  - destruct (startsWith _ _); [apply IH|].
    apply emits_bind; [|intros ?; apply IH].
    unfold downloadOne, events.dispatch, downloadWithRetry.
    traced; apply emits_retryFrom.
Qed.
Lemma emits_create_downloadCategories types d minecraftDir :
  forall c totalFiles,
    emits allowed (Create.downloadCategories types d minecraftDir c totalFiles).
Proof.
  induction types as [|[fileType category] rest IH]; intros c totalFiles;
    cbn [Create.downloadCategories].
  - apply emits_ret.
  - destruct (_ <? _)%nat; [|apply IH].
    unfold Create.downloadFiles.
    apply emits_bind; [apply emits_pathExists|intros ?].
    apply emits_bind; [apply emits_when, emits_createDirectory|intros ?].
    apply emits_bind; [apply emits_downloadFilesWith|intros ?; apply IH].
Qed.

Lemma emits_create_updateLauncherProfiles minecraftPath instanceName instancePath javaArgs :
  emits allowed
    (Create.updateLauncherProfiles minecraftPath instanceName instancePath javaArgs).
Proof. unfold Create.updateLauncherProfiles. traced. Qed.

Lemma emits_create_resolvePaths d t : emits allowed (Create.resolvePaths d t).
Proof.
  unfold Create.resolvePaths, Create.basePathOf, Create.minecraftPathOf,
    Create.prismPathOf, Create.unsupported. traced.
Qed.

Lemma emits_create_install d t p : emits allowed (Create.install d t p).
Proof.
  unfold Create.install, Create.prepare, Create.writeConfiguration,
    Create.downloadMinecraftFiles, events.dispatch.
  traced;
    first [apply emits_create_updateLauncherProfiles
          | apply emits_create_downloadCategories].
Qed.

Lemma emits_create_without_force d t :
  emits allowed (Create.createMinecraftInstance d t false).
Proof.
  unfold Create.createMinecraftInstance, events.dispatch.
  apply emits_try_catch; [|intros ?; traced].
  apply emits_bind; [apply emits_create_resolvePaths|intros p].
  apply emits_bind; [apply emits_pathExists|intros [|]].
  - apply emits_ret.
  - apply emits_create_install.
Qed.

Lemma emits_instance_downloadCategories types d minecraftDir :
  forall c totalFiles,
    emits allowed (Instance.downloadCategories types d minecraftDir c totalFiles).
Proof.
  induction types as [|[fileType category] rest IH]; intros c totalFiles;
    cbn [Instance.downloadCategories].
  - apply emits_ret.
  - destruct (_ <? _)%nat; [|apply IH].
    unfold Instance.downloadFiles.
    apply emits_bind; [apply emits_createDirectory|intros ?].
    apply emits_bind; [apply emits_downloadFilesWith|intros ?; apply IH].
Qed.

Lemma emits_instance_fabricLibraries d : emits allowed (Instance.fabricLibraries d).
Proof.
  unfold Instance.fabricLibraries, curlGet.
  traced.
  match goal with |- emits allowed (?f ?l) => induction l as [|lib rest IH] end.
  - apply emits_ret.
  - traced. apply IH.
Qed.

Lemma emits_instance_createVersionJson d : emits allowed (Instance.createVersionJson d).
Proof.
  unfold Instance.createVersionJson.
  apply emits_bind; [|intros ?; apply emits_ret].
  destruct (type (loader d)); [apply emits_instance_fabricLibraries|apply emits_ret].
Qed.

Lemma emits_instance_updateLauncherProfiles minecraftPath d instancePath :
  emits allowed (Instance.updateLauncherProfiles minecraftPath d instancePath).
Proof.
  unfold Instance.updateLauncherProfiles.
  pose proof (emits_instance_createVersionJson d) as Hv.
  generalize dependent (Instance.createVersionJson d). intros versionJson Hv.
  traced. exact Hv.
Qed.

Lemma emits_instance_resolvePaths d t : emits allowed (Instance.resolvePaths d t).
Proof.
  unfold Instance.resolvePaths, Instance.getBasePath, Instance.getMinecraftPath,
    Instance.getPrismLauncherPath, Instance.unsupported. traced.
Qed.

Lemma emits_instance_install d t p : emits allowed (Instance.install d t p).
Proof.
  unfold Instance.install, Instance.downloadInstanceFiles, events.dispatch.
  apply emits_bind; [apply emits_createDirectory|intros ?].
  apply emits_bind; [apply emits_createDirectory|intros ?].
  apply emits_bind.
  { destruct t; [apply emits_instance_updateLauncherProfiles|].
    unfold Instance.setupPrismLauncherInstance, Instance.getPrismLauncherPath,
      Instance.unsupported. traced. }
  intros ?. apply emits_bind; [apply emits_instance_downloadCategories|intros ?].
  traced.
Qed.

Lemma emits_instance_without_force d t :
  emits allowed (Instance.createMinecraftInstance d t false).
Proof.
  unfold Instance.createMinecraftInstance, events.dispatch.
  apply emits_try_catch; [|intros ?; traced].
  apply emits_bind; [apply emits_instance_resolvePaths|intros p].
  apply emits_bind; [apply emits_pathExists|intros [|]].
  - apply emits_ret.
  - apply emits_instance_install.
Qed.
End Emits.

(** Without [force] an installation never removes anything, whatever
    the manifest, the launcher and the world: no call of
    [filesystem.remove] is in its trace. *)
Theorem nothing_is_removed_without_force `{Libraries} d t w :
  forallb (fun e => negb (is_remove e))
    (emitted (Create.createMinecraftInstance d t false w)) = true
  /\ forallb (fun e => negb (is_remove e))
       (emitted (Instance.createMinecraftInstance d t false w)) = true.
Proof.
  split.
  - apply (emits_create_without_force (fun e => negb (is_remove e))); intros; reflexivity.
  - apply (emits_instance_without_force (fun e => negb (is_remove e))); intros; reflexivity.
Qed.

(** A batch download only checks and creates directories, runs transfers
    and checks the files they leave, waits, dispatches progress events and
    shows error toasts: it writes no file and removes nothing itself, and
    it dispatches neither the completion nor the error event. *)
Theorem batch_effects_are_confined `{Libraries} encode files targetPath c totalFiles w :
  forallb batch_event (emitted (downloadFilesWith encode files targetPath c totalFiles w))
  = true.
Proof.
  apply (emits_downloadFilesWith batch_event); intros; reflexivity.
Qed.

(** ** More on the profile store *)

Section Store.
Context `{Libraries}.

(** Without a [launcher_profiles.json] the store is created: it holds
    the profile of the instance under its slug and nothing else, empty
    settings and version 3.  The trace is the check of the path and the
    write. *)
Theorem missing_store_is_created minecraftPath instanceName instancePath javaArgs w r :
  let profilesPath := join [minecraftPath; "launcher_profiles.json"] in
  let entry := Create.profile (pretty (clock w)) (dataUrl r) instanceName
                 (pretty (clock w)) instancePath javaArgs in
  let store := Stringified (newStore (profileId instanceName) entry) in
  fs w !! profilesPath = None ->
  fetchIcon w = Some r ->
  filesystem.parent_ready (fs w) profilesPath = true ->
  Create.updateLauncherProfiles minecraftPath instanceName instancePath javaArgs w
  = Out (Ok tt) (filesystem.set_fs w (<[profilesPath := NFile store]> (fs w)))
        [EFs (GetStats profilesPath); EFs (WriteFile profilesPath store)].
Proof.
  intros profilesPath entry store Hfs Hicon Hparent.
  unfold Create.updateLauncherProfiles. fold profilesPath.
  apply try_catch_ok.
  rewrite (bind_ok _ _ _ _ _ _ (pathExists_missing _ _ Hfs)).
  unfold bind, ret, lift, now_iso, getBase64FromImageUrl,
    filesystem.writeFile, filesystem.write.
  cbn [res post emitted emptyProfiles get_member].
  rewrite lookup_insert_eq, Hicon. cbn [res post emitted set_member with_profiles].
  rewrite Hfs, Hparent. cbn [res post emitted app].
  unfold store, newStore, with_profiles, emptyProfiles. by rewrite insert_insert_eq.
Qed.

(** A store the parser rejects is left as it is, whatever its text: the
    update shows the failure toast and throws the error of the parser
    again, and the world is unchanged, in create.ts and in instance.ts
    alike. *)
Theorem unreadable_store_is_left_alone minecraftPath d instancePath javaArgs w content e :
  let profilesPath := join [minecraftPath; "launcher_profiles.json"] in
  let failure :=
    Out (Thrown e) w
        [EFs (GetStats profilesPath); EFs (ReadFile profilesPath);
         EToast ToastError "Failed to update Minecraft launcher profiles" None] in
  fs w !! profilesPath = Some (NFile content) ->
  JSON_parse content = Thrown e ->
  Create.updateLauncherProfiles minecraftPath (name d) instancePath javaArgs w = failure
  /\ Instance.updateLauncherProfiles minecraftPath d instancePath w = failure.
Proof.
  intros profilesPath failure Hfs Hparse. subst failure.
  assert (E1 : bind (filesystem.readFile profilesPath)
                 (fun content => lift (JSON_parse content)) w
               = Out (Thrown e) w [EFs (ReadFile profilesPath)]).
  { unfold bind, filesystem.readFile. rewrite Hfs. cbn [res post emitted].
    unfold lift. rewrite Hparse. reflexivity. }
  split.
  - unfold Create.updateLauncherProfiles. fold profilesPath.
    match goal with
    | |- try_catch ?body ?h w = _ =>
        assert (E : body w = Out (Thrown e) w
                               [EFs (GetStats profilesPath); EFs (ReadFile profilesPath)])
    end.
    { rewrite (bind_ok _ _ _ _ _ _ (pathExists_found _ _ _ Hfs)).
      by rewrite (bind_thrown _ _ _ _ _ _ E1). }
    by rewrite (try_catch_thrown _ _ _ _ _ _ E).
  - unfold Instance.updateLauncherProfiles. fold profilesPath.
    match goal with
    | |- try_catch ?body ?h w = _ =>
        assert (E : body w = Out (Thrown e) w
                               [EFs (GetStats profilesPath); EFs (ReadFile profilesPath)])
    end.
    { rewrite (bind_ok _ _ _ _ _ _ (pathExists_found _ _ _ Hfs)).
      by rewrite (bind_thrown _ _ _ _ _ _ E1). }
    by rewrite (try_catch_thrown _ _ _ _ _ _ E).
Qed.

(** In instance.ts the version metadata is written by the first
    installation only: when the version folder of the instance exists, the
    update of the profile is all that happens: no directory is created, no
    version file is written and the loader metadata is not fetched. *)
Theorem version_metadata_is_written_once minecraftPath d instancePath w m P r :
  let profilesPath := join [minecraftPath; "launcher_profiles.json"] in
  let versionFolderPath := join [minecraftPath; "versions"; name d] in
  let entry := Instance.profile (pretty (clock w)) (dataUrl r) (name d)
                 (pretty (clock w)) (join [instancePath; ".minecraft"]) in
  let store :=
    Stringified (JObj (<["profiles" := JObj (<[profileId (name d) := entry]> P)]> m)) in
  fs w !! profilesPath = Some (NFile (Stringified (JObj m))) ->
  m !! "profiles" = Some (JObj P) ->
  fetchIcon w = Some r ->
  filesystem.parent_ready (fs w) profilesPath = true ->
  is_Some (fs w !! versionFolderPath) ->
  Instance.updateLauncherProfiles minecraftPath d instancePath w
  = Out (Ok tt) (filesystem.set_fs w (<[profilesPath := NFile store]> (fs w)))
        [EFs (GetStats profilesPath); EFs (ReadFile profilesPath);
         EFs (WriteFile profilesPath store); EFs (GetStats versionFolderPath)].
Proof.
  intros profilesPath versionFolderPath entry store Hfs Hm Hicon Hparent Hversion.
  unfold Instance.updateLauncherProfiles. fold profilesPath versionFolderPath.
  apply try_catch_ok.
  assert (Hfound : is_Some (<[profilesPath := NFile store]> (fs w) !! versionFolderPath)).
  { destruct (decide (profilesPath = versionFolderPath)) as [<-|Hne].
    - rewrite lookup_insert_eq. by eexists.
    - by rewrite lookup_insert_ne. }
  destruct Hfound as [n Hfound].
  assert (E2 : bind (filesystem.readFile profilesPath)
                 (fun content => lift (JSON_parse content)) w
               = Out (Ok (JObj m)) w [EFs (ReadFile profilesPath)])
    by (unfold bind, filesystem.readFile; rewrite Hfs; reflexivity).
  assert (E3 : lift (get_member (JObj m) "profiles") w = Out (Ok (Some (JObj P))) w [])
    by (cbn [get_member]; by rewrite Hm).
  assert (E4 : now_iso w = Out (Ok (pretty (clock w))) w []) by reflexivity.
  assert (E5 : getBase64FromImageUrl w = Out (Ok (dataUrl r)) w [])
    by (unfold getBase64FromImageUrl; by rewrite Hicon).
  assert (E7 : filesystem.writeFile profilesPath store w
               = Out (Ok tt) (filesystem.set_fs w (<[profilesPath := NFile store]> (fs w)))
                     [EFs (WriteFile profilesPath store)])
    by (unfold filesystem.writeFile, filesystem.write; by rewrite Hfs, Hparent).
  rewrite (bind_ok _ _ _ _ _ _ (pathExists_found _ _ _ Hfs)). cbv beta iota.
  rewrite (bind_ok _ _ _ _ _ _ E2). cbv beta iota.
  rewrite (bind_ok _ _ _ _ _ _ E3). cbv beta iota.
  rewrite (bind_ok _ _ _ _ _ _ E4). cbv beta iota.
  rewrite (bind_ok _ _ _ _ _ _ E5). cbv beta iota.
  rewrite (bind_ok _ _ _ _ _ _ E4). cbv beta iota.
  rewrite (bind_ok _ _ w (JObj (<[profileId (name d) := entry]> P)) w [] eq_refl).
  cbv beta iota. cbn [with_profiles]. fold store.
  rewrite (bind_ok _ _ _ _ _ _ E7). cbv beta iota.
  rewrite (bind_ok _ _ _ _ _ _
             (pathExists_found versionFolderPath
                (filesystem.set_fs w (<[profilesPath := NFile store]> (fs w))) n Hfound)).
  reflexivity.
Qed.
End Store.

Lemma missing_store_is_created_witness :
  let w := Example.linux Example.unreachable Example.freshHome in
  let entry := Create.profile (pretty (clock w)) (dataUrl Example.icon) "Pack"
                 (pretty (clock w)) "/home/u/.minecraft/instances/Pack" None in
  let store := Stringified (newStore (profileId "Pack") entry) in
  (fs w !! @join posix ["/home/u/.minecraft"; "launcher_profiles.json"] = None
   /\ fetchIcon w = Some Example.icon
   /\ filesystem.parent_ready (fs w)
        (@join posix ["/home/u/.minecraft"; "launcher_profiles.json"]) = true)
  /\ @Create.updateLauncherProfiles posix "/home/u/.minecraft" "Pack"
       "/home/u/.minecraft/instances/Pack" None w
     = Out (Ok tt)
           (filesystem.set_fs w
              (<[@join posix ["/home/u/.minecraft"; "launcher_profiles.json"]
                 := NFile store]> (fs w)))
           [EFs (GetStats (@join posix ["/home/u/.minecraft"; "launcher_profiles.json"]));
            EFs (WriteFile (@join posix ["/home/u/.minecraft"; "launcher_profiles.json"])
                   store)].
Proof.
  cbv zeta.
  assert (H1 : fs (Example.linux Example.unreachable Example.freshHome)
                 !! @join posix ["/home/u/.minecraft"; "launcher_profiles.json"] = None)
    by (vm_compute; reflexivity).
  assert (H2 : fetchIcon (Example.linux Example.unreachable Example.freshHome)
               = Some Example.icon) by reflexivity.
  assert (H3 : filesystem.parent_ready
                 (fs (Example.linux Example.unreachable Example.freshHome))
                 (@join posix ["/home/u/.minecraft"; "launcher_profiles.json"]) = true)
    by (vm_compute; reflexivity).
  split; [split; [exact H1|split; [exact H2|exact H3]]|].
  exact (@missing_store_is_created posix "/home/u/.minecraft" "Pack"
           "/home/u/.minecraft/instances/Pack" None
           (Example.linux Example.unreachable Example.freshHome) Example.icon H1 H2 H3).
Defined.

Lemma unreadable_store_is_left_alone_witness :
  let w := Example.linux Example.unreachable Example.brokenHome in
  let profilesPath := @join posix ["/home/u/.minecraft"; "launcher_profiles.json"] in
  let failure :=
    Out (Thrown SyntaxError) w
        [EFs (GetStats profilesPath); EFs (ReadFile profilesPath);
         EToast ToastError "Failed to update Minecraft launcher profiles" None] in
  (fs w !! profilesPath = Some (NFile (Raw "{"))
   /\ @JSON_parse posix (Raw "{") = Thrown SyntaxError)
  /\ @Create.updateLauncherProfiles posix "/home/u/.minecraft" (name Example.indexLast)
       "/home/u/.minecraft/instances/Pack" None w = failure
  /\ @Instance.updateLauncherProfiles posix "/home/u/.minecraft" Example.indexLast
       "/home/u/.minecraft/instances/Pack" w = failure.
Proof.
  cbv zeta.
  assert (H1 : fs (Example.linux Example.unreachable Example.brokenHome)
                 !! @join posix ["/home/u/.minecraft"; "launcher_profiles.json"]
               = Some (NFile (Raw "{"))) by (vm_compute; reflexivity).
  assert (H2 : @JSON_parse posix (Raw "{") = Thrown SyntaxError)
    by (vm_compute; reflexivity).
  split; [by split|].
  exact (@unreadable_store_is_left_alone posix "/home/u/.minecraft" Example.indexLast
           "/home/u/.minecraft/instances/Pack" None
           (Example.linux Example.unreachable Example.brokenHome) (Raw "{") SyntaxError
           H1 H2).
Defined.

Lemma version_metadata_is_written_once_witness :
  let w := Example.linux Example.unreachable Example.homeWithVersion in
  let profilesPath := @join posix ["/home/u/.minecraft"; "launcher_profiles.json"] in
  let versionFolderPath := @join posix ["/home/u/.minecraft"; "versions"; "Pack"] in
  let entry := Instance.profile (pretty (clock w)) (dataUrl Example.icon) "Pack"
                 (pretty (clock w))
                 (@join posix ["/home/u/.minecraft/instances/Pack"; ".minecraft"]) in
  let store :=
    Stringified
      (JObj (<["profiles" := JObj (<[profileId "Pack" := entry]> Example.storeProfiles)]>
             Example.storeFields)) in
  (fs w !! profilesPath = Some (NFile (Stringified (JObj Example.storeFields)))
   /\ Example.storeFields !! "profiles" = Some (JObj Example.storeProfiles)
   /\ fetchIcon w = Some Example.icon
   /\ filesystem.parent_ready (fs w) profilesPath = true
   /\ is_Some (fs w !! versionFolderPath))
  /\ @Instance.updateLauncherProfiles posix "/home/u/.minecraft" Example.indexLast
       "/home/u/.minecraft/instances/Pack" w
     = Out (Ok tt) (filesystem.set_fs w (<[profilesPath := NFile store]> (fs w)))
           [EFs (GetStats profilesPath); EFs (ReadFile profilesPath);
            EFs (WriteFile profilesPath store); EFs (GetStats versionFolderPath)].
Proof.
  cbv zeta.
  assert (H1 : fs (Example.linux Example.unreachable Example.homeWithVersion)
                 !! @join posix ["/home/u/.minecraft"; "launcher_profiles.json"]
               = Some (NFile (Stringified (JObj Example.storeFields))))
    by (vm_compute; reflexivity).
  assert (H2 : Example.storeFields !! "profiles" = Some (JObj Example.storeProfiles))
    by (vm_compute; reflexivity).
  assert (H3 : fetchIcon (Example.linux Example.unreachable Example.homeWithVersion)
               = Some Example.icon) by reflexivity.
  assert (H4 : filesystem.parent_ready
                 (fs (Example.linux Example.unreachable Example.homeWithVersion))
                 (@join posix ["/home/u/.minecraft"; "launcher_profiles.json"]) = true)
    by (vm_compute; reflexivity).
  assert (H5 : is_Some (fs (Example.linux Example.unreachable Example.homeWithVersion)
                          !! @join posix ["/home/u/.minecraft"; "versions";
                                          name Example.indexLast]))
    by (exists NDir; vm_compute; reflexivity).
  split; [split; [exact H1|split; [exact H2|split; [exact H3|split; [exact H4|exact H5]]]]|].
  exact (@version_metadata_is_written_once posix "/home/u/.minecraft" Example.indexLast
           "/home/u/.minecraft/instances/Pack"
           (Example.linux Example.unreachable Example.homeWithVersion)
           Example.storeFields Example.storeProfiles Example.icon H1 H2 H3 H4 H5).
Defined.

Section Forced.
Context `{Libraries}.

Lemma try_catch_prefix {A} (m : M A) h w :
  exists rest, emitted (try_catch m h w) = emitted (m w) ++ rest.
Proof.
  unfold try_catch. destruct (m w) as [[a|e] w1 t1]; cbn [emitted].
  - exists []. by rewrite app_nil_r.
  - by eexists.
Qed.

Lemma bind_prefix {A B} (m : M A) (k : A -> M B) w :
  exists rest, emitted (bind m k w) = emitted (m w) ++ rest.
Proof.
  unfold bind. destruct (m w) as [[a|e] w1 t1]; cbn [emitted].
  - by eexists.
  - exists []. by rewrite app_nil_r.
Qed.

Lemma createDirectory_emitted p w :
  emitted (filesystem.createDirectory p w) = [EFs (CreateDirectory p)].
Proof.
  unfold filesystem.createDirectory. destruct (fs w !! p); [done|].
  by destruct (existsb _ _).
Qed.

Lemma remove_found p w n :
  fs w !! p = Some n ->
  exists w', filesystem.remove p w = Out (Ok tt) w' [EFs (Remove p)]
             /\ fs w' !! p = None.
Proof.
  intros E. unfold filesystem.remove. rewrite E. eexists. split; [done|].
  cbn [fs filesystem.set_fs]. apply map_lookup_filter_None. right.
  intros x _ [Hne _]. by apply Hne.
Qed.

(** A forced installation over an instance that exists starts by removing
    the whole instance directory: after the check that found it, the
    removal is the first effect, and the directory is created anew right
    after (create.ts checks the path once more before; instance.ts does
    not). *)
Theorem forced_reinstall_removes_the_instance_first
        (instanceData : InstanceData) (installationType : InstallationType) (w : World) :
  (forall p,
      res (Create.resolvePaths instanceData installationType w) = Ok p ->
      is_Some (fs w !! Create.instancePath p) ->
      exists rest,
        emitted (Create.createMinecraftInstance instanceData installationType true w)
        = EFs (GetStats (Create.instancePath p)) :: EFs (Remove (Create.instancePath p))
          :: EFs (GetStats (Create.instancePath p))
          :: EFs (CreateDirectory (Create.instancePath p)) :: rest)
  /\ (forall p,
         res (Instance.resolvePaths instanceData installationType w) = Ok p ->
         is_Some (fs w !! Instance.instancePath p) ->
         exists rest,
           emitted (Instance.createMinecraftInstance instanceData installationType true w)
           = EFs (GetStats (Instance.instancePath p))
             :: EFs (Remove (Instance.instancePath p))
             :: EFs (CreateDirectory (Instance.instancePath p)) :: rest).
Proof.
  split; intros p Hp [n Hn].
  - destruct (create_resolvePaths_pure instanceData installationType w) as [r Hr].
    rewrite Hr in Hp. simpl in Hp. subst r.
    destruct (remove_found _ _ _ Hn) as (w' & Hrm & Hgone).
    unfold Create.createMinecraftInstance.
    match goal with
    | |- exists rest, emitted (try_catch ?body ?h w) = _ =>
        destruct (try_catch_prefix body h w) as [t1 ->]
    end.
    rewrite (bind_ok _ _ _ _ _ _ Hr).
    rewrite (bind_ok _ _ _ _ _ _ (pathExists_found _ _ _ Hn)).
    cbv beta iota.
    rewrite (bind_ok _ _ _ _ _ _ Hrm). cbv beta iota.
    unfold Create.install, Create.prepare.
    match goal with
    | |- context [emitted (bind (bind ?m ?k) ?k' w')] =>
        destruct (bind_prefix (bind m k) k' w') as [t2 ->]
    end.
    rewrite (bind_ok _ _ _ _ _ _ (pathExists_missing _ _ Hgone)). cbv beta iota.
    cbn [negb when].
    match goal with
    | |- context [emitted (bind (filesystem.createDirectory ?q) ?k w')] =>
        destruct (bind_prefix (filesystem.createDirectory q) k w') as [t3 ->]
    end.
    rewrite createDirectory_emitted. cbn [emitted app].
    eexists. reflexivity.
  - destruct (instance_resolvePaths_pure instanceData installationType w) as [r Hr].
    rewrite Hr in Hp. simpl in Hp. subst r.
    destruct (remove_found _ _ _ Hn) as (w' & Hrm & Hgone).
    unfold Instance.createMinecraftInstance.
    match goal with
    | |- exists rest, emitted (try_catch ?body ?h w) = _ =>
        destruct (try_catch_prefix body h w) as [t1 ->]
    end.
    rewrite (bind_ok _ _ _ _ _ _ Hr).
    rewrite (bind_ok _ _ _ _ _ _ (pathExists_found _ _ _ Hn)).
    cbv beta iota.
    rewrite (bind_ok _ _ _ _ _ _ Hrm). cbv beta iota.
    unfold Instance.install.
    match goal with
    | |- context [emitted (bind (filesystem.createDirectory ?q) ?k w')] =>
        destruct (bind_prefix (filesystem.createDirectory q) k w') as [t3 ->]
    end.
    rewrite createDirectory_emitted. cbn [emitted app].
    eexists. reflexivity.
Qed.

(** The path the play button of an instance card probes
    ([getPrismLauncherInstancePath]) is the path a Prism installation of
    instance.ts writes to, on every system; it is the path of a Prism
    installation of create.ts too wherever the system is not Windows. *)
Theorem play_button_checks_the_installed_path (instanceData : InstanceData) (w : World) :
  res (Instance.getPrismLauncherInstancePath instanceData w)
  = match res (Instance.resolvePaths instanceData prism w) with
    | Ok p => Ok (Instance.instancePath p)
    | Thrown e => Thrown e
    end
  /\ (NL_OS w <> "Windows" ->
      res (Instance.getPrismLauncherInstancePath instanceData w)
      = match res (Create.resolvePaths instanceData prism w) with
        | Ok p => Ok (Create.instancePath p)
        | Thrown e => Thrown e
        end).
Proof.
  destruct (decide (NL_OS w = "Windows")) as [Ewin|Ewin];
    [|destruct (decide (NL_OS w = "Darwin")) as [Edar|Edar];
      [|destruct (decide (NL_OS w = "Linux")) as [Elin|Elin]]].
  - split; [|done].
    destruct w as [system ? ? ? ? ? ?]. cbn [NL_OS] in Ewin. subst system. reflexivity.
  - destruct w as [system ? ? ? ? ? ?]. cbn [NL_OS] in Edar. subst system.
    split; [reflexivity|]. intros _. reflexivity.
  - destruct w as [system ? ? ? ? ? ?]. cbn [NL_OS] in Elin. subst system.
    split; [reflexivity|]. intros _. reflexivity.
  - rewrite (create_resolvePaths_unsupported _ _ _ Ewin Edar Elin).
    rewrite (instance_resolvePaths_unsupported _ _ _ Ewin Edar Elin).
    cbn [res].
    assert (E : res (Instance.getPrismLauncherInstancePath instanceData w)
                = Thrown (Error "Unsupported operating system")).
    { unfold Instance.getPrismLauncherInstancePath, Instance.getBasePath,
        Instance.unsupported.
      rewrite !bind_getEnv_assoc, !bind_NL_OS_assoc.
      apply String.eqb_neq in Ewin, Edar, Elin. rewrite Ewin, Edar, Elin. reflexivity. }
    by rewrite E.
Qed.
End Forced.

Lemma forced_reinstall_removes_the_instance_first_witness :
  (res (@Create.resolvePaths posix Example.modAndConfig minecraft
          (Example.linux Example.unreachable Example.homeWithPack))
   = Ok Example.packPaths
   /\ is_Some (fs (Example.linux Example.unreachable Example.homeWithPack)
                 !! Create.instancePath Example.packPaths))
  /\ exists rest,
      emitted (Example.create Example.modAndConfig minecraft true
                 (Example.linux Example.unreachable Example.homeWithPack))
      = EFs (GetStats "/home/u/.minecraft/instances/Pack")
        :: EFs (Remove "/home/u/.minecraft/instances/Pack")
        :: EFs (GetStats "/home/u/.minecraft/instances/Pack")
        :: EFs (CreateDirectory "/home/u/.minecraft/instances/Pack") :: rest.
Proof.
  assert (H1 : res (@Create.resolvePaths posix Example.modAndConfig minecraft
                      (Example.linux Example.unreachable Example.homeWithPack))
               = Ok Example.packPaths) by (vm_compute; reflexivity).
  assert (H2 : is_Some (fs (Example.linux Example.unreachable Example.homeWithPack)
                          !! Create.instancePath Example.packPaths))
    by (exists NDir; vm_compute; reflexivity).
  split; [by split|].
  exact (proj1 (@forced_reinstall_removes_the_instance_first posix Example.modAndConfig
                  minecraft (Example.linux Example.unreachable Example.homeWithPack))
               Example.packPaths H1 H2).
Defined.

(** ** The instance card *)

Section CardName.
Context `{Libraries}.

Lemma split_lines_field a b :
  no_line_feed a = true ->
  Card.split_lines (a +:+ String "010" b) = a :: Card.split_lines b.
Proof.
  induction a as [|c a IH]; intros Ha.
  - reflexivity.
  - cbn [no_line_feed] in Ha. apply andb_true_iff in Ha as [Hc Ha].
    apply negb_true_iff in Hc.
    change (String c a +:+ String "010" b) with (String c (a +:+ String "010" b)).
    cbn [Card.split_lines]. rewrite Hc, (IH Ha). reflexivity.
Qed.

Lemma split_lines_char c s :
  Ascii.eqb c "010" = false ->
  Card.split_lines (String c s)
  = match Card.split_lines s with
    | line :: lines => String c line :: lines
    | [] => [String c EmptyString]
    end.
Proof. intros Hc. cbn [Card.split_lines]. by rewrite Hc. Qed.

Lemma trimEnd_char c s :
  Card.is_space c = false -> Card.trimEnd (String c s) = String c (Card.trimEnd s).
Proof. intros Hc. cbn [Card.trimEnd]. rewrite Hc. by destruct (Card.trimEnd s). Qed.

Lemma no_line_feed_app a b :
  no_line_feed (a +:+ b) = no_line_feed a && no_line_feed b.
Proof.
  induction a as [|c a IH]; [done|].
  change (String c a +:+ b) with (String c (a +:+ b)).
  cbn [no_line_feed]. by rewrite IH, andb_assoc.
Qed.

Lemma prefix_app a b : String.prefix a (a +:+ b) = true.
Proof.
  induction a as [|c a IH]; [by destruct b|].
  change (String c a +:+ b) with (String c (a +:+ b)).
  cbn [String.prefix]. by destruct (ascii_dec c c).
Qed.

Lemma config_name_line d :
  no_line_feed (name d) = true ->
  no_line_feed (minimum_version (java d)) = true ->
  no_line_feed (recommended_memory (java d)) = true ->
  find (fun line => startsWith line "name=")
       (Card.split_lines
          (render (generatePrismConfig (instanceConfig d))))
  = Some ("name=" +:+ name d).
Proof.
  intros Hn Hv Hm.
  unfold generatePrismConfig, instanceConfig.
  cbn [map configLine is_object template joinLines render fst snd String.app].
  repeat match goal with
         | |- context [String (ascii_of_nat 10) "" +:+ ?x] =>
             change (String (ascii_of_nat 10) "" +:+ x) with (String "010" x)
         end.
  rewrite !split_lines_field
    by (rewrite ?no_line_feed_app, ?Hn, ?Hv, ?Hm; reflexivity).
  match goal with
  | |- context [Card.split_lines ?x] => generalize (Card.split_lines x)
  end.
  intros rest. unfold startsWith. cbn [find].
  change (("name" +:+ "=") +:+ name d) with ("name=" +:+ name d).
  by rewrite (prefix_app "name=" (name d)).
Qed.

Lemma slice_trim_name s : Card.slice 5 (Card.trim ("name=" +:+ s)) = Card.trimEnd s.
Proof.
  unfold Card.trim.
  assert (E : Card.trimStart ("name=" +:+ s) = "name=" +:+ s) by reflexivity.
  rewrite E.
  change ("name=" +:+ s)
    with (String "n" (String "a" (String "m" (String "e" (String "=" s))))).
  rewrite !trimEnd_char by reflexivity. reflexivity.
Qed.

Lemma bind_ret {A B} (x : A) (k : A -> M B) w : bind (ret x) k w = k x w.
Proof. unfold bind, ret. cbn [app]. apply outcome_eta. Qed.

Lemma getPrismLauncherInstancePath_pure d :
  pure (Instance.getPrismLauncherInstancePath d).
Proof.
  unfold Instance.getPrismLauncherInstancePath, Instance.getBasePath,
    Instance.getPrismLauncherPath, Instance.unsupported.
  repeat first
    [ apply pure_ret | apply pure_throw | apply pure_getEnv | apply pure_NL_OS
    | apply pure_bind; [|intros ?]
    | match goal with
      | |- pure (if ?c then _ else _) => destruct c
      end ].
Qed.

Lemma getPrismLauncherInstancePath_ambient d w w' :
  NL_OS w' = NL_OS w -> env w' = env w ->
  res (Instance.getPrismLauncherInstancePath d w')
  = res (Instance.getPrismLauncherInstancePath d w).
Proof.
  intros Hos Henv.
  unfold Instance.getPrismLauncherInstancePath, Instance.getBasePath,
    Instance.getPrismLauncherPath, Instance.unsupported.
  rewrite !bind_getEnv_assoc, !bind_NL_OS_assoc, Hos, Henv.
  destruct (String.eqb (NL_OS w) "Windows") eqn:E1;
    [|destruct (String.eqb (NL_OS w) "Darwin") eqn:E2;
      [|destruct (String.eqb (NL_OS w) "Linux") eqn:E3]];
    rewrite ?bind_getEnv, ?bind_ret, ?Henv; cbv beta;
    rewrite ?bind_NL_OS_assoc, ?Hos, ?E1, ?E2, ?E3; cbn [orb];
    rewrite ?bind_ret; reflexivity.
Qed.

Lemma checkCanPlay_reads_name d current w ip :
  res (Instance.getPrismLauncherInstancePath d w) = Ok ip ->
  is_Some (fs w !! ip) ->
  fs w !! join [ip; "instance.cfg"]
  = Some (NFile (generatePrismConfig (instanceConfig d))) ->
  no_line_feed (name d) = true ->
  no_line_feed (minimum_version (java d)) = true ->
  no_line_feed (recommended_memory (java d)) = true ->
  Card.checkCanPlay d current w
  = Out (Ok (Some (Card.trimEnd (name d)))) w
        [EFs (GetStats ip); EFs (ReadFile (join [ip; "instance.cfg"]))].
Proof.
  intros Hip [n Hn] Hcfg Hname Hversion Hmemory.
  destruct (getPrismLauncherInstancePath_pure d w) as [r Hr].
  rewrite Hr in Hip. cbn [res] in Hip. subst r.
  unfold Card.checkCanPlay. apply try_catch_ok.
  rewrite (bind_ok _ _ _ _ _ _ Hr).
  rewrite (bind_ok _ _ _ _ _ _ (pathExists_found _ _ _ Hn)).
  cbv beta iota. cbn [negb].
  assert (E : filesystem.readFile (join [ip; "instance.cfg"]) w
              = Out (Ok (generatePrismConfig (instanceConfig d))) w
                    [EFs (ReadFile (join [ip; "instance.cfg"]))])
    by (unfold filesystem.readFile; by rewrite Hcfg).
  rewrite (bind_ok _ _ _ _ _ _ E). cbv beta iota.
  rewrite (config_name_line d Hname Hversion Hmemory).
  change (String.eqb ("name=" +:+ name d) "") with false. cbv iota.
  rewrite slice_trim_name. reflexivity.
Qed.

Lemma write_post op p d w :
  res (filesystem.write op p d w) = Ok tt ->
  post (filesystem.write op p d w) = filesystem.set_fs w (<[p := NFile d]> (fs w)).
Proof.
  unfold filesystem.write.
  destruct (fs w !! p) as [[|?]|]; try done;
    by destruct (filesystem.parent_ready (fs w) p).
Qed.

Lemma insert_keeps_some (m : gmap string Node) p q n :
  is_Some (m !! q) -> is_Some (<[p := n]> m !! q).
Proof.
  intros Hq. apply lookup_insert_is_Some.
  destruct (decide (p = q)); [by left|by right].
Qed.

(** What the files of a Prism instance leave behind when they are
    written without an error. *)
Lemma prism_files_post ip iconPath d w :
  let cfg := join [ip; "instance.cfg"] in
  let files :=
    bind (filesystem.writeFile cfg (generatePrismConfig (instanceConfig d)))
      (fun _ =>
         bind (filesystem.writeFile (join [ip; "mmc-pack.json"])
                 (Stringified (mmcPackJson d)))
           (fun _ =>
              bind (pathExists iconPath)
                (fun found : bool =>
                   if found then ret tt
                   else bind getArrayBufferFromImageUrl
                          (fun icon => filesystem.writeBinaryFile iconPath icon)))) in
  is_Some (fs w !! ip) ->
  cfg <> join [ip; "mmc-pack.json"] ->
  cfg <> iconPath ->
  res (files w) = Ok tt ->
  NL_OS (post (files w)) = NL_OS w
  /\ env (post (files w)) = env w
  /\ fs (post (files w)) !! cfg = Some (NFile (generatePrismConfig (instanceConfig d)))
  /\ is_Some (fs (post (files w)) !! ip).
Proof.
  intros cfg files Hip Hmmc Hicon Hret. subst files.
  apply bind_returns in Hret as ([] & H1 & Hret & -> & _).
  apply write_post in H1. unfold filesystem.writeFile in *. rewrite H1 in *. clear H1.
  apply bind_returns in Hret as ([] & H2 & Hret & -> & _).
  apply write_post in H2. rewrite H2 in *. clear H2.
  apply bind_returns in Hret as (found & _ & Hret & -> & _).
  rewrite pathExists_run in *. cbn [post] in *.
  destruct found.
  - cbn [ret post filesystem.set_fs NL_OS env fs].
    split; [done|]. split; [done|]. split.
    + rewrite lookup_insert_ne by (intros E; by apply Hmmc). by rewrite lookup_insert_eq.
    + by do 2 apply insert_keeps_some.
  - apply bind_returns in Hret as (icon & _ & Hret & -> & _).
    assert (Eicon : forall w0, post (getArrayBufferFromImageUrl w0) = w0).
    { intros w0. unfold getArrayBufferFromImageUrl.
      destruct (fetchIcon w0) as [r|]; [by destruct (ok r)|done]. }
    rewrite Eicon in *.
    unfold filesystem.writeBinaryFile in *. apply write_post in Hret. rewrite Hret.
    cbn [filesystem.set_fs NL_OS env fs].
    split; [done|]. split; [done|]. split.
    + rewrite lookup_insert_ne by (intros E; by apply Hicon).
      rewrite lookup_insert_ne by (intros E; by apply Hmmc). by rewrite lookup_insert_eq.
    + by do 3 apply insert_keeps_some.
Qed.

(** The card never fails and changes nothing: a path that cannot be
    computed is no effect at all, a missing instance directory is one
    check, and otherwise the configuration is read once; whatever goes
    wrong leaves the name as it was. *)
Theorem card_check_only_reads d current w :
  match res (Instance.getPrismLauncherInstancePath d w) with
  | Thrown _ => Card.checkCanPlay d current w = Out (Ok current) w []
  | Ok ip =>
      match fs w !! ip with
      | None =>
          Card.checkCanPlay d current w
          = Out (Ok current) w [EFs (GetStats ip)]
      | Some _ =>
          exists v,
            Card.checkCanPlay d current w
            = Out (Ok v) w [EFs (GetStats ip); EFs (ReadFile (join [ip; "instance.cfg"]))]
            /\ match fs w !! join [ip; "instance.cfg"] with
               | Some (NFile _) => True
               | _ => v = current
               end
      end
  end.
Proof.
  destruct (getPrismLauncherInstancePath_pure d w) as [r Hr].
  rewrite Hr. cbn [res]. unfold Card.checkCanPlay. destruct r as [ip|e].
  - destruct (fs w !! ip) as [n|] eqn:Hip.
    + destruct (fs w !! join [ip; "instance.cfg"]) as [[|content]|] eqn:Hcfg.
      * exists current. split; [|done].
        assert (E : filesystem.readFile (join [ip; "instance.cfg"]) w
                    = Out (Thrown (NeuError "NE_FS_FILRDER" (join [ip; "instance.cfg"]))) w
                          [EFs (ReadFile (join [ip; "instance.cfg"]))])
          by (unfold filesystem.readFile; by rewrite Hcfg).
        match goal with
        | |- try_catch ?body ?h w = _ =>
            assert (Hbody : body w
                            = Out (Thrown (NeuError "NE_FS_FILRDER"
                                             (join [ip; "instance.cfg"]))) w
                                  [EFs (GetStats ip);
                                   EFs (ReadFile (join [ip; "instance.cfg"]))])
        end.
        { rewrite (bind_ok _ _ _ _ _ _ Hr).
          rewrite (bind_ok _ _ _ _ _ _ (pathExists_found _ _ _ Hip)).
          cbv beta iota. cbn [negb].
          by rewrite (bind_thrown _ _ _ _ _ _ E). }
        by rewrite (try_catch_thrown _ _ _ _ _ _ Hbody).
      * assert (E : filesystem.readFile (join [ip; "instance.cfg"]) w
                    = Out (Ok content) w [EFs (ReadFile (join [ip; "instance.cfg"]))])
          by (unfold filesystem.readFile; by rewrite Hcfg).
        exists (match find (fun line => startsWith line "name=")
                       (Card.split_lines (render content)) with
                | Some nameLine =>
                    if String.eqb nameLine "" then current
                    else Some (Card.slice 5 (Card.trim nameLine))
                | None => current
                end).
        split; [|done]. apply try_catch_ok.
        rewrite (bind_ok _ _ _ _ _ _ Hr).
        rewrite (bind_ok _ _ _ _ _ _ (pathExists_found _ _ _ Hip)).
        cbv beta iota. cbn [negb].
        rewrite (bind_ok _ _ _ _ _ _ E). cbv beta iota.
        destruct (find _ _) as [line|]; [destruct (String.eqb line "")|]; reflexivity.
      * exists current. split; [|done].
        assert (E : filesystem.readFile (join [ip; "instance.cfg"]) w
                    = Out (Thrown (NeuError "NE_FS_FILRDER" (join [ip; "instance.cfg"]))) w
                          [EFs (ReadFile (join [ip; "instance.cfg"]))])
          by (unfold filesystem.readFile; by rewrite Hcfg).
        match goal with
        | |- try_catch ?body ?h w = _ =>
            assert (Hbody : body w
                            = Out (Thrown (NeuError "NE_FS_FILRDER"
                                             (join [ip; "instance.cfg"]))) w
                                  [EFs (GetStats ip);
                                   EFs (ReadFile (join [ip; "instance.cfg"]))])
        end.
        { rewrite (bind_ok _ _ _ _ _ _ Hr).
          rewrite (bind_ok _ _ _ _ _ _ (pathExists_found _ _ _ Hip)).
          cbv beta iota. cbn [negb].
          by rewrite (bind_thrown _ _ _ _ _ _ E). }
        by rewrite (try_catch_thrown _ _ _ _ _ _ Hbody).
    + apply try_catch_ok. rewrite (bind_ok _ _ _ _ _ _ Hr).
      rewrite (bind_ok _ _ _ _ _ _ (pathExists_missing _ _ Hip)). reflexivity.
  - unfold try_catch. by rewrite (bind_thrown _ _ _ _ _ _ Hr).
Qed.

(** The card recognises what the installers write: once the files of a
    Prism instance are written without an error
    ([setupPrismLauncherInstance] of instance.ts, the Prism branch of
    create.ts), [checkCanPlay] reads the name of the instance back from
    [instance.cfg], cut at its trailing white space, provided the name and
    the two Java settings that precede it in the file hold no line
    feed. *)
Theorem prism_configuration_is_recognised d ip current w :
  res (Instance.getPrismLauncherInstancePath d w) = Ok ip ->
  is_Some (fs w !! ip) ->
  join [ip; "instance.cfg"] <> join [ip; "mmc-pack.json"] ->
  no_line_feed (name d) = true ->
  no_line_feed (minimum_version (java d)) = true ->
  no_line_feed (recommended_memory (java d)) = true ->
  (forall basePath prismPath,
      res (Instance.getPrismLauncherPath basePath w) = Ok prismPath ->
      join [ip; "instance.cfg"] <> join [prismPath; "icons"; "communivents.png"] ->
      res (Instance.setupPrismLauncherInstance d ip basePath w) = Ok tt ->
      res (Card.checkCanPlay d current
             (post (Instance.setupPrismLauncherInstance d ip basePath w)))
      = Ok (Some (Card.trimEnd (name d))))
  /\ (forall p,
         Create.instancePath p = ip ->
         join [ip; "instance.cfg"]
         <> join [Create.prismPath p; "icons"; "communivents.png"] ->
         res (Create.writeConfiguration d prism p w) = Ok tt ->
         res (Card.checkCanPlay d current
                (post (Create.writeConfiguration d prism p w)))
         = Ok (Some (Card.trimEnd (name d)))).
Proof.
  intros Hip Hdir Hmmc Hname Hversion Hmemory. split.
  - intros basePath prismPath Hprism Hicon Hret.
    unfold Instance.setupPrismLauncherInstance in *.
    assert (E : Instance.getPrismLauncherPath basePath w = Out (Ok prismPath) w []).
    { revert Hprism. unfold Instance.getPrismLauncherPath, Instance.unsupported.
      rewrite bind_NL_OS.
      destruct (_ || _); [by intros [= ->]|].
      destruct (String.eqb _ _); [by intros [= ->]|done]. }
    rewrite (bind_ok _ _ _ _ _ _ E) in *. cbn [res post] in *.
    destruct (prism_files_post ip (join [prismPath; "icons"; "communivents.png"]) d w
                Hdir Hmmc Hicon Hret) as (Hos & Henv & Hcfg & Hdir').
    rewrite (checkCanPlay_reads_name d current _ ip); [done| |done..].
    by rewrite (getPrismLauncherInstancePath_ambient d w _ Hos Henv).
  - intros p <- Hicon Hret.
    unfold Create.writeConfiguration in *.
    destruct (prism_files_post (Create.instancePath p)
                (join [Create.prismPath p; "icons"; "communivents.png"]) d w
                Hdir Hmmc Hicon Hret) as (Hos & Henv & Hcfg & Hdir').
    rewrite (checkCanPlay_reads_name d current _ (Create.instancePath p)); [done| |done..].
    by rewrite (getPrismLauncherInstancePath_ambient d w _ Hos Henv).
Qed.

End CardName.

Lemma prism_configuration_is_recognised_witness :
  let w := Example.linux Example.unreachable Example.prismHome in
  let setup :=
    @Instance.setupPrismLauncherInstance posix Example.modAndConfig Example.prismPack
      "/home/u" w in
  (res (@Instance.getPrismLauncherInstancePath posix Example.modAndConfig w)
   = Ok Example.prismPack
   /\ is_Some (fs w !! Example.prismPack)
   /\ @join posix [Example.prismPack; "instance.cfg"]
      <> @join posix [Example.prismPack; "mmc-pack.json"]
   /\ no_line_feed (name Example.modAndConfig) = true
   /\ no_line_feed (minimum_version (java Example.modAndConfig)) = true
   /\ no_line_feed (recommended_memory (java Example.modAndConfig)) = true
   /\ res setup = Ok tt)
  /\ res (@Card.checkCanPlay posix Example.modAndConfig None (post setup))
     = Ok (Some "Pack").
Proof.
  cbv zeta.
  assert (H1 : res (@Instance.getPrismLauncherInstancePath posix Example.modAndConfig
                      (Example.linux Example.unreachable Example.prismHome))
               = Ok Example.prismPack) by (vm_compute; reflexivity).
  assert (H2 : is_Some (fs (Example.linux Example.unreachable Example.prismHome)
                          !! Example.prismPack))
    by (exists NDir; vm_compute; reflexivity).
  assert (H3 : @join posix [Example.prismPack; "instance.cfg"]
               <> @join posix [Example.prismPack; "mmc-pack.json"])
    by (vm_compute; discriminate).
  assert (H4 : no_line_feed (name Example.modAndConfig) = true) by reflexivity.
  assert (H5 : no_line_feed (minimum_version (java Example.modAndConfig)) = true)
    by reflexivity.
  assert (H6 : no_line_feed (recommended_memory (java Example.modAndConfig)) = true)
    by reflexivity.
  assert (H7 : res (@Instance.getPrismLauncherPath posix "/home/u"
                      (Example.linux Example.unreachable Example.prismHome))
               = Ok "/home/u/.local/share/PrismLauncher") by (vm_compute; reflexivity).
  assert (H8 : @join posix [Example.prismPack; "instance.cfg"]
               <> @join posix ["/home/u/.local/share/PrismLauncher"; "icons";
                               "communivents.png"])
    by (vm_compute; discriminate).
  assert (H9 : res (@Instance.setupPrismLauncherInstance posix Example.modAndConfig
                      Example.prismPack "/home/u"
                      (Example.linux Example.unreachable Example.prismHome)) = Ok tt)
    by (vm_compute; reflexivity).
  split; [repeat (split; [assumption|]); assumption|].
  exact (proj1 (@prism_configuration_is_recognised posix
                  Example.modAndConfig Example.prismPack None
                  (Example.linux Example.unreachable Example.prismHome)
                  H1 H2 H3 H4 H5 H6)
               "/home/u" "/home/u/.local/share/PrismLauncher" H7 H8 H9).
Defined.

(** ** The order of announcements and transfers in an installation *)

Lemma marks_app t1 t2 : marks (t1 ++ t2) = marks t1 ++ marks t2.
Proof. apply omap_app. Qed.

Lemma marks_silent t : forallb (fun e => negb (is_mark e)) t = true -> marks t = [].
Proof.
  induction t as [|e t IH]; [done|]. cbn [forallb]. intros [He Ht]%andb_true_iff.
  change (marks (e :: t)) with (marks ([e] ++ t)). rewrite marks_app, (IH Ht), app_nil_r.
  destruct e as [| | |? []|]; try done.
Qed.

Lemma marks_transfers t : progress_of t = [] -> marks t = map inr (execs_of t).
Proof.
  induction t as [|e t IH]; [done|]. intros Hp.
  destruct e as [| | |n []|]; cbn in Hp |- *; try done; try (by apply IH).
  f_equal. by apply IH.
Qed.

Section Announce.
Context `{Libraries}.
Variable encode : string -> string.

Lemma groups_nil items : groups encode [] items = [].
Proof. reflexivity. Qed.

Lemma groups_short counts items more :
  (List.length counts <= List.length items)%nat ->
  groups encode counts (items ++ more) = groups encode counts items.
Proof.
  unfold groups. revert items. induction counts as [|n counts IH]; intros items Hl; [done|].
  destruct items as [|item items]; [simpl in Hl; lia|].
  cbn [zip_with app concat]. rewrite IH; [done|]. simpl in Hl. lia.
Qed.

Lemma groups_app counts1 counts2 items1 items2 :
  List.length counts1 = List.length items1 ->
  groups encode (counts1 ++ counts2) (items1 ++ items2)
  = groups encode counts1 items1 ++ groups encode counts2 items2.
Proof.
  unfold groups. intros Hl. rewrite zip_with_app by done. apply concat_app.
Qed.

(** A computation without a progress event and without a transfer. *)
Lemma announces_silent {A} (m : M A) :
  emits (fun e => negb (is_mark e)) m -> announces encode [] m.
Proof.
  intros Hm w. exists []. split; [done|]. split; [done|]. split; [|done].
  by rewrite (marks_silent _ (Hm w)).
Qed.

Lemma announces_bind {A B} items1 items2 (m : M A) (k : A -> M B) :
  announces encode items1 m ->
  (forall a, announces encode items2 (k a)) ->
  announces encode (items1 ++ items2) (bind m k).
Proof.
  intros Hm Hk w. destruct (Hm w) as (counts1 & Hl1 & Hc1 & Hm1 & Hr1).
  unfold bind. destruct (m w) as [[a|e] w1 t1] eqn:E; cbn [res emitted] in *.
  - specialize (Hr1 a eq_refl).
    destruct (Hk a w1) as (counts2 & Hl2 & Hc2 & Hm2 & Hr2).
    exists (counts1 ++ counts2). rewrite !length_app. split; [lia|].
    split; [by apply Forall_app|]. split.
    + by rewrite marks_app, Hm1, Hm2, groups_app.
    + intros b Hb. rewrite (Hr2 b Hb). lia.
  - exists counts1. rewrite length_app. split; [lia|]. split; [done|]. split; [|done].
    by rewrite groups_short.
Qed.

Lemma announces_before {A B} items (m : M A) (k : A -> M B) :
  emits (fun e => negb (is_mark e)) m ->
  (forall a, announces encode items (k a)) ->
  announces encode items (bind m k).
Proof.
  intros Hm Hk. apply (announces_bind [] items); [by apply announces_silent|done].
Qed.

Lemma announces_after {A B} items (m : M A) (k : A -> M B) :
  announces encode items m ->
  (forall a, emits (fun e => negb (is_mark e)) (k a)) ->
  announces encode items (bind m k).
Proof.
  intros Hm Hk. rewrite <- (app_nil_r items).
  apply announces_bind; [done|]. intros a. by apply announces_silent.
Qed.

(** One entry: the check of its directory, its progress event, its
    transfers. *)
Lemma announces_downloadOne file targetPath c totalFiles :
  announces encode [(targetPath, file)] (downloadOne encode file targetPath c totalFiles).
Proof.
  unfold downloadOne.
  apply announces_before; [apply (emits_pathExists _); intros; reflexivity|intros found].
  apply announces_before.
  { apply emits_when. apply (emits_createDirectory _); intros; reflexivity. }
  intros _ w.
  destruct (downloadWithRetry_shape
              (downloadCommand encode (join [targetPath; filename file]) file)
              (join [targetPath; filename file]) (filename file) w)
    as (b & n & Hres & Hp & _ & Hn & Ht & _).
  exists [n]. split; [done|]. split; [by constructor|].
  unfold events.dispatch, emit. unfold bind at 1. cbn [res post emitted].
  split; [|done].
  change (marks (?e :: ?t)) with (marks ([e] ++ t)). rewrite marks_app.
  rewrite (marks_transfers _ Hp), Ht, fmap_replicate.
  unfold groups, group. cbn. by rewrite app_nil_r.
Qed.

Lemma announces_downloadEach targetPath totalFiles files :
  forall c failed,
    announces encode (map (pair targetPath) (downloaded files))
      (downloadEach encode files targetPath c totalFiles failed).
Proof.
  induction files as [|file rest IH]; intros c failed; cbn [downloadEach].
  - apply announces_silent. by intros w.
  - unfold downloaded, not_index in *. cbn [List.filter].
    destruct (startsWith (filename file) ".index/"); cbn [negb]; [apply IH|].
    cbn [map].
    apply (announces_bind [(targetPath, file)]); [apply announces_downloadOne|].
    intros success. apply IH.
Qed.

Lemma announces_downloadFilesWith files targetPath c totalFiles :
  announces encode (map (pair targetPath) (downloaded files))
    (downloadFilesWith encode files targetPath c totalFiles).
Proof.
  unfold downloadFilesWith. apply announces_after; [apply announces_downloadEach|].
  intros failed. apply emits_when. by intros w.
Qed.

End Announce.

Section AnnounceInstall.
Context `{Libraries}.

Lemma announces_create_downloadCategories types d minecraftDir :
  forall c totalFiles,
    announces (fun url => url) (planned types d minecraftDir)
      (Create.downloadCategories types d minecraftDir c totalFiles).
Proof.
  induction types as [|[fileType category] rest IH]; intros c totalFiles;
    cbn [Create.downloadCategories planned flat_map fst snd].
  - apply announces_silent. by intros w.
  - destruct (category (files d)) as [|file entries] eqn:E; cbn [List.length Nat.ltb Nat.leb].
    + apply (IH c totalFiles).
    + apply announces_before; [apply (emits_pathExists _); intros; reflexivity|].
      intros found. apply announces_before.
      { apply emits_when. apply (emits_createDirectory _); intros; reflexivity. }
      intros _. apply announces_bind; [apply announces_downloadFilesWith|].
      intros _. apply IH.
Qed.

Lemma silent_create_writeConfiguration d t p : emits (fun e => negb (is_mark e)) (Create.writeConfiguration d t p).
Proof.
  unfold Create.writeConfiguration. destruct t.
  - apply emits_bind; [apply (emits_writeFile _); intros; reflexivity|intros _].
    apply (emits_create_updateLauncherProfiles _); intros; reflexivity.
  - apply emits_bind; [apply (emits_writeFile _); intros; reflexivity|intros _].
    apply emits_bind; [apply (emits_writeFile _); intros; reflexivity|intros _].
    apply emits_bind; [apply (emits_pathExists _); intros; reflexivity|intros found].
    destruct found; [by intros w|].
    apply emits_bind; [apply emits_getArrayBuffer|intros icon].
    apply (emits_writeBinaryFile _); intros; reflexivity.
Qed.

Lemma announces_create_prepare d t p :
  announces (fun url => url)
    (planned fileTypes d (join [Create.instancePath p; ".minecraft"]))
    (Create.prepare d t p).
Proof.
  unfold Create.prepare.
  apply announces_before; [apply (emits_pathExists _); intros; reflexivity|intros ?].
  apply announces_before.
  { apply emits_when. apply (emits_createDirectory _); intros; reflexivity. }
  intros _.
  apply announces_before; [apply (emits_pathExists _); intros; reflexivity|intros ?].
  apply announces_before.
  { apply emits_when. apply (emits_createDirectory _); intros; reflexivity. }
  intros _.
  apply announces_before; [apply silent_create_writeConfiguration|intros _].
  apply announces_create_downloadCategories.
Qed.

(** What follows the downloads of an installation. *)
Lemma create_finish_run d p w :
  exists w',
    (when (Create.isVanilla d)
       (Create.downloadMinecraftFiles (download_urls d)
          (join [Create.instancePath p; ".minecraft"])) ;;;
     events.dispatch "instanceCreationComplete"
       (DComplete (name d) (Create.instancePath p)) ;;;
     toast.success ("Created " +:+ quoted (name d) +:+ " instance!") ;;;
     ret true) w
    = Out (Ok true) w'
          ((if Create.isVanilla d
            then [EExec (clientCommand d (join [Create.instancePath p; ".minecraft"]))]
            else [])
             ++ [EDispatch "instanceCreationComplete"
                   (DComplete (name d) (Create.instancePath p));
                 EToast ToastSuccess ("Created " +:+ quoted (name d) +:+ " instance!")
                   None]).
Proof.
  destruct (Create.isVanilla d); cbn [when]; eexists; reflexivity.
Qed.

(** The marks of the part of an installation that follows the check of
    the instance path. *)
Lemma create_install_marks d t p w :
  let o := Create.install d t p w in
  let items := planned fileTypes d (join [Create.instancePath p; ".minecraft"]) in
  exists counts client,
    marks (emitted o) = groups (fun url => url) counts items ++ client
    /\ (List.length counts <= List.length items)%nat
    /\ Forall (fun n => 1 <= n <= 3)%nat counts
    /\ match res o with
       | Ok done =>
           done = true
           /\ List.length counts = List.length items
           /\ client = if Create.isVanilla d
                       then [inr (clientCommand d
                                    (join [Create.instancePath p; ".minecraft"]))]
                       else []
       | Thrown _ => client = []
       end.
Proof.
  cbv zeta. unfold Create.install.
  destruct (announces_create_prepare d t p w) as (counts & Hl & Hc & Hm & Hr).
  destruct (Create.prepare d t p w) as [[[]|e] w1 t1] eqn:E; cbn [res emitted] in *.
  - rewrite (bind_ok _ _ _ _ _ _ E).
    destruct (create_finish_run d p w1) as (w' & ->). cbn [res post emitted].
    exists counts,
      (if Create.isVanilla d
       then [inr (clientCommand d (join [Create.instancePath p; ".minecraft"]))]
       else []).
    rewrite !marks_app, Hm. split; [by destruct (Create.isVanilla d)|].
    split; [done|]. split; [done|]. split; [done|]. split; [by apply (Hr tt)|done].
  - rewrite (bind_thrown _ _ _ _ _ _ E). cbn [res emitted].
    exists counts, []. by rewrite app_nil_r.
Qed.

End AnnounceInstall.

Section Progress.
Context `{Libraries}.

(** The [catch] of an installation adds the error event only. *)
Lemma create_catch_marks d t force w :
  let body :=
    (p <- Create.resolvePaths d t ;;
     dirExists <- pathExists (Create.instancePath p) ;;
     if dirExists : bool then
       if force : bool then
         filesystem.remove (Create.instancePath p) ;;;
         Create.install d t p
       else ret false
     else Create.install d t p) in
  res (Create.createMinecraftInstance d t force w) = res (body w)
  /\ marks (emitted (Create.createMinecraftInstance d t force w)) = marks (emitted (body w)).
Proof.
  cbv zeta. unfold Create.createMinecraftInstance, try_catch.
  match goal with
  | |- context [match ?b w with _ => _ end] => destruct (b w) as [[v|e] w1 t1]
  end; [done|].
  cbn [res emitted]. split; [reflexivity|].
  rewrite marks_app. cbn. by rewrite app_nil_r.
Qed.

(** C6, as the code has it.  Among the progress events and the transfers
    of an installation, in the order they occur, each entry that is
    downloaded has one group of its own: its progress event first, then
    its one to three transfers.  The groups follow the order of the
    categories and of the manifest; an installation that throws stops
    between two groups, and one that returns [true] has a group for every
    entry of the manifest that is no index entry, followed only by the one
    transfer of the client when the manifest is vanilla.  The progress
    event of a file is hence dispatched before the first attempt to
    download it, never after. *)
Theorem progress_precedes_attempts d t force w :
  let o := Create.createMinecraftInstance d t force w in
  match res (Create.resolvePaths d t w) with
  | Thrown _ => marks (emitted o) = []
  | Ok p =>
      let minecraftDir := join [Create.instancePath p; ".minecraft"] in
      let items := planned fileTypes d minecraftDir in
      exists counts client,
        marks (emitted o) = groups (fun url => url) counts items ++ client
        /\ (List.length counts <= List.length items)%nat
        /\ Forall (fun n => 1 <= n <= 3)%nat counts
        /\ (res o = Ok true ->
            List.length counts = List.length items
            /\ client = if Create.isVanilla d
                        then [inr (clientCommand d minecraftDir)]
                        else [])
        /\ (res o <> Ok true -> client = [])
  end.
Proof.
  cbv zeta. destruct (create_catch_marks d t force w) as [-> ->].
  destruct (create_resolvePaths_pure d t w) as [r Hr]. rewrite Hr. cbn [res].
  destruct r as [p|e]; [|by rewrite (bind_thrown _ _ _ _ _ _ Hr)].
  rewrite (bind_ok _ _ _ _ _ _ Hr). cbn [res post emitted app].
  assert (Hinstall : forall w1 before,
             marks before = [] ->
             exists counts client,
               marks (before ++ emitted (Create.install d t p w1))
               = groups (fun url => url) counts
                   (planned fileTypes d (join [Create.instancePath p; ".minecraft"]))
                 ++ client
               /\ (List.length counts
                   <= List.length (planned fileTypes d
                                     (join [Create.instancePath p; ".minecraft"])))%nat
               /\ Forall (fun n => 1 <= n <= 3)%nat counts
               /\ (res (Create.install d t p w1) = Ok true ->
                   List.length counts
                   = List.length (planned fileTypes d
                                    (join [Create.instancePath p; ".minecraft"]))
                   /\ client = if Create.isVanilla d
                               then [inr (clientCommand d
                                            (join [Create.instancePath p; ".minecraft"]))]
                               else [])
               /\ (res (Create.install d t p w1) <> Ok true -> client = [])).
  { intros w1 before Hb.
    destruct (create_install_marks d t p w1) as (counts & client & Hm & Hl & Hc & Hres).
    exists counts, client. rewrite marks_app, Hb, Hm. split; [done|].
    split; [done|]. split; [done|].
    destruct (res (Create.install d t p w1)) as [v|e].
    - destruct Hres as (-> & Hlen & Hclient). split; [done|]. by intros [].
    - split; [done|]. by intros _. }
  destruct (fs w !! Create.instancePath p) as [n|] eqn:Hn.
  - rewrite (bind_ok _ _ _ _ _ _ (pathExists_found _ _ _ Hn)).
    cbn [res post emitted app]. destruct force.
    + destruct (remove_found _ _ _ Hn) as (w' & Hrm & _).
      rewrite (bind_ok _ _ _ _ _ _ Hrm). cbn [res post emitted].
      apply (Hinstall w' [EFs (GetStats (Create.instancePath p));
                          EFs (Remove (Create.instancePath p))]).
      reflexivity.
    + exists [], []. cbn. split; [done|]. split; [lia|]. split; [done|]. done.
  - rewrite (bind_ok _ _ _ _ _ _ (pathExists_missing _ _ Hn)).
    cbn [res post emitted].
    apply (Hinstall w [EFs (GetStats (Create.instancePath p))]). reflexivity.
Qed.
End Progress.

Lemma progress_precedes_attempts_witness :
  let o := Example.create Example.twoCategories minecraft false
             (Example.linux Example.flaky Example.home) in
  let mods := "/home/u/.minecraft/instances/Pack/.minecraft/mods" in
  let config := "/home/u/.minecraft/instances/Pack/.minecraft/config" in
  res o = Ok true
  /\ exists counts,
      List.length counts = 2%nat
      /\ Forall (fun n => 1 <= n <= 3)%nat counts
      /\ marks (emitted o)
         = @groups posix (fun url => url) counts
             [(mods, Example.entry "a.jar"); (config, Example.entry "c.cfg")]
           ++ [inr (@clientCommand posix Example.twoCategories
                      "/home/u/.minecraft/instances/Pack/.minecraft")].
Proof.
  cbv zeta.
  assert (H1 : res (Example.create Example.twoCategories minecraft false
                      (Example.linux Example.flaky Example.home)) = Ok true)
    by (vm_compute; reflexivity).
  split; [exact H1|].
  pose proof (@progress_precedes_attempts posix Example.twoCategories minecraft false
                (Example.linux Example.flaky Example.home)) as T.
  cbv zeta in T.
  change (res (@Create.resolvePaths posix Example.twoCategories minecraft
                 (Example.linux Example.flaky Example.home)))
    with (@Ok Create.Paths Example.packPaths) in T.
  cbv iota in T.
  destruct T as (counts & client & Hm & _ & Hc & Hok & _).
  destruct (Hok H1) as [Hl Hclient].
  exists counts. split; [exact Hl|]. split; [exact Hc|].
  rewrite Hclient in Hm. exact Hm.
Defined.

(** ** The error toasts of an installation *)

Lemma notices_app t1 t2 : notices (t1 ++ t2) = notices t1 ++ notices t2.
Proof. apply omap_app. Qed.

Lemma notices_silent t : forallb (fun e => negb (is_error_toast e)) t = true -> notices t = [].
Proof.
  induction t as [|e t IH]; [done|]. cbn [forallb]. intros [He Ht]%andb_true_iff.
  change (notices (e :: t)) with (notices ([e] ++ t)).
  rewrite notices_app, (IH Ht), app_nil_r.
  destruct e as [| | | |[]]; try done.
Qed.

(** Without a summary, the error toasts are the failure toasts. *)
Lemma notices_failures t :
  summaries t = [] -> notices t = map (fun msg => (msg, None)) (failure_toasts t).
Proof.
  induction t as [|e t IH]; [done|]. intros Hs.
  destruct e as [| | | |[] msg [description|]]; cbn in Hs |- *; try done;
    try (by apply IH).
  f_equal. by apply IH.
Qed.

Section Reports.
Context `{Libraries}.

Lemma reports_silent {A} (m : M A) :
  emits (fun e => negb (is_error_toast e)) m -> reports [] m.
Proof.
  intros Hm w a _. exists []. split; [constructor|]. by rewrite (notices_silent _ (Hm w)).
Qed.

Lemma reports_nothing {A} batches (m : M A) :
  emits (fun e => negb (is_error_toast e)) m -> reports batches m.
Proof.
  intros Hm w a _. exists (map (fun _ => []) batches). split.
  - apply Forall2_fmap_l, Forall_Forall2_diag, Forall_forall. intros entries _.
    apply sublist_nil_l.
  - rewrite (notices_silent _ (Hm w)). by induction batches.
Qed.

Lemma reports_bind {A B} batches1 batches2 (m : M A) (k : A -> M B) :
  reports batches1 m ->
  (forall a, reports batches2 (k a)) ->
  reports (batches1 ++ batches2) (bind m k).
Proof.
  intros Hm Hk w b Hb.
  apply bind_returns in Hb as (a & Ha & Hb & _ & ->).
  destruct (Hm w a Ha) as (fails1 & Hf1 & Hn1).
  destruct (Hk a _ b Hb) as (fails2 & Hf2 & Hn2).
  exists (fails1 ++ fails2). split; [by apply Forall2_app|].
  by rewrite notices_app, Hn1, Hn2, flat_map_app.
Qed.

Lemma reports_before {A B} batches (m : M A) (k : A -> M B) :
  reports [] m -> (forall a, reports batches (k a)) -> reports batches (bind m k).
Proof. intros Hm Hk. by apply (reports_bind [] batches). Qed.

Lemma reports_after {A B} batches (m : M A) (k : A -> M B) :
  reports batches m -> (forall a, reports [] (k a)) -> reports batches (bind m k).
Proof.
  intros Hm Hk. rewrite <- (app_nil_r batches). by apply reports_bind.
Qed.

(** The names [downloadEach] adds to [failedDownloads] are names of
    entries it downloads, in their order. *)
Lemma downloadEach_failed encode targetPath totalFiles files :
  forall c failed w l,
    res (downloadEach encode files targetPath c totalFiles failed w) = Ok l ->
    exists newly,
      l = failed ++ newly /\ sublist newly (map filename (downloaded files)).
Proof.
  induction files as [|file rest IH]; intros c failed w l Hl; cbn [downloadEach] in Hl.
  - injection Hl as <-. exists []. by rewrite app_nil_r.
  - unfold downloaded, not_index in *. cbn [List.filter].
    destruct (startsWith (filename file) ".index/"); cbn [negb].
    + apply (IH _ _ _ _ Hl).
    + apply bind_returns in Hl as (success & _ & Hl & _).
      destruct (IH _ _ _ _ Hl) as (newly & -> & Hsub). cbn [map].
      destruct success.
      * exists newly. split; [done|]. by apply sublist_cons.
      * exists (filename file :: newly). rewrite <- app_assoc. split; [done|].
        by apply sublist_skip.
Qed.

(** One batch reports its own failures. *)
Lemma reports_downloadFilesWith encode files targetPath c totalFiles :
  reports [files] (downloadFilesWith encode files targetPath c totalFiles).
Proof.
  intros w [] Hret. rewrite downloadFilesWith_run in Hret |- *. cbv zeta in Hret |- *.
  destruct (res (downloadEach encode files targetPath c totalFiles [] w))
    as [failed|e] eqn:E; [|done].
  destruct (downloadEach_shape _ _ _ _ _ _ _ _ E) as (_ & _ & Hs & newly & Hl & Hf).
  destruct (downloadEach_failed _ _ _ _ _ _ _ _ E) as (newly' & Hl' & Hsub).
  cbn [app] in Hl, Hl'. subst newly newly'.
  exists [failed]. split; [by repeat constructor|].
  cbn [emitted flat_map]. rewrite notices_app, (notices_failures _ Hs), Hf, app_nil_r.
  unfold report. rewrite map_map. f_equal. by destruct failed.
Qed.

Lemma reports_create_downloadCategories types d minecraftDir :
  forall c totalFiles,
    reports (map (fun ty : string * (Files -> list File) => ty.2 (files d)) types)
      (Create.downloadCategories types d minecraftDir c totalFiles).
Proof.
  induction types as [|[fileType category] rest IH]; intros c totalFiles;
    cbn [Create.downloadCategories map fst snd].
  - apply reports_silent. by intros w.
  - destruct (category (files d)) as [|file entries] eqn:E; cbn [List.length Nat.ltb Nat.leb].
    + intros w a Ha. destruct (IH c totalFiles w a Ha) as (fails & Hf & Hn).
      exists ([] :: fails). split; [by constructor|done].
    + apply reports_before.
      { apply reports_silent. apply (emits_pathExists _); intros; reflexivity. }
      intros found. apply reports_before.
      { apply reports_silent, emits_when.
        apply (emits_createDirectory _); intros; reflexivity. }
      intros _.
      apply (reports_bind [file :: entries]); [apply reports_downloadFilesWith|].
      intros _. apply IH.
Qed.

(** A call of [updateLauncherProfiles] that returns has shown no error
    toast. *)
Lemma reports_create_updateLauncherProfiles minecraftPath instanceName instancePath
      javaArgs :
  reports [] (Create.updateLauncherProfiles minecraftPath instanceName instancePath javaArgs).
Proof.
  intros w a Ha. unfold Create.updateLauncherProfiles in *.
  match type of Ha with
  | res (try_catch ?body ?h w) = _ =>
      assert (Htc : try_catch body h w = body w)
        by (apply (try_catch_returns body h w a);
            [intros e w'; by exists e | exact Ha]);
      assert (Hbody : emits (fun e => negb (is_error_toast e)) body)
  end.
  { apply emits_bind; [apply (emits_pathExists _); intros; reflexivity|intros found].
    apply emits_bind.
    { destruct found; [|apply emits_ret].
      apply emits_bind; [apply (emits_readFile _); intros; reflexivity|intros content].
      apply emits_lift. }
    intros profiles. apply emits_bind; [apply emits_lift|intros base].
    apply emits_bind; [apply emits_now|intros created].
    apply emits_bind; [apply emits_getBase64|intros icon].
    apply emits_bind; [apply emits_now|intros lastUsed].
    apply emits_bind; [apply emits_lift|intros base'].
    apply (emits_writeFile _); intros; reflexivity. }
  rewrite Htc. exists []. split; [constructor|].
  by rewrite (notices_silent _ (Hbody w)).
Qed.

Lemma reports_create_writeConfiguration d t p :
  reports [] (Create.writeConfiguration d t p).
Proof.
  unfold Create.writeConfiguration. destruct t.
  - apply reports_before.
    { apply reports_silent. apply (emits_writeFile _); intros; reflexivity. }
    intros _. apply reports_create_updateLauncherProfiles.
  - apply reports_silent.
    apply emits_bind; [apply (emits_writeFile _); intros; reflexivity|intros _].
    apply emits_bind; [apply (emits_writeFile _); intros; reflexivity|intros _].
    apply emits_bind; [apply (emits_pathExists _); intros; reflexivity|intros found].
    destruct found; [by intros w|].
    apply emits_bind; [apply emits_getArrayBuffer|intros icon].
    apply (emits_writeBinaryFile _); intros; reflexivity.
Qed.

Lemma reports_create_install d t p :
  reports (map (fun ty : string * (Files -> list File) => ty.2 (files d)) fileTypes)
    (Create.install d t p).
Proof.
  unfold Create.install, Create.prepare.
  apply reports_after.
  - apply reports_before.
    { apply reports_silent. apply (emits_pathExists _); intros; reflexivity. }
    intros ?. apply reports_before.
    { apply reports_silent, emits_when.
      apply (emits_createDirectory _); intros; reflexivity. }
    intros _. apply reports_before.
    { apply reports_silent. apply (emits_pathExists _); intros; reflexivity. }
    intros ?. apply reports_before.
    { apply reports_silent, emits_when.
      apply (emits_createDirectory _); intros; reflexivity. }
    intros _. apply reports_before; [apply reports_create_writeConfiguration|].
    intros _. apply reports_create_downloadCategories.
  - intros _. apply reports_silent.
    apply emits_bind.
    { apply emits_when. unfold Create.downloadMinecraftFiles.
      apply emits_bind; [apply (emits_execCommand _); intros; reflexivity|intros ?].
      apply emits_ret. }
    intros _. unfold events.dispatch, toast.success.
    apply emits_bind; [by intros w|intros _].
    apply emits_bind; [by intros w|intros _]. apply emits_ret.
Qed.

(** C8, as the code has it.  [downloadFiles] returns nothing.  It
    collects the names of the entries of its batch whose three attempts
    all failed (those [downloadWithRetry] showed a failure toast for) and
    shows one summary toast of its own when there is at least one: the
    message names the file when exactly one failed in the batch and gives
    the count otherwise.  The caller does not put the batches together:
    in an installation that returns [true] the error toasts are, category
    after category in the order of [fileTypes], the failure toasts of the
    entries of the category that failed, followed by the summary of that
    category when there is one; no summary is shown for the installation
    as a whole.  A download that fails never throws. *)
Theorem batch_reports_own_failures encode entries targetPath c totalFiles w :
  let o := downloadEach encode entries targetPath c totalFiles [] w in
  downloadFilesWith encode entries targetPath c totalFiles w
  = match res o with
    | Ok failed => Out (Ok tt) (post o) (emitted o ++ summary failed)
    | Thrown e => Out (Thrown e) (post o) (emitted o)
    end
  /\ (forall failed,
        res o = Ok failed ->
        sublist failed (map filename (downloaded entries))
        /\ failure_toasts (emitted o) = map (fun fn => "Failed to download " +:+ fn) failed
        /\ summaries (emitted (downloadFilesWith encode entries targetPath c totalFiles w))
           = match failed with
             | [] => []
             | [one] => ["Failed to download: " +:+ one]
             | _ => ["Failed to download " +:+ pretty (List.length failed)
                       +:+ " files. Check the console for details."]
             end)
  /\ (forall cmd fullPath filename w',
        exists b, res (downloadWithRetry cmd fullPath filename 3 w') = Ok b)
  /\ (forall d t force w' created,
        res (Create.createMinecraftInstance d t force w') = Ok created ->
        exists fails,
          Forall2 (fun failed (ty : string * (Files -> list File)) =>
                     sublist failed (map filename (downloaded (ty.2 (files d)))))
                  fails fileTypes
          /\ notices (emitted (Create.createMinecraftInstance d t force w'))
             = flat_map report fails).
Proof.
  cbv zeta. split; [apply downloadFilesWith_run|]. split; [|split].
  - intros failed E.
    destruct (downloadEach_shape _ _ _ _ _ _ _ _ E) as (_ & _ & Hs & newly & Hl & Hf).
    destruct (downloadEach_failed _ _ _ _ _ _ _ _ E) as (newly' & Hl' & Hsub).
    cbn [app] in Hl, Hl'. subst newly newly'. split; [done|]. split; [done|].
    rewrite downloadFilesWith_run. cbv zeta. rewrite E. cbn [emitted].
    rewrite summaries_app, Hs. cbn [app].
    by destruct failed as [|x [|y rest]].
  - intros cmd fullPath fn w'.
    destruct (downloadWithRetry_shape cmd fullPath fn w') as (b & n & Hb & _).
    by exists b.
  - intros d t force w' created Hret. unfold Create.createMinecraftInstance in *.
    match type of Hret with
    | res (try_catch ?body ?h w') = _ =>
        assert (Htc : try_catch body h w' = body w')
          by (apply (try_catch_returns body h w' created);
              [intros e w1; by exists e | exact Hret])
    end.
    rewrite Htc in Hret |- *. clear Htc.
    assert (Hbody : reports
                      (map (fun ty : string * (Files -> list File) => ty.2 (files d))
                         fileTypes)
                      (p <- Create.resolvePaths d t ;;
                       dirExists <- pathExists (Create.instancePath p) ;;
                       if dirExists : bool then
                         if force : bool then
                           filesystem.remove (Create.instancePath p) ;;;
                           Create.install d t p
                         else ret false
                       else Create.install d t p)).
    { apply reports_before.
      { apply reports_silent. apply (emits_create_resolvePaths _). }
      intros p. apply reports_before.
      { apply reports_silent. apply (emits_pathExists _); intros; reflexivity. }
      intros found. destruct found; [destruct force|].
      - apply reports_before; [|intros _; apply reports_create_install].
        apply reports_silent. intros w1. unfold filesystem.remove.
        by destruct (fs w1 !! Create.instancePath p).
      - apply reports_nothing. by intros w1.
      - apply reports_create_install. }
    destruct (Hbody w' created Hret) as (fails & Hf & Hn).
    exists fails. split; [|done].
    clear -Hf. revert fails Hf. generalize fileTypes as types.
    induction types as [|ty types IH]; intros fails Hf; inversion Hf; subst;
      constructor; auto.
Qed.

End Reports.
